(* ===== verification/_CoqProject ===== *)
-Q . S2P
Prelude.v
PyStr.v
PySort.v
Timestamp.v
Entities.v
Standings.v
Store.v
Workflows.v
TableFacts.v
Filter.v
Routes.v
App.v
NetworkTests.v
