(* ===== verification/Prelude.v ===== *)
(** * A verification library for the championship standings service

    The repository (mijovicpetar/championship) is a Flask/SQLAlchemy service
    that stores football fixture results and derives league standings from
    them.  Its algorithmic content lives in
    [src/app/championship/utils.py] (class [ChampionshipDataUtil]) and in the
    ORM and row classes of [src/app/championship/models.py].  The route
    handlers in [routes.py], the decorator in [wrappers.py], the app factory
    and the configuration are transport glue around it.

    ** How the parts interact

    A publish request calls [handle_fixture_results].  For each submitted
    result it resolves (or creates) the league, group and teams
    ([get_add_league], [get_add_group], [get_add_team]) and inserts a
    [FixtureResult] ([add_fixture_result]).  It then recomputes the table of
    every group it touched ([__gen_standing_table]).  A table is computed from
    scratch from the group's fixture rows:
    - [__create_standings_dict] makes one zeroed [StandingsRow] per team id;
    - [__parse_result] parses each score ["h:a"] and updates both rows;
    - [__get_sorted_stangings_as_list] sorts the rows with
      [list.sort(reverse=True)] under [StandingsRow.__lt__] and numbers them.
    [update_fixture_result] overwrites a stored score.  [filter_results]
    builds a SQL string from optional filters.  A request reaches these
    methods through the app [create_app] builds: Flask matches its
    method and path against the blueprint's four rules and calls the
    view of routes.py, which reads the JSON body and maps exceptions to
    answers.

    ** Files, in dependency order

    - [Prelude] (this file): the Python exception type [py_exc], the result
      type [pyres] of a computation that may raise, its [let!] notation in
      [py_scope], the loop combinator [py_foldl], shared lemmas, the [py]
      hint database and the tactics the components use.
    - [PyStr]: the Python built-ins the code applies to strings:
      [str.split] with a one-character separator, [int(str)] and [str(int)].
      It proves the split/join and int/str round trips, which the score
      theorems of [Standings] and [NetworkTests] use.
    - [PySort]: CPython's [list.sort(reverse=True)] for a key order: stable,
      descending.  A uniqueness theorem shows that every stable sort returns
      the same list.
    - [Timestamp]: the [datetime] record, the calendar checks of its
      constructor, CPython's [_strptime] for the format
      ["%Y-%m-%dT%H:%M:%S"] (the regular expression it compiles, matched
      with backtracking in the order of the alternatives, IGNORECASE) and
      [strftime].  It proves the strptime/strftime round trip for valid
      datetimes from year 1000 on (a finite check of each field, evaluated
      by [vm_compute], plus a matching lemma per group of the pattern), and
      the leniency of the parse: for every such datetime, the text with
      unpadded fields and a lower-case [t] is read as the same datetime.
    - [Entities]: the rows of [models.py] ([League], [LeagueGroup],
      [FootballTeam], [FixtureResult]) and the database snapshot [db]: one
      list per table in scan order, and each table's next sequence value.
      It also declares the typeclass [EntityLookup], the interface through
      which the aggregator reads rows by id ([Model.query.get],
      [filter_by(group_id=...)]).  [db] is its implementation.
    - [Standings]: the aggregator.  It models [StandingsRow] with its
      comparison operators, [__create_standings_dict], [__parse_result],
      [__get_sorted_stangings_as_list] and [__gen_standing_table].  It
      proves the row invariants, the refinement of an abstract per-team
      statistics specification, the sortedness and ranks of the table,
      that the sort is the stable descending sort by points then goal
      difference (every list in that order with the dict's ties is the
      result), the score format (round trip, what a missing colon and a
      second colon do), the error cases and the away-win defect.
    - [Store]: the entity catalog ([get_add_league], [get_add_group],
      [get_add_team], [get_league], [get_group]) as one generic [upsert].
      It proves idempotence by natural key, the catalog invariant
      [db_wf] (unique keys, ids distinct and below the sequences) and that
      one row carries each resolved key.
    - [Workflows]: [add_fixture_result], [handle_fixture_results],
      [get_tabels_for_groups], [update_fixture_result] and
      [update_fixture_results], threading the database through every
      commit.  It proves the update contract (not found, overwrite of the
      score only, per-item batch), the publish contract (one table per
      distinct group touched, the invariant [db_inv] kept, at most one
      league, one group, two teams and one fixture added per submission),
      and the defects: a publish is never unwrapped, an empty batch
      raises, a failed submission is swallowed after its entities were
      created.
    - [TableFacts]: every row of a table is its zeroed row plus a sum of
      what [__parse_result] credits its team.  From this: the table does
      not depend on the order of its fixture rows (when the set order of
      team ids depends only on the elements, as [ascending_set_order]
      does), the bounds of every row, and the points total of a table.
    - [Filter]: the SQL text [filter_results] builds, the parse of a row
      by [__parse_query_row] ([FixtureResult.__init__] with its
      [isinstance(kickoff_at, datetime)] test, then [to_result_dict]), and
      [filter_results] over any SQL engine (a section variable: a function
      of the database and the text to rows or an exception, and the
      database it leaves, since the text may hold statements that write).
      [sql_scan] reads a text as SQL does to count its statements: quotes
      open and close literals, a semicolon outside one ends a statement.
      It proves that criteria without a quote build one [select]
      statement, that the team value is read from inside the literal the
      query opened (the injection), the query with no criterion, the
      malformed [where  and] without a team criterion, the verbatim splice
      of the team value, and that errors are swallowed into [[]].
    - [Routes]: the four endpoints of [routes.py] ([get_data], the
      [try/except TypeError/except] of each, [abort]) and the [verify_mode]
      decorator of [wrappers.py]; the service as a step relation over the
      database ([serve], [service_step]).  A filter runs the engine and
      can write; a request is safe ([safe_request]) when its filter
      criteria hold no quote, and [safe_step] and [safe_reachable] follow
      safe requests only.  Given the one assumption on the engine, that a
      text that is one [select] statement writes nothing, it proves the
      invariant on every safely reachable database, the mode guard, and
      the endpoint-level defects: a null matchday poisons its group for
      every later sequence of safe requests (stdpp's [rtc] of
      [safe_step]), every later publish to the group is answered with an
      error message, and updates are always reported as Success.
    - [App]: [create_app] of [app/__init__.py] ([os.path.join],
      [from_pyfile] over a file system map, [from_object],
      [DB.init_app]), [config/dev.py] as a module of assignments run by a
      small interpreter with [str.format], and the four [@dm.route]
      rules with Werkzeug's dispatch ([http_serve]).  It proves the
      configuration the app gets, the routing of each route's path for
      every method (200 for [OPTIONS], the view, or 405) and the 404 of
      every path no rule matches, and that the HTTP layer refines the
      service of [Routes]: every HTTP request serves the request of the
      service its view makes ([http_request]) or leaves the database as
      it is, so the invariant holds of every database that safe HTTP
      requests reach.
    - [NetworkTests]: the four tests of [tests.py] as sequences of
      requests to the service with their checks, and [generate_new_score]
      with its retry loop over a source of random draws.  It proves that
      the loop terminates (it returns the first round that differs from
      the old score, and at most one pair in 36 repeats it), that
      [test_update_result] passes when the engine reads every stored
      fixture, and that the other three tests pass whenever the publish
      answers JSON and stop with an exception otherwise ([loads] of an
      HTML page in [publish()]): their checks never fail.

    ** Modelling choices

    - Python values.  Ids are [Z] (PostgreSQL serial integers).  Text is a
      Stdlib [string], whose characters are read as the code points 0-255.
      A nullable column is an [option].  A JSON field of a request is a
      [field]: missing, null, or a value.
    - Exceptions.  An uncaught Python exception is a [Raise e] value of
      [pyres].  [try/except] blocks are matches on it.  The loops of the code
      are [py_foldl], which stops at the first exception, as Python does.
    - Dicts.  A Python dict whose iteration order matters is a [pydict]: an
      insertion-ordered key list beside a [gmap].  Python sets are iterated
      through the typeclass [PySetOrder].  CPython guarantees only that the
      iteration lists each element once, so the theorems assume only that.
    - Sorting.  [list.sort] is CPython's timsort.  Timsort is stable, so its
      result is the unique stable sort of the list.  It is modelled by a
      stable insertion sort ([PySort.py_sort_reverse]), and the
      uniqueness theorem justifies the substitution.
    - The database.  The rows committed before an exception stay, so a
      workflow returns its [pyres] beside the database it leaves.  The SQL
      engine that runs the filter query is not code of the repository; it
      is a parameter of the theorems, which may write.  The one
      assumption on it, a section hypothesis of the invariant theorems
      ([select_read_only]), is that a text that is one [select] statement
      leaves the database as it is.
    - Fuel only where the code can loop for ever.  Every loop of the
      service runs over a finite list, so its definitions are structurally
      recursive and total, and every endpoint answers every request.  The
      regular-expression matcher recurses on the pattern.  The one
      unbounded loop is the [while] of [generate_new_score] in the tests:
      it draws until the score changes, so it takes a fuel (the number of
      further rounds), and the termination theorem says how much fuel is
      enough for a given draw sequence.  The only bounds are those of the
      [datetime] fields (years 1000-9999 for the round trip, where glibc
      writes four year digits).  Python integers are unbounded, so ids and
      counts are [Z] with no wrap-around.

    ** Not modelled

    The libraries the app factory calls, beyond the keys and the
    behaviour the repository relies on: Flask's default configuration is
    a parameter, the SQLAlchemy engine and connection pool are not
    modelled, and [str.format] is modelled for the automatically numbered
    fields and escapes only (a field with a name, a conversion or a
    format spec gives [None]).  The HTTP layer carries the body as
    [None] or the JSON string the client sent (what [tests.py] sends);
    other JSON bodies reach the endpoints of [Routes] directly.  JSON
    encoding: [json.loads] is the class [JsonLoads], [dumps] is left out,
    and JSON values of another type than the model's (a number as a team
    name, a dict where a list is expected) are not modelled, since their
    effect depends on the database driver's coercions.  Of the network
    tests of [tests.py], the HTTP transport and the file read of
    [input.json]: the tests' requests are the decoded values.  Database
    failures (the
    [except: traceback.print_exc()] paths that only a failing database
    reaches), the SQL semantics of the filter query beyond its
    statements and literals, and concurrent
    requests (spec section 5): the service is modelled one request at a
    time.
*)

From stdpp Require Export base list gmap strings.
From Stdlib Require Export ZArith Lia.

Declare Scope py_scope.
Delimit Scope py_scope with py.
Open Scope Z_scope.

(** Python exceptions raised by the modelled code. *)
Inductive py_exc :=
| KeyError
| IndexError
| ValueError
| AttributeError
| TypeError
| UnboundLocalError
| NameError
| OSError.

#[export] Instance py_exc_eq_dec : EqDecision py_exc.
Proof. solve_decision. Defined.

(** The outcome of a Python computation: a value, or a raised exception. *)
Inductive pyres (A : Type) :=
| Ok (a : A)
| Raise (e : py_exc).
Arguments Ok {A} a.
Arguments Raise {A} e.

Definition bind_py {A B} (m : pyres A) (k : A -> pyres B) : pyres B :=
  match m with
  | Ok a => k a
  | Raise e => Raise e
  end.

Notation "'let!' x := m 'in' k" := (bind_py m (fun x => k))
  (at level 10, x name, m at level 100, k at level 200) : py_scope.
Notation "'let!' ' p := m 'in' k" := (bind_py m (fun p => k))
  (at level 10, p pattern, m at level 100, k at level 200) : py_scope.
Open Scope py_scope.

(** [o] or the exception [e] when [o] is [None]: attribute access on a
    query result that is [None], [dict[key]] on a missing key. *)
Definition py_of_option {A} (e : py_exc) (o : option A) : pyres A :=
  match o with
  | Some a => Ok a
  | None => Raise e
  end.

(** [l[i]] for a Python list: [IndexError] out of range. *)
Definition py_index {A} (l : list A) (i : nat) : pyres A :=
  py_of_option IndexError (l !! i).

(** A Python [for] loop whose body may raise: the first exception stops it. *)
Fixpoint py_foldl {A B} (f : A -> B -> pyres A) (acc : A) (l : list B) : pyres A :=
  match l with
  | [] => Ok acc
  | x :: l' => bind_py (f acc x) (fun acc' => py_foldl f acc' l')
  end.

(** A JSON request field read with [d.get(k)] or [d[k]]. *)
Inductive field (A : Type) :=
| Missing
| Null
| Val (a : A).
Arguments Missing {A}.
Arguments Null {A}.
Arguments Val {A} a.

(** [d.get(k)]: [None] when the key is missing or the value is null. *)
Definition field_get {A} (f : field A) : option A :=
  match f with
  | Val a => Some a
  | _ => None
  end.

(** [d[k]]: [KeyError] when the key is missing. *)
Definition field_index {A} (f : field A) : pyres (option A) :=
  match f with
  | Missing => Raise KeyError
  | Null => Ok None
  | Val a => Ok (Some a)
  end.

(** ** Generic lemmas *)

Create HintDb py discriminated.
Create Rewrite HintDb py_rw.

Lemma bind_py_Ok {A B} (m : pyres A) (k : A -> pyres B) b :
  bind_py m k = Ok b <-> exists a, m = Ok a /\ k a = Ok b.
Proof. destruct m; simpl; split; intros; naive_solver. Qed.

Lemma bind_py_Raise {A B} (m : pyres A) (k : A -> pyres B) e :
  bind_py m k = Raise e <-> m = Raise e \/ exists a, m = Ok a /\ k a = Raise e.
Proof. destruct m; simpl; split; intros; naive_solver. Qed.

Lemma bind_py_ret {A B} (a : A) (k : A -> pyres B) : bind_py (Ok a) k = k a.
Proof. reflexivity. Qed.

Lemma py_of_option_Ok {A} e (o : option A) a : py_of_option e o = Ok a <-> o = Some a.
Proof. destruct o; simpl; split; congruence. Qed.

Lemma py_foldl_app {A B} (f : A -> B -> pyres A) acc l1 l2 :
  py_foldl f acc (l1 ++ l2) = let! acc' := py_foldl f acc l1 in py_foldl f acc' l2.
Proof.
  revert acc. induction l1 as [|x l1 IH]; intros acc; simpl; [done|].
  destruct (f acc x); simpl; auto.
Qed.

Section FoldInvariant.
Context {A B : Type} (f : A -> B -> pyres A).

(** A property preserved by every step of a loop holds at its end. *)
Lemma py_foldl_invariant (P : A -> Prop) l acc r :
  P acc ->
  (forall a x a', x ∈ l -> P a -> f a x = Ok a' -> P a') ->
  py_foldl f acc l = Ok r -> P r.
Proof.
  revert acc. induction l as [|x l IH]; intros acc Hacc Hstep; simpl.
  - congruence.
  - intros Hr. apply bind_py_Ok in Hr as (a' & Hf & Hr).
    eapply IH; [eapply Hstep; eauto; set_solver | | exact Hr].
    intros; eapply Hstep; eauto; set_solver.
Qed.

(** A loop whose body never raises terminates with a value. *)
Lemma py_foldl_total l acc :
  (forall a x, x ∈ l -> exists a', f a x = Ok a') ->
  exists r, py_foldl f acc l = Ok r.
Proof.
  revert acc. induction l as [|x l IH]; intros acc Hstep; simpl; [eauto|].
  destruct (Hstep acc x) as [a' Ha']; [set_solver|]. rewrite Ha'. simpl.
  apply IH. intros; apply Hstep; set_solver.
Qed.

(** Every element a loop visits went through a step that did not raise. *)
Lemma py_foldl_Ok_each l acc r :
  py_foldl f acc l = Ok r -> forall x, x ∈ l -> exists a a', f a x = Ok a'.
Proof.
  revert acc. induction l as [|y l IH]; intros acc Hr x Hx; [set_solver|].
  simpl in Hr. apply bind_py_Ok in Hr as (a' & Hf & Hr).
  apply elem_of_cons in Hx as [->|Hx]; eauto.
Qed.

(** A loop whose body never raises is a plain left fold. *)
Lemma py_foldl_pure (g : A -> B -> A) l acc :
  (forall a x, f a x = Ok (g a x)) -> py_foldl f acc l = Ok (foldl g acc l).
Proof.
  intros Hg. revert acc. induction l as [|x l IH]; intros acc; simpl; [done|].
  rewrite Hg. apply IH.
Qed.
End FoldInvariant.

(** Every element of the left list of a [Forall2] has a partner. *)
Lemma Forall2_elem_l {A B} (P : A -> B -> Prop) l k x :
  Forall2 P l k -> x ∈ l -> exists y, P x y.
Proof.
  intros HF Hx. apply list_elem_of_lookup_1 in Hx as [i Hi].
  destruct (Forall2_lookup_l _ _ _ _ _ HF Hi) as (y & _ & Hy). eauto.
Qed.

(** A loop that appends [h x] for each [x] and stops at the first
    exception: on success it appended one result per element, in order. *)
Lemma py_foldl_map_Ok {A B} (h : A -> pyres B) l acc r :
  py_foldl (fun acc x => let! y := h x in Ok (acc ++ [y])) acc l = Ok r ->
  exists ys, r = acc ++ ys /\ Forall2 (fun x y => h x = Ok y) l ys.
Proof.
  revert acc. induction l as [|x l IH]; intros acc Hr; simpl in Hr.
  - injection Hr as <-. exists []. by rewrite app_nil_r.
  - destruct (h x) as [y|] eqn:Hy; simpl in Hr; [|discriminate].
    apply IH in Hr as (ys & -> & Hys). exists (y :: ys).
    rewrite <- app_assoc. split; [done|]. by constructor.
Qed.

(** The converse: when every element gives a result, the loop returns them
    all. *)
Lemma py_foldl_map_Forall2 {A B} (h : A -> pyres B) l ys acc :
  Forall2 (fun x y => h x = Ok y) l ys ->
  py_foldl (fun acc x => let! y := h x in Ok (acc ++ [y])) acc l = Ok (acc ++ ys).
Proof.
  intros Hl. revert acc. induction Hl as [|x y l ys Hxy Hl IH]; intros acc; simpl.
  - by rewrite app_nil_r.
  - rewrite Hxy. simpl. rewrite IH, <- app_assoc. done.
Qed.

(** When one element raises, the loop raises. *)
Lemma py_foldl_map_Raise {A B} (h : A -> pyres B) l acc x e :
  x ∈ l -> h x = Raise e ->
  exists e', py_foldl (fun acc x => let! y := h x in Ok (acc ++ [y])) acc l = Raise e'.
Proof.
  intros Hx He. revert acc. induction l as [|z l IH]; intros acc; [set_solver|simpl].
  apply elem_of_cons in Hx as [->|Hx].
  - rewrite He. by eexists.
  - destruct (h z); simpl; [by apply IH|by eexists].
Qed.

(** ** Sums of integers over a list *)

Definition zsum {A} (f : A -> Z) (l : list A) : Z := foldr (fun x acc => f x + acc) 0 l.

Section Zsum.
Context {A : Type}.
Implicit Types (f g : A -> Z) (l : list A).

Lemma zsum_app f l1 l2 : zsum f (l1 ++ l2) = zsum f l1 + zsum f l2.
Proof. induction l1; simpl; lia. Qed.

Lemma zsum_perm f l1 l2 : l1 ≡ₚ l2 -> zsum f l1 = zsum f l2.
Proof. induction 1; simpl; lia. Qed.

Lemma zsum_ext f g l : (forall x, x ∈ l -> f x = g x) -> zsum f l = zsum g l.
Proof. induction l as [|x l IH]; intros H; simpl; [done|]. rewrite H, IH; set_solver. Qed.

Lemma zsum_plus f g l : zsum (fun x => f x + g x) l = zsum f l + zsum g l.
Proof. induction l; simpl; lia. Qed.

Lemma zsum_zero l : zsum (fun _ => 0) l = 0.
Proof. induction l; simpl; lia. Qed.

Lemma zsum_map {B} f (h : B -> A) (l : list B) : zsum f (map h l) = zsum (fun x => f (h x)) l.
Proof. induction l; simpl; lia. Qed.

(** A sum over the values a partial map gives for some keys. *)
Lemma zsum_omap {K} f (g : K -> Z) (h : K -> option A) (ks : list K) :
  (forall k, k ∈ ks -> exists v, h k = Some v /\ f v = g k) -> zsum f (omap h ks) = zsum g ks.
Proof.
  induction ks as [|k ks IH]; intros Hk; [done|].
  destruct (Hk k) as (v & Hv & Hf); [set_solver|].
  change (omap h (k :: ks)) with (match h k with Some v => v :: omap h ks | None => omap h ks end).
  rewrite Hv. change (f v + zsum f (omap h ks) = g k + zsum g ks).
  rewrite Hf, IH; [done|set_solver].
Qed.
End Zsum.

(** Double sums commute. *)
Lemma zsum_swap {A B} (f : A -> B -> Z) la lb :
  zsum (fun a => zsum (f a) lb) la = zsum (fun b => zsum (fun a => f a b) la) lb.
Proof.
  induction la as [|a la IH]; simpl.
  - symmetry. apply zsum_zero.
  - rewrite IH. symmetry. apply (zsum_plus (fun b => f a b) (fun b => zsum (fun a => f a b) la)).
Qed.

(** A sum over distinct ids of a term that is non-zero at one id only. *)
Lemma zsum_indicator (l : list Z) x a :
  NoDup l -> zsum (fun y => if x =? y then a else 0) l = if bool_decide (x ∈ l) then a else 0.
Proof.
  induction 1 as [|y l Hy Hnd IH]; simpl; [done|]. rewrite IH.
  destruct (Z.eqb_spec x y) as [->|Hne]; repeat case_bool_decide; set_solver || lia.
Qed.

#[export] Hint Rewrite @bind_py_ret @py_foldl_app : py_rw.

(** Split the [let!] equations of the hypotheses into their steps. *)
Ltac py_inv :=
repeat match goal with
| H : bind_py _ _ = Ok _ |- _ =>
    let a := fresh "a" in let Ha := fresh "Ha" in
    apply bind_py_Ok in H as (a & Ha & H)
| H : py_of_option _ _ = Ok _ |- _ => apply py_of_option_Ok in H
| H : Ok _ = Ok _ |- _ => injection H as H; subst
| H : Raise _ = Ok _ |- _ => discriminate H
| H : Ok _ = Raise _ |- _ => discriminate H
end.
