(* ===== verification/PyStr.v ===== *)
(** * PyStr: the Python string built-ins the service applies to scores

    [__parse_result] (utils.py) reads a score with
    [fixture_result.score.split(':')] and [int(...)] of the two parts.  The
    tests (tests.py, [generate_new_score]) build one with
    [str(h) + ':' + str(a)].  This file models CPython's [str.split] with a
    one-character separator, [sep.join], [int(str)] in base 10 and
    [str(int)].  It proves their round trips. *)

From Stdlib Require Import Ascii String DecimalN.
From S2P Require Import Prelude.

Module PyStr.

(** ** [str.split(sep)] and [sep.join] *)

(** [s.split(sep)] for a one-character [sep]: the pieces between the
    separators, empty pieces included.  It never returns an empty list. *)
Fixpoint py_split (sep : ascii) (s : string) : list string :=
  match s with
  | EmptyString => [EmptyString]
  | String c s' =>
      let parts := py_split sep s' in
      if Ascii.eqb c sep then EmptyString :: parts
      else match parts with
           | p :: ps => String c p :: ps
           | [] => [String c EmptyString]
           end
  end.

(** [sep.join(parts)]. *)
Fixpoint py_join (sep : ascii) (parts : list string) : string :=
  match parts with
  | [] => EmptyString
  | [p] => p
  | p :: ps => String.append p (String sep (py_join sep ps))
  end.

(** ** [int(str)] in base 10 *)

(** Python whitespace among the code points 0-255 ([str.isspace]). *)
Definition is_py_space (c : ascii) : bool :=
  let n := nat_of_ascii c in
  ((9 <=? n) && (n <=? 13))%nat || ((28 <=? n) && (n <=? 32))%nat
  || (n =? 133)%nat || (n =? 160)%nat.

Fixpoint lstrip (l : list ascii) : list ascii :=
  match l with
  | c :: l' => if is_py_space c then lstrip l' else l
  | [] => []
  end.

Definition strip (l : list ascii) : list ascii := rev (lstrip (rev (lstrip l))).

(** The decimal digit of a character, as the [Decimal.uint] constructor. *)
Definition digit_of (c : ascii) : option (Decimal.uint -> Decimal.uint) :=
  match nat_of_ascii c with
  | 48 => Some Decimal.D0 | 49 => Some Decimal.D1 | 50 => Some Decimal.D2
  | 51 => Some Decimal.D3 | 52 => Some Decimal.D4 | 53 => Some Decimal.D5
  | 54 => Some Decimal.D6 | 55 => Some Decimal.D7 | 56 => Some Decimal.D8
  | 57 => Some Decimal.D9
  | _ => None
  end%nat.

(** The digits after the first one: [('_'? digit)*] (PEP 515 underscores,
    one at a time and only between digits). *)
Fixpoint digits_tail (l : list ascii) : option Decimal.uint :=
  match l with
  | [] => Some Decimal.Nil
  | c :: r =>
      if Ascii.eqb c "_" then
        match r with
        | d :: r' => f ← digit_of d; u ← digits_tail r'; Some (f u)
        | [] => None
        end
      else f ← digit_of c; u ← digits_tail r; Some (f u)
  end.

(** An unsigned literal: [digit ('_'? digit)*]. *)
Definition parse_uint (l : list ascii) : option Decimal.uint :=
  match l with
  | c :: r => f ← digit_of c; u ← digits_tail r; Some (f u)
  | [] => None
  end.

Definition uint_value (u : Decimal.uint) : Z := Z.of_N (N.of_uint u).

(** [int(s)]: surrounding whitespace, an optional sign, then the literal;
    anything else raises [ValueError]. *)
Definition py_int (s : string) : pyres Z :=
  match strip (list_ascii_of_string s) with
  | c :: r =>
      if Ascii.eqb c "-" then
        py_of_option ValueError ((fun u => - uint_value u) <$> parse_uint r)
      else if Ascii.eqb c "+" then
        py_of_option ValueError (uint_value <$> parse_uint r)
      else py_of_option ValueError (uint_value <$> parse_uint (c :: r))
  | [] => Raise ValueError
  end.

(** ** [str(int)] *)

Fixpoint uint_chars (u : Decimal.uint) : list ascii :=
  match u with
  | Decimal.Nil => []
  | Decimal.D0 u => "0" :: uint_chars u | Decimal.D1 u => "1" :: uint_chars u
  | Decimal.D2 u => "2" :: uint_chars u | Decimal.D3 u => "3" :: uint_chars u
  | Decimal.D4 u => "4" :: uint_chars u | Decimal.D5 u => "5" :: uint_chars u
  | Decimal.D6 u => "6" :: uint_chars u | Decimal.D7 u => "7" :: uint_chars u
  | Decimal.D8 u => "8" :: uint_chars u | Decimal.D9 u => "9" :: uint_chars u
  end%char.

(** [str(n)]: the decimal digits, with a leading ['-'] when negative. *)
Definition py_str (n : Z) : string :=
  string_of_list_ascii
    (if n <? 0 then "-"%char :: uint_chars (N.to_uint (Z.to_N (- n)))
     else uint_chars (N.to_uint (Z.to_N n))).

(** ** Lemmas *)

Lemma string_append_assoc a b c :
  String.append (String.append a b) c = String.append a (String.append b c).
Proof.
  induction a as [|x a IH]; [done|].
  transitivity (String x (String.append (String.append a b) c)); [done|]. by rewrite IH.
Qed.

Lemma string_append_nil_r a : String.append a "" = a.
Proof.
  induction a as [|x a IH]; [done|].
  transitivity (String x (String.append a "")); [done|]. by rewrite IH.
Qed.

Lemma py_split_cons_nonempty sep s : py_split sep s <> [].
Proof.
  destruct s as [|c s]; simpl; [done|].
  destruct (Ascii.eqb c sep); [done|]. by destruct (py_split sep s).
Qed.

Lemma py_join_cons_cons sep p q qs :
  py_join sep (p :: q :: qs) = String.append p (String sep (py_join sep (q :: qs))).
Proof. reflexivity. Qed.

Lemma py_join_cons_char sep c p ps :
  py_join sep (String c p :: ps) = String c (py_join sep (p :: ps)).
Proof. by destruct ps. Qed.

(** Splitting a piece without the separator, followed by more text. *)
Lemma py_split_app_sep sep p rest :
  sep ∉ list_ascii_of_string p ->
  py_split sep (String.append p (String sep rest)) = p :: py_split sep rest.
Proof.
  induction p as [|c p IH]; intros Hp; simpl.
  - by rewrite Ascii.eqb_refl.
  - simpl in Hp. rewrite IH by set_solver.
    destruct (Ascii.eqb_spec c sep); [set_solver | done].
Qed.

Lemma py_split_no_sep sep p :
  sep ∉ list_ascii_of_string p -> py_split sep p = [p].
Proof.
  induction p as [|c p IH]; intros Hp; simpl; [done|].
  simpl in Hp. rewrite IH by set_solver.
  destruct (Ascii.eqb_spec c sep); [set_solver | done].
Qed.

Lemma uint_chars_no_space u : Forall (fun c => is_py_space c = false) (uint_chars u).
Proof. induction u; simpl; constructor; auto. Qed.

Lemma lstrip_no_space l :
  Forall (fun c => is_py_space c = false) l -> lstrip l = l.
Proof. intros H. destruct H as [|c l Hc _]; simpl; [done|]. by rewrite Hc. Qed.

Lemma strip_no_space l :
  Forall (fun c => is_py_space c = false) l -> strip l = l.
Proof.
  intros H. unfold strip. rewrite (lstrip_no_space l H).
  rewrite lstrip_no_space; [apply rev_involutive|]. by apply Forall_rev.
Qed.

Lemma digits_tail_chars u : digits_tail (uint_chars u) = Some u.
Proof. induction u; simpl; rewrite ?IHu; reflexivity. Qed.

(** The first character of a printed literal is a digit, not a sign. *)
Lemma parse_uint_chars u :
  u <> Decimal.Nil ->
  exists c r, uint_chars u = c :: r /\ Ascii.eqb c "-" = false /\
    Ascii.eqb c "+" = false /\ parse_uint (uint_chars u) = Some u.
Proof.
  intros Hu. destruct u; [done| ..]; simpl; rewrite ?digits_tail_chars;
    eauto 10.
Qed.

Lemma N_to_uint_nonnil n : N.to_uint n <> Decimal.Nil.
Proof.
  intros H. pose proof (DecimalN.Unsigned.to_of (N.to_uint n)) as E.
  rewrite DecimalN.Unsigned.of_to in E. rewrite H in E.
  by apply (DecimalFacts.unorm_nonnil Decimal.Nil).
Qed.

Lemma uint_value_to_uint m : 0 <= m -> uint_value (N.to_uint (Z.to_N m)) = m.
Proof. intros Hm. unfold uint_value. rewrite DecimalN.Unsigned.of_to. lia. Qed.

Lemma uint_chars_digits u : Forall (fun c => is_Some (digit_of c)) (uint_chars u).
Proof. induction u; simpl; constructor; auto; eexists; reflexivity. Qed.

(** The characters of [str(n)] are a sign and digits only. *)
Lemma py_str_chars n :
  Forall (fun c => c = "-"%char \/ is_Some (digit_of c)) (list_ascii_of_string (py_str n)).
Proof.
  unfold py_str. rewrite list_ascii_of_string_of_list_ascii.
  destruct (n <? 0); [constructor; [by left|]|];
    eapply Forall_impl; [apply uint_chars_digits | | apply uint_chars_digits |]; auto.
Qed.

Lemma py_str_no_colon n : ":"%char ∉ list_ascii_of_string (py_str n).
Proof.
  intros Hin. pose proof (py_str_chars n) as Hc. rewrite Forall_forall in Hc.
  destruct (Hc _ Hin) as [E|[f Hf]]; [discriminate | discriminate].
Qed.

(** ** Round trips *)

(** Splitting a string at a one-character separator and joining the
    pieces with it gives back the string: [sep.join(s.split(sep)) == s]. *)
Theorem join_split sep s : py_join sep (py_split sep s) = s.
Proof.
  induction s as [|c s IH]; simpl; [done|].
  pose proof (py_split_cons_nonempty sep s) as Hne.
  destruct (py_split sep s) as [|p ps] eqn:E; [done|].
  destruct (Ascii.eqb_spec c sep) as [->|_].
  - by rewrite py_join_cons_cons, IH.
  - by rewrite py_join_cons_char, IH.
Qed.

(** [sep.join(parts).split(sep) == parts] when no part holds [sep]. *)
Theorem split_join sep parts :
  parts <> [] ->
  Forall (fun p => sep ∉ list_ascii_of_string p) parts ->
  py_split sep (py_join sep parts) = parts.
Proof.
  intros Hne Hparts. induction Hparts as [|p ps Hp Hps IH]; [done|].
  destruct ps as [|q qs].
  - by apply py_split_no_sep.
  - rewrite py_join_cons_cons, py_split_app_sep by done. f_equal. by apply IH.
Qed.

(** [int(str(n)) == n] for every integer: the decimal text Python
    prints is read back by [int] as the same number. *)
Theorem py_int_str n : py_int (py_str n) = Ok n.
Proof.
  unfold py_int, py_str. rewrite list_ascii_of_string_of_list_ascii.
  destruct (Z.ltb_spec n 0) as [Hn|Hn].
  - rewrite strip_no_space by (constructor; [done | apply uint_chars_no_space]).
    simpl.
    destruct (parse_uint_chars (N.to_uint (Z.to_N (- n))))
      as (c & r & _ & _ & _ & ->); [apply N_to_uint_nonnil|].
    simpl. rewrite uint_value_to_uint by lia. f_equal. lia.
  - rewrite strip_no_space by apply uint_chars_no_space.
    destruct (parse_uint_chars (N.to_uint (Z.to_N n)))
      as (c & r & Hcr & Hm & Hp & Hparse); [apply N_to_uint_nonnil|].
    rewrite Hcr, Hm, Hp, <- Hcr, Hparse. simpl.
    by rewrite uint_value_to_uint.
Qed.

End PyStr.
