(* ===== verification/PySort.v ===== *)
(** * PySort: CPython's [list.sort(reverse=True)]

    [__get_sorted_stangings_as_list] (utils.py) calls
    [standings.sort(reverse=True)], and the only comparison [list.sort]
    calls is [__lt__].  CPython reverses the list, sorts it stably in
    ascending order, and reverses it back, so rows that compare equal keep
    their original order.  Timsort is a stable sort, and the theorem
    [stable_sort_unique] shows that a stable sort returns one list only.
    So the model uses a stable insertion sort [isort] in place of timsort.

    [py_sort_reverse] is the three CPython steps.  [desc_sort] is a direct
    descending stable sort.  [py_sort_reverse_desc] proves them equal for
    every comparison that is a strict total order on a key. *)

From stdpp Require Import sorting.
From S2P Require Import Prelude.

Module PySort.

(** Insert [x] after the elements that go [before] it, and before the first
    one that does not: the elements passed over come first, as in a stable
    sort. *)
Fixpoint ins_stable {A} (before : A -> A -> bool) (x : A) (l : list A) : list A :=
  match l with
  | [] => [x]
  | y :: ys => if before y x then y :: ins_stable before x ys else x :: y :: ys
  end.

Definition isort {A} (before : A -> A -> bool) (l : list A) : list A :=
  foldr (ins_stable before) [] l.

(** [l.sort(reverse=True)] with [__lt__ = lt]: reverse, stable ascending
    sort, reverse. *)
Definition py_sort_reverse {A} (lt : A -> A -> bool) (l : list A) : list A :=
  rev (isort lt (rev l)).

(** The stable descending sort: [y] goes before [x] when [x < y]. *)
Definition desc_sort {A} (lt : A -> A -> bool) (l : list A) : list A :=
  isort (fun y x => lt x y) l.

Section KeyOrder.
Context {A K : Type} `{EqDecision K} (key : A -> K) (kb : K -> K -> bool).
Hypothesis kb_irrefl : forall k, kb k k = false.
Hypothesis kb_trans : forall a b c, kb a b = true -> kb b c = true -> kb a c = true.
Hypothesis kb_total : forall a b, a <> b -> kb a b = true \/ kb b a = true.

Let before (y x : A) : bool := kb (key y) (key x).

(** [b] does not go before [a]: the order of a sorted output. *)
Definition not_before (a b : A) : Prop := kb (key b) (key a) = false.

(** The elements of [l] whose key is [k], in order. *)
Definition key_class (k : K) (l : list A) : list A := filter (fun y => key y = k) l.

Lemma kb_asym a b : kb a b = true -> kb b a = false.
Proof.
  intros Hab. destruct (kb b a) eqn:Hba; [|done].
  pose proof (kb_trans a b a Hab Hba) as C. by rewrite kb_irrefl in C.
Qed.

Lemma not_before_trans : Transitive not_before.
Proof.
  intros a b c Hab Hbc. unfold not_before in *.
  destruct (kb (key c) (key a)) eqn:Hca; [|done].
  destruct (decide (key c = key b)) as [E|Hne].
  - by rewrite <- E, Hca in Hab.
  - destruct (kb_total _ _ Hne) as [Hcb|Hbc']; [congruence|].
    by rewrite (kb_trans _ _ _ Hbc' Hca) in Hab.
Qed.

Lemma ins_stable_perm x l : ins_stable before x l ≡ₚ x :: l.
Proof.
  induction l as [|y l IH]; simpl; [done|].
  destruct (before y x); [|done].
  rewrite IH. constructor.
Qed.

Lemma isort_perm l : isort before l ≡ₚ l.
Proof.
  induction l as [|x l IH]; simpl; [done|].
  by rewrite ins_stable_perm, IH.
Qed.

Lemma ins_stable_sorted x l :
  Sorted not_before l -> Sorted not_before (ins_stable before x l).
Proof.
  induction 1 as [|y l Hl IH Hhd]; simpl; [repeat constructor|].
  unfold before. destruct (kb (key y) (key x)) eqn:Hyx.
  - constructor; [done|].
    destruct l as [|z l]; simpl; [constructor; by apply kb_asym|].
    inversion Hhd; subst. unfold before.
    destruct (kb (key z) (key x)) eqn:Hzx; constructor; [done | unfold not_before; by apply kb_asym].
  - repeat constructor; done.
Qed.

Lemma isort_sorted l : Sorted not_before (isort before l).
Proof. induction l; simpl; [constructor | by apply ins_stable_sorted]. Qed.

(** Inserting [x] never passes an element of its own key class. *)
Lemma ins_stable_key_class k x l :
  key_class k (ins_stable before x l) = key_class k (x :: l).
Proof.
  unfold key_class. induction l as [|y l IH]; simpl; [done|].
  destruct (before y x) eqn:Hyx; [|done].
  rewrite filter_cons, IH, !filter_cons.
  destruct (decide (key y = k)) as [Ey|], (decide (key x = k)) as [Ex|]; try done.
  unfold before in Hyx. rewrite Ey, <- Ex, kb_irrefl in Hyx. discriminate.
Qed.

Lemma isort_key_class k l : key_class k (isort before l) = key_class k l.
Proof.
  induction l as [|x l IH]; simpl; [done|].
  rewrite ins_stable_key_class. unfold key_class in *. by rewrite !filter_cons, IH.
Qed.

(** Two sorted lists with the same key classes are equal: there is one
    stable sort. *)
Theorem stable_sort_unique l1 l2 :
  Sorted not_before l1 -> Sorted not_before l2 ->
  (forall k, key_class k l1 = key_class k l2) -> l1 = l2.
Proof.
  intros H1 H2.
  apply Sorted_StronglySorted in H1; [|apply not_before_trans].
  apply Sorted_StronglySorted in H2; [|apply not_before_trans].
  revert l2 H2. induction H1 as [|x r1 Hr1 IH Hx1]; intros l2 H2 Hcls.
  - destruct l2 as [|y r2]; [done|].
    specialize (Hcls (key y)). unfold key_class in Hcls.
    rewrite filter_cons_True in Hcls by done. discriminate.
  - destruct H2 as [|y r2 Hr2 Hy2].
    + specialize (Hcls (key x)). unfold key_class in Hcls.
      rewrite filter_cons_True in Hcls by done. discriminate.
    + assert (key x = key y) as Exy.
      { destruct (decide (key x = key y)) as [|Hne]; [done|].
        assert (Hin : forall (z : A) r w r', Forall (not_before z) r ->
                  key_class (key w) (z :: r) = key_class (key w) (w :: r') ->
                  kb (key w) (key z) = false).
        { intros z r w r' Hf Hc. unfold key_class in Hc.
          rewrite (filter_cons_True _ w) in Hc by done.
          destruct (decide (key z = key w)) as [E|Hzw]; [rewrite E; apply kb_irrefl|].
          rewrite filter_cons_False in Hc by done.
          assert (w ∈ filter (fun y => key y = key w) r) as Hw by (rewrite Hc; set_solver).
          apply list_elem_of_filter in Hw as [Ew Hw].
          rewrite Forall_forall in Hf. apply Hf in Hw. unfold not_before in Hw.
          exact Hw. }
        pose proof (Hin x r1 y r2 Hx1 (Hcls (key y))) as Hyx.
        pose proof (Hin y r2 x r1 Hy2 (eq_sym (Hcls (key x)))) as Hxy.
        destruct (kb_total _ _ Hne); congruence. }
      assert (x = y /\ key_class (key x) r1 = key_class (key x) r2) as [<- Hk].
      { specialize (Hcls (key x)). unfold key_class in *.
        rewrite !filter_cons_True in Hcls by done. by injection Hcls. }
      f_equal. apply IH; [done|]. intros k.
      specialize (Hcls k). unfold key_class in *.
      destruct (decide (key x = k)) as [<-|Hne]; [done|].
      by rewrite !filter_cons_False in Hcls.
Qed.
End KeyOrder.

Lemma isort_ext {A} (f g : A -> A -> bool) l :
(forall a b, f a b = g a b) -> isort f l = isort g l.
Proof.
intros Hfg. induction l as [|x l IH]; simpl; [done|]. rewrite IH.
generalize (isort g l). intros m. induction m as [|y m IHm]; simpl; [done|].
by rewrite Hfg, IHm.
Qed.

Lemma StronglySorted_snoc {A} (R : relation A) m x :
StronglySorted R m -> Forall (fun y => R y x) m -> StronglySorted R (m ++ [x]).
Proof.
induction 1 as [|y m Hm IH Hy]; intros Hx; simpl.
- repeat constructor.
- inversion Hx; subst. constructor; [by apply IH|].
  apply Forall_app. split; [done|]. by constructor.
Qed.

Lemma StronglySorted_rev {A} (R : relation A) l :
StronglySorted R l -> StronglySorted (fun a b => R b a) (rev l).
Proof.
induction 1 as [|x l Hl IH Hx]; simpl; [constructor|].
apply StronglySorted_snoc; [done|]. by apply Forall_rev.
Qed.

Lemma filter_rev {A} (P : A -> Prop) `{forall x, Decision (P x)} l :
filter P (rev l) = rev (filter P l).
Proof.
induction l as [|x l IH]; simpl; [done|].
rewrite filter_app, IH, filter_cons.
rewrite filter_cons. destruct (decide (P x)); simpl; [done|]. by rewrite app_nil_r.
Qed.

Lemma Sorted_map {A B} (R : relation B) (g : A -> B) l :
Sorted (fun a b => R (g a) (g b)) l -> Sorted R (map g l).
Proof.
induction 1 as [|x l Hl IH Hhd]; simpl; constructor; [done|].
destruct Hhd; simpl; by constructor.
Qed.

Lemma Sorted_weaken {B} (R S : relation B) l :
(forall a b, R a b -> S a b) -> Sorted R l -> Sorted S l.
Proof.
intros HRS. induction 1 as [|x l Hl IH Hhd]; constructor; [done|].
destruct Hhd; constructor. by apply HRS.
Qed.

Section Reverse.
Context {A K : Type} `{EqDecision K} (key : A -> K) (klt : K -> K -> bool).
Hypothesis klt_irrefl : forall k, klt k k = false.
Hypothesis klt_trans : forall a b c, klt a b = true -> klt b c = true -> klt a c = true.
Hypothesis klt_total : forall a b, a <> b -> klt a b = true \/ klt b a = true.
Context (lt : A -> A -> bool).
Hypothesis lt_key : forall a b, lt a b = klt (key a) (key b).

(** The descending order of the output: no row is less than the next. *)
Definition desc_sorted (l : list A) : Prop :=
Sorted (fun a b => klt (key a) (key b) = false) l.

Let gt_key (a b : K) : bool := klt b a.

Lemma py_sort_reverse_isort l :
py_sort_reverse lt l = rev (isort (fun y x => klt (key y) (key x)) (rev l)).
Proof. unfold py_sort_reverse. f_equal. by apply isort_ext. Qed.

Lemma desc_sort_isort l :
desc_sort lt l = isort (fun y x => gt_key (key y) (key x)) l.
Proof. unfold desc_sort. by apply isort_ext. Qed.

Lemma py_sort_reverse_perm l : py_sort_reverse lt l ≡ₚ l.
Proof.
rewrite py_sort_reverse_isort, <- Permutation_rev, isort_perm.
symmetry. apply Permutation_rev.
Qed.

Lemma py_sort_reverse_sorted l : desc_sorted (py_sort_reverse lt l).
Proof.
rewrite py_sort_reverse_isort. apply StronglySorted_Sorted.
apply (StronglySorted_rev (not_before key klt)).
apply Sorted_StronglySorted; [apply not_before_trans; auto|].
by apply isort_sorted.
Qed.

Lemma py_sort_reverse_key_class k l :
key_class key k (py_sort_reverse lt l) = key_class key k l.
Proof.
rewrite py_sort_reverse_isort. unfold key_class.
rewrite filter_rev. fold (key_class key k (isort (fun y x => klt (key y) (key x)) (rev l))).
rewrite isort_key_class by done. unfold key_class.
by rewrite filter_rev, rev_involutive.
Qed.

(** Any list in descending order whose key classes are those of [l] is
    what CPython's reverse sort returns for [l]. *)
Lemma py_sort_reverse_unique l l' :
desc_sorted l' -> (forall k, key_class key k l' = key_class key k l) -> py_sort_reverse lt l = l'.
Proof.
intros Hs Hk.
assert (Hirr : forall k, gt_key k k = false) by (intros; apply klt_irrefl).
assert (Htr : forall a b c, gt_key a b = true -> gt_key b c = true -> gt_key a c = true)
by (unfold gt_key; eauto).
assert (Htot : forall a b, a <> b -> gt_key a b = true \/ gt_key b a = true)
by (unfold gt_key; intros a b Hab; destruct (klt_total a b Hab); auto).
apply (stable_sort_unique key gt_key Hirr Htr Htot); [apply py_sort_reverse_sorted|exact Hs|].
intros k. by rewrite py_sort_reverse_key_class, Hk.
Qed.

(** CPython's reverse sort is the descending stable sort. *)
Theorem py_sort_reverse_desc l : py_sort_reverse lt l = desc_sort lt l.
Proof.
rewrite desc_sort_isort.
assert (Hirr : forall k, gt_key k k = false) by (intros; apply klt_irrefl).
assert (Htr : forall a b c, gt_key a b = true -> gt_key b c = true -> gt_key a c = true)
by (unfold gt_key; eauto).
assert (Htot : forall a b, a <> b -> gt_key a b = true \/ gt_key b a = true)
by (unfold gt_key; intros a b Hab; destruct (klt_total a b Hab); auto).
apply (stable_sort_unique key gt_key Hirr Htr Htot).
- apply py_sort_reverse_sorted.
- by apply isort_sorted.
- intros k. rewrite py_sort_reverse_key_class.
by rewrite (isort_key_class key gt_key Hirr).
Qed.
End Reverse.

End PySort.
