(* ===== verification/Timestamp.v ===== *)
(** * Timestamp: Python [datetime] values and their validity

    [FixtureResult.__init__] (models.py) stores [kickoff_at] as a
    [datetime.datetime].  [filter_results] (utils.py) parses its date
    filters with [datetime.strptime(s, '%Y-%m-%dT%H:%M:%S')].  This file
    holds the [datetime] record, the field checks of its constructor
    ([datetime(year, month, day, hour, minute, second)] raises
    [ValueError] outside the calendar), CPython's [_strptime] for that
    format, and the chronological order the database uses to compare
    [kickoff_at] values.

    [_strptime] compiles the format into a regular expression, with the
    flag IGNORECASE, and calls [re.match] on the text:
<<
  (?P<Y>\d\d\d\d)-(?P<m>1[0-2]|0[1-9]|[1-9])-(?P<d>3[0-1]|[1-2]\d|0[1-9]|[1-9]| [1-9])
  T(?P<H>2[0-3]|[0-1]\d|\d):(?P<M>[0-5]\d|\d):(?P<S>6[0-1]|[0-5]\d|\d)
>>
    [re.match] takes the first match in the order of the alternatives,
    backtracking when a later part fails, and need not reach the end of the
    text.  [_strptime] raises [ValueError] when nothing matches or when text
    remains after the match.  The six groups go through [int], and the
    [datetime] constructor checks the calendar.

    The theorems: [strptime] reads back what [strftime] writes, and it
    reads the same datetime from the text with unpadded fields and a
    lower-case [t] ([strftime_loose]): the parse accepts more than the
    format writes.  Both rest on a finite
    check, evaluated, that each field in its range is matched by its
    group and read back by [int]. *)

From Stdlib Require Import Ascii String.
From S2P Require Import Prelude PyStr.
Import PyStr.

Module Timestamp.

Record datetime := mk_datetime {
  dt_year : Z; dt_month : Z; dt_day : Z;
  dt_hour : Z; dt_minute : Z; dt_second : Z
}.

#[export] Instance datetime_eq_dec : EqDecision datetime.
Proof. solve_decision. Defined.

(** [calendar._is_leap]. *)
Definition is_leap (y : Z) : bool :=
  (Z.eqb (y mod 4) 0) && (negb (Z.eqb (y mod 100) 0) || Z.eqb (y mod 400) 0).

(** [calendar._days_in_month] for months 1-12. *)
Definition days_in_month (y m : Z) : Z :=
  if Z.eqb m 2 then (if is_leap y then 29 else 28)
  else if (Z.eqb m 4 || Z.eqb m 6 || Z.eqb m 9 || Z.eqb m 11)%bool then 30
  else 31.

(** The checks of the [datetime] constructor ([_check_date_fields] and
    [_check_time_fields]). *)
Definition valid_datetime (d : datetime) : bool :=
  (1 <=? dt_year d) && (dt_year d <=? 9999) &&
  (1 <=? dt_month d) && (dt_month d <=? 12) &&
  (1 <=? dt_day d) && (dt_day d <=? days_in_month (dt_year d) (dt_month d)) &&
  (0 <=? dt_hour d) && (dt_hour d <=? 23) &&
  (0 <=? dt_minute d) && (dt_minute d <=? 59) &&
  (0 <=? dt_second d) && (dt_second d <=? 59).

(** [datetime(y, m, d, H, M, S)]. *)
Definition mk_checked (y m d hh mm ss : Z) : pyres datetime :=
  let v := mk_datetime y m d hh mm ss in
  if valid_datetime v then Ok v else Raise ValueError.

(** ** The regular expression of the format *)

(** A character class of the pattern. *)
Inductive cls :=
| CDigit                        (** [\d] *)
| CRange (lo hi : nat)          (** [[lo-hi]], by code point *)
| CChar (c : ascii).            (** a literal character *)

(** An element of the pattern: a literal, or a named group with its
    alternatives in the order they are tried. *)
Inductive pelem :=
| PLit (c : ascii)
| PGroup (alts : list (list cls)).

(** With IGNORECASE, a letter matches both of its cases. *)
Definition lower (c : ascii) : ascii :=
  let n := nat_of_ascii c in
  if ((65 <=? n) && (n <=? 90))%nat then ascii_of_nat (n + 32) else c.

Definition cls_matches (k : cls) (c : ascii) : bool :=
  match k with
  | CDigit => ((48 <=? nat_of_ascii c) && (nat_of_ascii c <=? 57))%nat
  | CRange lo hi => ((lo <=? nat_of_ascii c) && (nat_of_ascii c <=? hi))%nat
  | CChar c' => Ascii.eqb (lower c) (lower c')
  end.

(** One alternative: a fixed sequence of classes. *)
Fixpoint match_alt (alt : list cls) (s : list ascii) : option (list ascii * list ascii) :=
  match alt, s with
  | [], _ => Some ([], s)
  | k :: alt', c :: s' =>
      if cls_matches k c then
        match match_alt alt' s' with
        | Some (m, r) => Some (c :: m, r)
        | None => None
        end
      else None
  | _ :: _, [] => None
  end.

(** All the matches of a pattern at the start of [s], in the order the
    backtracking matcher finds them: the captured groups and the rest. *)
Fixpoint match_pat (p : list pelem) (s : list ascii) : list (list (list ascii) * list ascii) :=
  match p with
  | [] => [([], s)]
  | PLit c :: p' =>
      match s with
      | x :: s' => if cls_matches (CChar c) x then match_pat p' s' else []
      | [] => []
      end
  | PGroup alts :: p' =>
      flat_map (fun alt =>
                  match match_alt alt s with
                  | Some (m, r) => map (fun '(caps, r') => (m :: caps, r')) (match_pat p' r)
                  | None => []
                  end) alts
  end.

Definition rng (lo hi : ascii) : cls := CRange (nat_of_ascii lo) (nat_of_ascii hi).

(** [TimeRE] for [%Y], [%m], [%d], [%H], [%M], [%S]. *)
Definition re_Y : pelem := PGroup [[CDigit; CDigit; CDigit; CDigit]].
Definition re_m : pelem :=
  PGroup [[CChar "1"; rng "0" "2"]; [CChar "0"; rng "1" "9"]; [rng "1" "9"]].
Definition re_d : pelem :=
  PGroup [[CChar "3"; rng "0" "1"]; [rng "1" "2"; CDigit]; [CChar "0"; rng "1" "9"];
          [rng "1" "9"]; [CChar " "; rng "1" "9"]].
Definition re_H : pelem := PGroup [[CChar "2"; rng "0" "3"]; [rng "0" "1"; CDigit]; [CDigit]].
Definition re_M : pelem := PGroup [[rng "0" "5"; CDigit]; [CDigit]].
Definition re_S : pelem := PGroup [[CChar "6"; rng "0" "1"]; [rng "0" "5"; CDigit]; [CDigit]].

(** The pattern of ['%Y-%m-%dT%H:%M:%S']. *)
Definition kickoff_format : list pelem :=
  [re_Y; PLit "-"; re_m; PLit "-"; re_d; PLit "T"; re_H; PLit ":"; re_M; PLit ":"; re_S].

(** [datetime.strptime(s, '%Y-%m-%dT%H:%M:%S')]. *)
Definition strptime (s : string) : pyres datetime :=
  match match_pat kickoff_format (list_ascii_of_string s) with
  | ([y; mo; d; hh; mm; ss], rest) :: _ =>
      match rest with
      | [] =>
          let! y := py_int (string_of_list_ascii y) in
          let! mo := py_int (string_of_list_ascii mo) in
          let! d := py_int (string_of_list_ascii d) in
          let! hh := py_int (string_of_list_ascii hh) in
          let! mm := py_int (string_of_list_ascii mm) in
          let! ss := py_int (string_of_list_ascii ss) in
          mk_checked y mo d hh mm ss
      | _ :: _ => Raise ValueError
      end
  | _ => Raise ValueError
  end.

(** [d.strftime('%Y-%m-%dT%H:%M:%S')] with glibc's [strftime]: the year
    unpadded, the other fields on two digits. *)
Definition pad2 (n : Z) : string :=
  if n <? 10 then String "0" (py_str n) else py_str n.

Definition strftime (d : datetime) : string :=
  String.append (py_str (dt_year d)) (String "-"
  (String.append (pad2 (dt_month d)) (String "-"
  (String.append (pad2 (dt_day d)) (String "T"
  (String.append (pad2 (dt_hour d)) (String ":"
  (String.append (pad2 (dt_minute d)) (String ":" (pad2 (dt_second d))))))))))).

(** Chronological order: lexicographic on the fields. *)
Definition dt_key (d : datetime) : list Z :=
  [dt_year d; dt_month d; dt_day d; dt_hour d; dt_minute d; dt_second d].

Fixpoint lex_le (a b : list Z) : bool :=
  match a, b with
  | x :: a', y :: b' => (x <? y) || ((x =? y) && lex_le a' b')
  | _, _ => true
  end.

Definition dt_le (a b : datetime) : bool := lex_le (dt_key a) (dt_key b).

(** ** Matching the text [strftime] writes *)

(** The first alternative of a group that matches all of [w] does so
    exactly, and the alternatives before it fail on a prefix of [w]. *)
Fixpoint first_full (alts : list (list cls)) (w : list ascii) : bool :=
  match alts with
  | [] => false
  | a :: alts' =>
      match match_alt a w with
      | Some (_, []) => true
      | Some _ => false
      | None => (length a <=? length w)%nat && first_full alts' w
      end
  end.

(** The text of a field, as [strftime] writes it, is matched by its
    group and read back by [int]. *)
Definition reads_back (g : pelem) (txt : string) (v : Z) : bool :=
  match g with
  | PGroup alts =>
      first_full alts (list_ascii_of_string txt) &&
      match py_int txt with Ok n => n =? v | Raise _ => false end
  | PLit _ => false
  end.

(** ** Matching a text with unpadded fields *)

(** The first alternative of a group that matches at the start of [s]:
    the one [re.match] tries first. *)
Fixpoint first_match (alts : list (list cls)) (s : list ascii) : option (list ascii * list ascii) :=
  match alts with
  | [] => None
  | a :: alts' => match match_alt a s with Some x => Some x | None => first_match alts' s end
  end.

(** The text [txt] of a field, followed by [sfx] (the next separator,
    or nothing at the end), is matched by its group exactly up to [sfx],
    and read by [int] as [v].  Before a separator every alternative is
    no longer than the text and the separator, so what follows cannot
    change the outcome. *)
Definition reads_loose (g : pelem) (txt : string) (sfx : list ascii) (v : Z) : bool :=
  match g with
  | PGroup alts =>
      let w := list_ascii_of_string txt in
      (forallb (fun a => length a <=? length (w ++ sfx))%nat alts || bool_decide (sfx = [])) &&
      bool_decide (first_match alts (w ++ sfx) = Some (w, sfx)) &&
      match py_int txt with Ok n => n =? v | Raise _ => false end
  | PLit _ => false
  end.

(** The text of a datetime with every field written by [str], unpadded,
    and a lower-case [t]. *)
Definition strftime_loose (d : datetime) : string :=
  String.append (py_str (dt_year d)) (String "-"
  (String.append (py_str (dt_month d)) (String "-"
  (String.append (py_str (dt_day d)) (String "t"
  (String.append (py_str (dt_hour d)) (String ":"
  (String.append (py_str (dt_minute d)) (String ":" (py_str (dt_second d))))))))))).

Lemma list_ascii_of_string_app s1 s2 :
  list_ascii_of_string (String.append s1 s2) = list_ascii_of_string s1 ++ list_ascii_of_string s2.
Proof. induction s1 as [|c s1 IH]; simpl; [done|by rewrite IH]. Qed.

(** An alternative no longer than the text only reads a prefix of it. *)
Lemma match_alt_app a w rest :
  (length a <= length w)%nat ->
  match_alt a (w ++ rest) = (fun '(m, r) => (m, r ++ rest)) <$> match_alt a w.
Proof.
  revert w. induction a as [|k a IH]; intros [|c w] Hl; simpl in *; try done; [lia|].
  destruct (cls_matches k c); [|done]. rewrite IH by lia.
  by destruct (match_alt a w) as [[m r]|].
Qed.

Lemma match_pat_lit c p rest :
  match_pat (PLit c :: p) (c :: rest) = match_pat p rest.
Proof. simpl. by rewrite Ascii.eqb_refl. Qed.

(** A match of an alternative consumes one character per class. *)
Lemma match_alt_Some a w m r :
  match_alt a w = Some (m, r) -> w = m ++ r /\ length m = length a.
Proof.
  revert w m. induction a as [|k a IH]; intros [|c w] m; simpl; try (intros [= <- <-]); try done.
  destruct (cls_matches k c); [|done].
  destruct (match_alt a w) as [[m' r']|] eqn:E; intros [= <- <-].
  apply IH in E as [-> Hl]. simpl. auto.
Qed.

Lemma match_pat_group alts p w rest caps r xs :
  first_full alts w = true -> match_pat p rest = (caps, r) :: xs ->
  exists ys, match_pat (PGroup alts :: p) (w ++ rest) = (w :: caps, r) :: ys.
Proof.
  intros Hf Hp. simpl. induction alts as [|a alts IH]; simpl in *; [done|].
  destruct (match_alt a w) as [[m [|c r']]|] eqn:Ea; try done.
  - pose proof (match_alt_Some _ _ _ _ Ea) as [Hw Hl]. rewrite app_nil_r in Hw. subst m.
    rewrite match_alt_app, Ea by lia. simpl. rewrite Hp. simpl. by eexists.
  - apply andb_prop in Hf as [Hl Hf]. apply Nat.leb_le in Hl.
    rewrite match_alt_app, Ea by done. simpl. by apply IH.
Qed.

Lemma match_pat_group_lit alts c p w rest caps r xs :
  first_full alts w = true -> match_pat p rest = (caps, r) :: xs ->
  exists ys, match_pat (PGroup alts :: PLit c :: p) (w ++ c :: rest) = (w :: caps, r) :: ys.
Proof. intros Hf Hp. eapply match_pat_group; [done|]. by rewrite match_pat_lit. Qed.

(** The pattern of the format matches the six fields of a text written
    in it, and consumes all of it. *)
Lemma kickoff_match alts_Y alts_m alts_d alts_H alts_M alts_S y mo dd hh mi ss :
  re_Y = PGroup alts_Y -> re_m = PGroup alts_m -> re_d = PGroup alts_d ->
  re_H = PGroup alts_H -> re_M = PGroup alts_M -> re_S = PGroup alts_S ->
  first_full alts_Y y = true -> first_full alts_m mo = true -> first_full alts_d dd = true ->
  first_full alts_H hh = true -> first_full alts_M mi = true -> first_full alts_S ss = true ->
  exists ys, match_pat kickoff_format
    (y ++ "-" :: mo ++ "-" :: dd ++ "T" :: hh ++ ":" :: mi ++ ":" :: ss)%char =
    ([y; mo; dd; hh; mi; ss], []) :: ys.
Proof.
  unfold kickoff_format. intros -> -> -> -> -> -> HY Hm Hd HH HM HS.
  destruct (match_pat_group _ [] ss [] [] [] [] HS eq_refl) as [y0 E0].
  rewrite app_nil_r in E0.
  destruct (match_pat_group_lit _ ":" _ _ _ _ _ _ HM E0) as [y1 E1].
  destruct (match_pat_group_lit _ ":" _ _ _ _ _ _ HH E1) as [y2 E2].
  destruct (match_pat_group_lit _ "T" _ _ _ _ _ _ Hd E2) as [y3 E3].
  destruct (match_pat_group_lit _ "-" _ _ _ _ _ _ Hm E3) as [y4 E4].
  destruct (match_pat_group_lit _ "-" _ _ _ _ _ _ HY E4) as [y5 E5].
  by exists y5.
Qed.

Lemma reads_back_spec alts txt v :
  reads_back (PGroup alts) txt v = true ->
  first_full alts (list_ascii_of_string txt) = true /\ py_int txt = Ok v.
Proof.
  simpl. intros [Hf Hi]%andb_prop. split; [done|].
  destruct (py_int txt); [|done]. by apply Z.eqb_eq in Hi as ->.
Qed.

(** A check over a range of integers holds at each of them. *)
Lemma forallb_seqZ (f : Z -> bool) lo n v :
  forallb f (seqZ lo n) = true -> lo <= v < lo + n -> f v = true.
Proof.
  intros Hall Hv. rewrite forallb_forall in Hall. apply Hall, list_elem_of_In.
  apply elem_of_seqZ. lia.
Qed.

(** Each field, in its range, as [strftime] writes it, is read back by
    [strptime]: a finite check, evaluated. *)
Lemma year_reads_back : forallb (fun v => reads_back re_Y (py_str v) v) (seqZ 1000 9000) = true.
Proof. vm_compute. reflexivity. Qed.
Lemma month_reads_back : forallb (fun v => reads_back re_m (pad2 v) v) (seqZ 1 12) = true.
Proof. vm_compute. reflexivity. Qed.
Lemma day_reads_back : forallb (fun v => reads_back re_d (pad2 v) v) (seqZ 1 31) = true.
Proof. vm_compute. reflexivity. Qed.
Lemma hour_reads_back : forallb (fun v => reads_back re_H (pad2 v) v) (seqZ 0 24) = true.
Proof. vm_compute. reflexivity. Qed.
Lemma minute_reads_back : forallb (fun v => reads_back re_M (pad2 v) v) (seqZ 0 60) = true.
Proof. vm_compute. reflexivity. Qed.
Lemma second_reads_back : forallb (fun v => reads_back re_S (pad2 v) v) (seqZ 0 60) = true.
Proof. vm_compute. reflexivity. Qed.

Lemma days_in_month_le y m : days_in_month y m <= 31.
Proof. unfold days_in_month. repeat case_match; lia. Qed.

Lemma valid_datetime_bounds d :
  valid_datetime d = true ->
  1 <= dt_year d <= 9999 /\ 1 <= dt_month d <= 12 /\
  1 <= dt_day d <= days_in_month (dt_year d) (dt_month d) /\
  0 <= dt_hour d <= 23 /\ 0 <= dt_minute d <= 59 /\ 0 <= dt_second d <= 59.
Proof. unfold valid_datetime. intros H. rewrite !andb_true_iff, !Z.leb_le in H. lia. Qed.

Lemma strftime_chars d :
  list_ascii_of_string (strftime d) =
  (list_ascii_of_string (py_str (dt_year d)) ++ "-" ::
   list_ascii_of_string (pad2 (dt_month d)) ++ "-" ::
   list_ascii_of_string (pad2 (dt_day d)) ++ "T" ::
   list_ascii_of_string (pad2 (dt_hour d)) ++ ":" ::
   list_ascii_of_string (pad2 (dt_minute d)) ++ ":" ::
   list_ascii_of_string (pad2 (dt_second d)))%char.
Proof. unfold strftime. repeat (rewrite list_ascii_of_string_app; cbn [list_ascii_of_string]). done. Qed.

Lemma mk_checked_valid d :
  valid_datetime d = true ->
  mk_checked (dt_year d) (dt_month d) (dt_day d) (dt_hour d) (dt_minute d) (dt_second d) = Ok d.
Proof. destruct d. unfold mk_checked. simpl. by intros ->. Qed.

(** *** The unpadded text *)

(** The first matching alternative gives the first match of the group,
    when the rest of the pattern matches after it. *)
Lemma match_pat_first alts p s m r' caps r xs :
  first_match alts s = Some (m, r') -> match_pat p r' = (caps, r) :: xs ->
  exists ys, match_pat (PGroup alts :: p) s = (m :: caps, r) :: ys.
Proof.
  intros Hf Hp. simpl. induction alts as [|a alts IH]; simpl in *; [done|].
  destruct (match_alt a s) as [[m0 r0]|]; [|by apply IH].
  injection Hf as <- <-. rewrite Hp. simpl. by eexists.
Qed.

Lemma first_match_app alts s rest :
  Forall (fun a => length a <= length s)%nat alts ->
  first_match alts (s ++ rest) = (fun '(m, r) => (m, r ++ rest)) <$> first_match alts s.
Proof.
  induction 1 as [|a alts Ha _ IH]; simpl; [done|].
  rewrite match_alt_app by done. by destruct (match_alt a s) as [[m r]|].
Qed.

(** A field followed by a separator. *)
Lemma match_pat_field alts w c rest p caps r xs :
  Forall (fun a => length a <= length (w ++ [c]))%nat alts ->
  first_match alts (w ++ [c]) = Some (w, [c]) -> match_pat p (c :: rest) = (caps, r) :: xs ->
  exists ys, match_pat (PGroup alts :: p) (w ++ c :: rest) = (w :: caps, r) :: ys.
Proof.
  intros Hl Hf Hp. eapply match_pat_first; [|exact Hp].
  change (c :: rest) with ([c] ++ rest). rewrite app_assoc, first_match_app, Hf by done. done.
Qed.

(** With IGNORECASE a literal matches both cases of a letter. *)
Lemma match_pat_lit_ci c c' p rest :
  lower c = lower c' -> match_pat (PLit c' :: p) (c :: rest) = match_pat p rest.
Proof. intros E. simpl. by rewrite E, Ascii.eqb_refl. Qed.

Lemma reads_loose_spec alts txt sfx v :
  reads_loose (PGroup alts) txt sfx v = true ->
  (Forall (fun a => length a <= length (list_ascii_of_string txt ++ sfx))%nat alts \/ sfx = []) /\
  first_match alts (list_ascii_of_string txt ++ sfx) = Some (list_ascii_of_string txt, sfx) /\
  py_int txt = Ok v.
Proof.
  simpl. intros [[Hl Hf]%andb_prop Hi]%andb_prop. split; [|split].
  - apply orb_prop in Hl as [Hl|Hl]; [left|right; by apply bool_decide_eq_true in Hl].
    apply Forall_forall. intros a Ha. rewrite forallb_forall in Hl.
    apply Nat.leb_le, Hl, list_elem_of_In, Ha.
  - by apply bool_decide_eq_true in Hf.
  - destruct (py_int txt); [|done]. by apply Z.eqb_eq in Hi as ->.
Qed.

(** Each field, in its range, written by [str] and followed by the
    separator the format puts after it, is read back: a finite check,
    evaluated. *)
Lemma year_reads_loose : forallb (fun v => reads_loose re_Y (py_str v) ["-"%char] v) (seqZ 1000 9000) = true.
Proof. vm_compute. reflexivity. Qed.
Lemma month_reads_loose : forallb (fun v => reads_loose re_m (py_str v) ["-"%char] v) (seqZ 1 12) = true.
Proof. vm_compute. reflexivity. Qed.
Lemma day_reads_loose : forallb (fun v => reads_loose re_d (py_str v) ["t"%char] v) (seqZ 1 31) = true.
Proof. vm_compute. reflexivity. Qed.
Lemma hour_reads_loose : forallb (fun v => reads_loose re_H (py_str v) [":"%char] v) (seqZ 0 24) = true.
Proof. vm_compute. reflexivity. Qed.
Lemma minute_reads_loose : forallb (fun v => reads_loose re_M (py_str v) [":"%char] v) (seqZ 0 60) = true.
Proof. vm_compute. reflexivity. Qed.
Lemma second_reads_loose : forallb (fun v => reads_loose re_S (py_str v) [] v) (seqZ 0 60) = true.
Proof. vm_compute. reflexivity. Qed.

(** The pattern of the format matches the six fields of an unpadded
    text with a lower-case [t], and consumes all of it. *)
Lemma kickoff_match_loose alts_Y alts_m alts_d alts_H alts_M alts_S y mo dd hh mi ss :
  re_Y = PGroup alts_Y -> re_m = PGroup alts_m -> re_d = PGroup alts_d ->
  re_H = PGroup alts_H -> re_M = PGroup alts_M -> re_S = PGroup alts_S ->
  Forall (fun a => length a <= length (y ++ ["-"%char]))%nat alts_Y ->
  first_match alts_Y (y ++ ["-"%char]) = Some (y, ["-"%char]) ->
  Forall (fun a => length a <= length (mo ++ ["-"%char]))%nat alts_m ->
  first_match alts_m (mo ++ ["-"%char]) = Some (mo, ["-"%char]) ->
  Forall (fun a => length a <= length (dd ++ ["t"%char]))%nat alts_d ->
  first_match alts_d (dd ++ ["t"%char]) = Some (dd, ["t"%char]) ->
  Forall (fun a => length a <= length (hh ++ [":"%char]))%nat alts_H ->
  first_match alts_H (hh ++ [":"%char]) = Some (hh, [":"%char]) ->
  Forall (fun a => length a <= length (mi ++ [":"%char]))%nat alts_M ->
  first_match alts_M (mi ++ [":"%char]) = Some (mi, [":"%char]) ->
  first_match alts_S ss = Some (ss, []) ->
  exists ys, match_pat kickoff_format
    (y ++ "-" :: mo ++ "-" :: dd ++ "t" :: hh ++ ":" :: mi ++ ":" :: ss)%char =
    ([y; mo; dd; hh; mi; ss], []) :: ys.
Proof.
  unfold kickoff_format. intros -> -> -> -> -> -> LY FY Lm Fm Ld Fd LH FH LM FM FS.
  destruct (match_pat_first _ [] _ _ _ [] [] [] FS eq_refl) as [y0 E0].
  destruct (match_pat_field _ _ _ _ _ _ _ _ LM FM (eq_trans (match_pat_lit _ _ _) E0)) as [y1 E1].
  destruct (match_pat_field _ _ _ _ _ _ _ _ LH FH (eq_trans (match_pat_lit _ _ _) E1)) as [y2 E2].
  destruct (match_pat_field _ _ _ _ _ _ _ _ Ld Fd
              (eq_trans (match_pat_lit_ci "t" "T" _ _ eq_refl) E2)) as [y3 E3].
  destruct (match_pat_field _ _ _ _ _ _ _ _ Lm Fm (eq_trans (match_pat_lit _ _ _) E3)) as [y4 E4].
  destruct (match_pat_field _ _ _ _ _ _ _ _ LY FY (eq_trans (match_pat_lit _ _ _) E4)) as [y5 E5].
  by exists y5.
Qed.

Lemma strftime_loose_chars d :
  list_ascii_of_string (strftime_loose d) =
  (list_ascii_of_string (py_str (dt_year d)) ++ "-" ::
   list_ascii_of_string (py_str (dt_month d)) ++ "-" ::
   list_ascii_of_string (py_str (dt_day d)) ++ "t" ::
   list_ascii_of_string (py_str (dt_hour d)) ++ ":" ::
   list_ascii_of_string (py_str (dt_minute d)) ++ ":" ::
   list_ascii_of_string (py_str (dt_second d)))%char.
Proof. unfold strftime_loose. repeat (rewrite list_ascii_of_string_app; cbn [list_ascii_of_string]). done. Qed.

(** ** Properties *)

(** C25: [strptime] reads back what [strftime] writes: for a datetime
    the constructor accepts, from year 1000 on (where glibc writes four
    year digits), [datetime.strptime(d.strftime(F), F)] is [d], with
    [F = '%Y-%m-%dT%H:%M:%S'], the format of [to_result_dict] and of the
    [FixtureResult] constructor. *)
Theorem strptime_strftime d :
  valid_datetime d = true -> 1000 <= dt_year d -> strptime (strftime d) = Ok d.
Proof.
  intros Hv Hy. pose proof (valid_datetime_bounds d Hv) as B.
  pose proof (days_in_month_le (dt_year d) (dt_month d)).
  destruct (reads_back_spec _ _ _ (forallb_seqZ _ _ _ (dt_year d) year_reads_back ltac:(lia))) as [FY IY].
  destruct (reads_back_spec _ _ _ (forallb_seqZ _ _ _ (dt_month d) month_reads_back ltac:(lia))) as [Fm Im].
  destruct (reads_back_spec _ _ _ (forallb_seqZ _ _ _ (dt_day d) day_reads_back ltac:(lia))) as [Fd Id].
  destruct (reads_back_spec _ _ _ (forallb_seqZ _ _ _ (dt_hour d) hour_reads_back ltac:(lia))) as [FH IH].
  destruct (reads_back_spec _ _ _ (forallb_seqZ _ _ _ (dt_minute d) minute_reads_back ltac:(lia))) as [FM IM].
  destruct (reads_back_spec _ _ _ (forallb_seqZ _ _ _ (dt_second d) second_reads_back ltac:(lia))) as [FS IS].
  destruct (kickoff_match _ _ _ _ _ _ _ _ _ _ _ _ eq_refl eq_refl eq_refl eq_refl eq_refl eq_refl
              FY Fm Fd FH FM FS) as [ys E].
  unfold strptime. rewrite strftime_chars, E. cbn [bind_py].
  rewrite !string_of_list_ascii_of_string, IY, Im, Id, IH, IM, IS. cbn [bind_py].
  by apply mk_checked_valid.
Qed.

(** C26: [strptime] accepts more than the format writes, and reads the
    same datetime from it.  For every datetime the constructor accepts,
    from year 1000 on, the text with the month, day, hour, minute and
    second written without their leading zero and with a lower-case [t]
    ([2017-9-5t7:3:1]) parses to that datetime, as the text [strftime]
    writes does: [re.match] tries the one-digit alternatives of each
    group, and IGNORECASE lets [t] match [T].  So the date filters do not
    enforce the format of the spec. *)
Theorem strptime_lenient d :
  valid_datetime d = true -> 1000 <= dt_year d -> strptime (strftime_loose d) = Ok d.
Proof.
  intros Hv Hy. pose proof (valid_datetime_bounds d Hv) as B.
  pose proof (days_in_month_le (dt_year d) (dt_month d)).
  destruct (reads_loose_spec _ _ _ _ (forallb_seqZ _ _ _ (dt_year d) year_reads_loose ltac:(lia)))
    as [[LY|] [FY IY]]; [|done].
  destruct (reads_loose_spec _ _ _ _ (forallb_seqZ _ _ _ (dt_month d) month_reads_loose ltac:(lia)))
    as [[Lm|] [Fm Im]]; [|done].
  destruct (reads_loose_spec _ _ _ _ (forallb_seqZ _ _ _ (dt_day d) day_reads_loose ltac:(lia)))
    as [[Ld|] [Fd Id]]; [|done].
  destruct (reads_loose_spec _ _ _ _ (forallb_seqZ _ _ _ (dt_hour d) hour_reads_loose ltac:(lia)))
    as [[LH|] [FH IH]]; [|done].
  destruct (reads_loose_spec _ _ _ _ (forallb_seqZ _ _ _ (dt_minute d) minute_reads_loose ltac:(lia)))
    as [[LM|] [FM IM]]; [|done].
  destruct (reads_loose_spec _ _ _ _ (forallb_seqZ _ _ _ (dt_second d) second_reads_loose ltac:(lia)))
    as [_ [FS IS]]. rewrite app_nil_r in FS.
  destruct (kickoff_match_loose _ _ _ _ _ _ _ _ _ _ _ _ eq_refl eq_refl eq_refl eq_refl eq_refl eq_refl
              LY FY Lm Fm Ld Fd LH FH LM FM FS) as [ys E].
  unfold strptime. rewrite strftime_loose_chars, E. cbn [bind_py].
  rewrite !string_of_list_ascii_of_string, IY, Im, Id, IH, IM, IS. cbn [bind_py].
  by apply mk_checked_valid.
Qed.

(** ** Witnesses *)

(** The kickoff of the spec's scenario. *)
Definition sample_kickoff : datetime := mk_datetime 2017 9 13 20 45 0.

Lemma strptime_strftime_witness :
  valid_datetime sample_kickoff = true /\ 1000 <= dt_year sample_kickoff /\
  strptime (strftime sample_kickoff) = Ok sample_kickoff.
Proof.
  assert (V : valid_datetime sample_kickoff = true) by reflexivity.
  assert (Y : 1000 <= dt_year sample_kickoff) by (simpl; lia).
  split; [exact V|]. split; [exact Y|]. exact (strptime_strftime _ V Y).
Defined.

(** The kickoff 2017-09-05 07:03:01, whose fields all have one digit. *)
Definition early_kickoff : datetime := mk_datetime 2017 9 5 7 3 1.

Lemma strptime_lenient_witness :
  valid_datetime early_kickoff = true /\ 1000 <= dt_year early_kickoff /\
  strptime "2017-9-5t7:3:1" = Ok early_kickoff.
Proof.
  assert (V : valid_datetime early_kickoff = true) by reflexivity.
  assert (Y : 1000 <= dt_year early_kickoff) by (simpl; lia).
  split; [exact V|]. split; [exact Y|]. exact (strptime_lenient _ V Y).
Defined.

End Timestamp.
