(* ===== verification/Entities.v ===== *)
(** * Entities: the ORM rows of models.py and the database they live in

    The four SQLAlchemy models [League], [LeagueGroup], [FootballTeam] and
    [FixtureResult] are records.  Their nullable columns are options.  The
    database is [db]: one list of rows per table, in the order a sequential
    scan returns them (the order of [.first()] and [.all()] without
    [ORDER BY]), and the next value of each table's serial sequence.

    The aggregator reads rows through the typeclass [EntityLookup]:
    [Model.query.get(id)] per table and
    [FixtureResult.query.filter_by(group_id=g).all()].  [db] is its
    instance. *)

From S2P Require Import Prelude Timestamp.
Import Timestamp.

Module Entities.

(** [class League(DB.Model)]: [id], [title] (unique, nullable). *)
Record League := mk_league { league_id : Z; league_title : option string }.

(** [class LeagueGroup(DB.Model)]: [id], [title], [league_id]. *)
Record LeagueGroup := mk_group {
  lgroup_id : Z; lgroup_title : option string; lgroup_league_id : Z
}.

(** [class FootballTeam(DB.Model)]: [id], [team_name] (unique, nullable). *)
Record FootballTeam := mk_team { team_id : Z; team_name : option string }.

(** [class FixtureResult(DB.Model)]. *)
Record FixtureResult := mk_fixture {
  fr_id : Z;
  fr_matchday : option Z;
  fr_kickoff_at : datetime;
  fr_score : option string;
  fr_group_id : Z;
  fr_home_team_id : Z;
  fr_away_team_id : Z
}.

(** The four tables and their id sequences. *)
Record db := mk_db {
  db_leagues : list League;
  db_groups : list LeagueGroup;
  db_teams : list FootballTeam;
  db_fixtures : list FixtureResult;
  db_next_league : Z;
  db_next_group : Z;
  db_next_team : Z;
  db_next_fixture : Z
}.

Definition empty_db : db := mk_db [] [] [] [] 1 1 1 1.

(** What the aggregator reads from storage. *)
Class EntityLookup (D : Type) := {
  query_league : D -> Z -> option League;
  query_group : D -> Z -> option LeagueGroup;
  query_team : D -> Z -> option FootballTeam;
  query_group_fixtures : D -> Z -> list FixtureResult
}.

(** [League.query.get(i)]. *)
Definition db_get_league (d : db) (i : Z) : option League :=
  List.find (fun r => bool_decide (league_id r = i)) (db_leagues d).

(** [LeagueGroup.query.get(i)]. *)
Definition db_get_group (d : db) (i : Z) : option LeagueGroup :=
  List.find (fun r => bool_decide (lgroup_id r = i)) (db_groups d).

(** [FootballTeam.query.get(i)]. *)
Definition db_get_team (d : db) (i : Z) : option FootballTeam :=
  List.find (fun r => bool_decide (team_id r = i)) (db_teams d).

(** [FixtureResult.query.get(i)]. *)
Definition db_get_fixture (d : db) (i : Z) : option FixtureResult :=
  List.find (fun r => bool_decide (fr_id r = i)) (db_fixtures d).

(** [FixtureResult.query.filter_by(group_id=g).all()]. *)
Definition db_group_fixtures (d : db) (g : Z) : list FixtureResult :=
  filter (fun f => fr_group_id f = g) (db_fixtures d).

#[export] Instance db_lookup : EntityLookup db := {
  query_league := db_get_league;
  query_group := db_get_group;
  query_team := db_get_team;
  query_group_fixtures := db_group_fixtures
}.

End Entities.
