(* ===== verification/Standings.v ===== *)
(** * Standings: the table aggregator of utils.py

    This file models [StandingsRow] (models.py) with its three comparison
    operators, and the private helpers of [ChampionshipDataUtil] that
    compute a group's table:
    - [__create_standings_dict] is [create_standings_dict];
    - [__parse_result] is [parse_result], one row update per statement of
      the source;
    - the loop of [__gen_standing_table] is [populate];
    - [__get_sorted_stangings_as_list] is [get_sorted_standings_as_list];
    - [__gen_standing_table] is [gen_standing_table].

    The standings dict is a [pydict]: insertion-ordered keys beside a
    [gmap].  [d[k].field += n] is [pd_alter] at key [k].  The home and the
    away row are looked up by key at every statement, so a fixture whose
    home and away team are the same updates that one row twice, as the
    aliased Python object does.  The set of team ids is iterated through
    the class [PySetOrder]. *)

From Stdlib Require Import Ascii String.
From stdpp Require Import sorting.
From S2P Require Import Prelude PyStr PySort Timestamp Entities.
Import PyStr PySort Entities.

Module Standings.

(** ** Rows *)

(** [class StandingsRow] with its eleven attributes. *)
Record StandingsRow := mk_row {
  rank : Z; team : option string;
  played_games : Z; points : Z; goals : Z; goals_against : Z;
  goal_difference : Z; win : Z; lose : Z; draw : Z;
  matchday : Z
}.

(** [StandingsRow(team=team_name)]: the defaults of [__init__]. *)
Definition new_row (team_name : option string) : StandingsRow :=
  mk_row (-1) team_name 0 0 0 0 0 0 0 0 0.

(** [__eq__]: equal points and equal goal difference. *)
Definition row_eq (a b : StandingsRow) : bool :=
  (points a =? points b) && (goal_difference a =? goal_difference b).

(** [__lt__]. *)
Definition row_lt (a b : StandingsRow) : bool :=
  if points a <? points b then true
  else if points b <? points a then false
  else goal_difference a <? goal_difference b.

(** [__gt__]. *)
Definition row_gt (a b : StandingsRow) : bool :=
  if points b <? points a then true
  else if points a <? points b then false
  else goal_difference b <? goal_difference a.

(** The attributes that [__parse_result] increments. *)
Inductive row_field :=
| Points | Win | Lose | Draw | PlayedGames | Goals | GoalsAgainst | GoalDifference.

(** [row.<field> += n]. *)
Definition bump (fld : row_field) (n : Z) (r : StandingsRow) : StandingsRow :=
  let 'mk_row rk t pl pt g ga gd w l dr md := r in
  match fld with
  | Points => mk_row rk t pl (pt + n) g ga gd w l dr md
  | Win => mk_row rk t pl pt g ga gd (w + n) l dr md
  | Lose => mk_row rk t pl pt g ga gd w (l + n) dr md
  | Draw => mk_row rk t pl pt g ga gd w l (dr + n) md
  | PlayedGames => mk_row rk t (pl + n) pt g ga gd w l dr md
  | Goals => mk_row rk t pl pt (g + n) ga gd w l dr md
  | GoalsAgainst => mk_row rk t pl pt g (ga + n) gd w l dr md
  | GoalDifference => mk_row rk t pl pt g ga (gd + n) w l dr md
  end.

(** [standing.rank = index]. *)
Definition set_rank (i : Z) (r : StandingsRow) : StandingsRow :=
  let 'mk_row _ t pl pt g ga gd w l dr md := r in mk_row i t pl pt g ga gd w l dr md.

(** [StandingsRow.to_result_dict]: the ten keys of the JSON row. *)
Record ResultRow := mk_result_row {
  rr_rank : Z; rr_team : option string; rr_playedGames : Z; rr_points : Z;
  rr_goals : Z; rr_goalsAgainst : Z; rr_goalDifference : Z;
  rr_win : Z; rr_lose : Z; rr_draw : Z
}.

Definition to_result_dict (r : StandingsRow) : ResultRow :=
  mk_result_row (rank r) (team r) (played_games r) (points r) (goals r)
    (goals_against r) (goal_difference r) (win r) (lose r) (draw r).

(** ** Python dicts and sets *)

(** A Python dict with integer keys: the keys in insertion order, and the
    values by key. *)
Record pydict (V : Type) := mk_pydict { pd_keys : list Z; pd_map : gmap Z V }.
Arguments mk_pydict {V}.
Arguments pd_keys {V}.
Arguments pd_map {V}.

Definition pd_empty {V} : pydict V := mk_pydict [] ∅.

(** [d[k] = v]: a new key goes last, an old key keeps its place. *)
Definition pd_set {V} (k : Z) (v : V) (d : pydict V) : pydict V :=
  match pd_map d !! k with
  | Some _ => mk_pydict (pd_keys d) (<[k := v]> (pd_map d))
  | None => mk_pydict (pd_keys d ++ [k]) (<[k := v]> (pd_map d))
  end.

(** [d[k]]. *)
Definition pd_get {V} (k : Z) (d : pydict V) : pyres V :=
  py_of_option KeyError (pd_map d !! k).

(** A mutation of the object stored at [k]. *)
Definition pd_alter {V} (f : V -> V) (k : Z) (d : pydict V) : pydict V :=
  mk_pydict (pd_keys d) (alter f k (pd_map d)).

(** [list(d.values())]. *)
Definition pd_values {V} (d : pydict V) : list V :=
  omap (fun k => pd_map d !! k) (pd_keys d).

(** The iteration order of [set(l)] for a list of ids.  Python promises
    only that each element comes once. *)
Class PySetOrder := {
  set_iter : list Z -> list Z;
  set_iter_nodup : forall l, NoDup (set_iter l);
  set_iter_elem : forall l x, x ∈ set_iter l <-> x ∈ l
}.

(** ** The helpers of [ChampionshipDataUtil] *)

Section Aggregator.
Context `{EntityLookup D} `{PySetOrder}.

(** The [result] list of [__create_standings_dict]: home then away id of
    every fixture. *)
Definition team_ids (fixtures : list FixtureResult) : list Z :=
  foldl (fun acc f => acc ++ [fr_home_team_id f; fr_away_team_id f]) [] fixtures.

(** [__create_standings_dict]. *)
Definition create_standings_dict (d : D) (fixtures : list FixtureResult)
    : pyres (pydict StandingsRow) :=
  py_foldl
    (fun sd item =>
       let! t := py_of_option AttributeError (query_team d item) in
       Ok (pd_set item (new_row (team_name t)) sd))
    pd_empty (set_iter (team_ids fixtures)).

(** The two scores of a fixture: [score.split(':')], then [int] of the
    first and of the second piece. *)
Definition split_score (score : string) : pyres (Z * Z) :=
  let parts := py_split ":"%char score in
  let! h := py_index parts 0 in
  let! hs := py_int h in
  let! a := py_index parts 1 in
  let! as_ := py_int a in
  Ok (hs, as_).

(** The row a statement of [__parse_result] updates. *)
Inductive side := Home | Away.

(** [<side>_team.<field> += <amount>]. *)
Definition stmt : Type := side * row_field * Z.

(** The statements of [__parse_result] for scores [hs] and [as_], in
    source order. *)
Definition parse_result_stmts (hs as_ : Z) : list stmt :=
  (if hs >? as_ then [(Home, Points, 3); (Home, Win, 1); (Away, Lose, 1)]
   else if as_ <? hs then [(Away, Points, 3); (Away, Win, 1); (Home, Lose, 1)]
   else [(Home, Points, 1); (Home, Draw, 1); (Away, Points, 1); (Away, Draw, 1)])
  ++ [(Home, PlayedGames, 1); (Home, Goals, hs); (Home, GoalsAgainst, as_);
      (Home, GoalDifference, hs - as_)]
  ++ [(Away, PlayedGames, 1); (Away, Goals, as_); (Away, GoalsAgainst, hs);
      (Away, GoalDifference, as_ - hs)].

Definition side_key (f : FixtureResult) (s : side) : Z :=
  match s with Home => fr_home_team_id f | Away => fr_away_team_id f end.

Definition exec_stmt (f : FixtureResult) (sd : pydict StandingsRow) (s : stmt)
    : pydict StandingsRow :=
  let '(sde, fld, n) := s in pd_alter (bump fld n) (side_key f sde) sd.

(** [__parse_result]. *)
Definition parse_result (sd : pydict StandingsRow) (f : FixtureResult)
    : pyres (pydict StandingsRow) :=
  let! _ := pd_get (fr_home_team_id f) sd in
  let! _ := pd_get (fr_away_team_id f) sd in
  let! score := py_of_option AttributeError (fr_score f) in
  let! '(hs, as_) := split_score score in
  Ok (foldl (exec_stmt f) sd (parse_result_stmts hs as_)).

(** The loop of [__gen_standing_table]: the running maximum matchday
    ([None > int] raises [TypeError]) and the row updates. *)
Definition populate_step (acc : Z * pydict StandingsRow) (f : FixtureResult)
    : pyres (Z * pydict StandingsRow) :=
  let '(max_md, sd) := acc in
  let! md := py_of_option TypeError (fr_matchday f) in
  let max_md' := if md >? max_md then md else max_md in
  let! sd' := parse_result sd f in
  Ok (max_md', sd').

Definition populate (fixtures : list FixtureResult) (sd : pydict StandingsRow)
    : pyres (Z * pydict StandingsRow) :=
  py_foldl populate_step (0, sd) fixtures.

(** [index = 1; for standing in standings: standing.rank = index; ...]. *)
Fixpoint assign_ranks (index : Z) (l : list StandingsRow) : list StandingsRow :=
  match l with
  | [] => []
  | r :: l' => set_rank index r :: assign_ranks (index + 1) l'
  end.

(** [__get_sorted_stangings_as_list]. *)
Definition get_sorted_standings_as_list (sd : pydict StandingsRow)
    : list StandingsRow :=
  assign_ranks 1 (py_sort_reverse row_lt (pd_values sd)).

(** The table dict of [__gen_standing_table]. *)
Record StandingsTable := mk_table {
  tbl_leagueTitle : option string;
  tbl_matchday : Z;
  tbl_group : option string;
  tbl_standing : list ResultRow
}.

(** [__gen_standing_table]. *)
Definition gen_standing_table (d : D) (group_id : Z) : pyres StandingsTable :=
  let fixtures := query_group_fixtures d group_id in
  let! sd := create_standings_dict d fixtures in
  let! '(max_md, sd') := populate fixtures sd in
  let standings := get_sorted_standings_as_list sd' in
  let! g := py_of_option AttributeError (query_group d group_id) in
  let! l := py_of_option AttributeError (query_league d (lgroup_league_id g)) in
  Ok (mk_table (league_title l) max_md (lgroup_title g)
        (map to_result_dict standings)).
End Aggregator.

(** CPython iterates a set of small non-negative ints in ascending order
  when its table is larger than the ids.  This instance has that order. *)
#[export] Program Instance ascending_set_order : PySetOrder := {
set_iter l := merge_sort Z.le (remove_dups l)
}.
Next Obligation.
intros l. rewrite merge_sort_Permutation. apply NoDup_remove_dups.
Qed.
Next Obligation.
intros l x. rewrite merge_sort_Permutation. apply elem_of_remove_dups.
Qed.

(** [str(h) + ':' + str(a)]: how the tests (tests.py,
  [generate_new_score]) write a score. *)
Definition format_score (h a : Z) : string :=
String.append (py_str h) (String ":" (py_str a)).

(** ** The specification of a table row (spec, section 4.2)

  A team's statistics are sums over fixtures.  [side_stats own opp o] is
  what one fixture adds to the row of a team that scored [own], conceded
  [opp] and was credited the outcome [o]. *)

Record stats := mk_stats {
s_played : Z; s_points : Z; s_goals : Z; s_against : Z;
s_gd : Z; s_win : Z; s_lose : Z; s_draw : Z
}.

Definition stats_zero : stats := mk_stats 0 0 0 0 0 0 0 0.

Definition stats_add (a b : stats) : stats :=
mk_stats (s_played a + s_played b) (s_points a + s_points b)
  (s_goals a + s_goals b) (s_against a + s_against b) (s_gd a + s_gd b)
  (s_win a + s_win b) (s_lose a + s_lose b) (s_draw a + s_draw b).

(** The row [r] with the statistics [s] added. *)
Definition row_add (r : StandingsRow) (s : stats) : StandingsRow :=
mk_row (rank r) (team r) (played_games r + s_played s) (points r + s_points s)
  (goals r + s_goals s) (goals_against r + s_against s)
  (goal_difference r + s_gd s) (win r + s_win s) (lose r + s_lose s)
  (draw r + s_draw s) (matchday r).

Inductive outcome := Won | Drawn | Lost.

Definition side_stats (own opp : Z) (o : outcome) : stats :=
match o with
| Won => mk_stats 1 3 own opp (own - opp) 1 0 0
| Drawn => mk_stats 1 1 own opp (own - opp) 0 0 1
| Lost => mk_stats 1 0 own opp (own - opp) 0 1 0
end.

(** Three points to the strictly higher scorer, one each on a draw. *)
Definition spec_outcome (own opp : Z) : outcome :=
if opp <? own then Won else if own =? opp then Drawn else Lost.

(** What a fixture with scores [hs]:[as_] adds to team [i] under the spec;
  a team that is both home and away gets both sides. *)
Definition spec_fixture_stats (i : Z) (f : FixtureResult) (hs as_ : Z) : stats :=
stats_add
  (if fr_home_team_id f =? i then side_stats hs as_ (spec_outcome hs as_)
   else stats_zero)
  (if fr_away_team_id f =? i then side_stats as_ hs (spec_outcome as_ hs)
   else stats_zero).

(** The parsed score of a stored fixture. *)
Definition fixture_score (f : FixtureResult) : pyres (Z * Z) :=
let! score := py_of_option AttributeError (fr_score f) in split_score score.

(** The spec's statistics of team [i] over a list of fixtures. *)
Definition spec_team_stats (i : Z) (fs : list FixtureResult) : stats :=
foldr (fun f acc =>
         match fixture_score f with
         | Ok (hs, as_) => stats_add (spec_fixture_stats i f hs as_) acc
         | Raise _ => acc
         end) stats_zero fs.

(** One [+=] statement adds a unit vector. *)
Definition unit_stats (fld : row_field) (n : Z) : stats :=
match fld with
| Points => mk_stats 0 n 0 0 0 0 0 0
| Win => mk_stats 0 0 0 0 0 n 0 0
| Lose => mk_stats 0 0 0 0 0 0 n 0
| Draw => mk_stats 0 0 0 0 0 0 0 n
| PlayedGames => mk_stats n 0 0 0 0 0 0 0
| Goals => mk_stats 0 0 n 0 0 0 0 0
| GoalsAgainst => mk_stats 0 0 0 n 0 0 0 0
| GoalDifference => mk_stats 0 0 0 0 n 0 0 0
end.

(** The row invariants of the spec (section 3). *)
Definition row_ok (r : StandingsRow) : Prop :=
goal_difference r = goals r - goals_against r /\
played_games r = win r + lose r + draw r /\
points r = 3 * win r + draw r.

Definition result_row_ok (r : ResultRow) : Prop :=
rr_goalDifference r = rr_goals r - rr_goalsAgainst r /\
rr_playedGames r = rr_win r + rr_lose r + rr_draw r /\
rr_points r = 3 * rr_win r + rr_draw r.

(** Statistics that keep the row invariants when added. *)
Definition balanced (s : stats) : Prop :=
s_gd s = s_goals s - s_against s /\
s_played s = s_win s + s_lose s + s_draw s /\
s_points s = 3 * s_win s + s_draw s.

(** The ranking key of [__lt__]: points, then goal difference. *)
Definition row_key (r : StandingsRow) : Z * Z := (points r, goal_difference r).

Definition key_lt (a b : Z * Z) : bool :=
(a.1 <? b.1) || ((a.1 =? b.1) && (a.2 <? b.2)).

(** The list of statistics rows the spec gives a group: one per team id of
  its fixtures, in the iteration order of the set of ids. *)
Definition spec_rows `{EntityLookup D} `{PySetOrder} (d : D) (fs : list FixtureResult)
  : list StandingsRow :=
omap (fun i => (fun t => row_add (new_row (team_name t)) (spec_team_stats i fs))
                 <$> query_team d i)
  (set_iter (team_ids fs)).

(** A result row with its rank left out. *)
Definition forget_rank (r : ResultRow) : ResultRow :=
mk_result_row 0 (rr_team r) (rr_playedGames r) (rr_points r) (rr_goals r)
  (rr_goalsAgainst r) (rr_goalDifference r) (rr_win r) (rr_lose r) (rr_draw r).

Definition rr_key (r : ResultRow) : Z * Z := (rr_points r, rr_goalDifference r).

(** No fixture of the list is an away win: the case where the code and
  the spec agree. *)
Definition no_away_win (fs : list FixtureResult) : bool :=
forallb (fun f => match fixture_score f with
                  | Ok (hs, as_) => as_ <=? hs
                  | Raise _ => true
                  end) fs.

(** ** Concrete inputs

  The scenario of the spec (section 8): a group in which [A] beat [B]
  3:1 on matchday 1 and [B] drew [A] 2:2 on matchday 2. *)

Definition scenario_kickoff : Timestamp.datetime := Timestamp.mk_datetime 2017 9 13 20 45 0.

Definition scenario_db (scores : list (Z * Z * option string)) : db :=
mk_db [mk_league 1 (Some "Champions League")] [mk_group 1 (Some "A") 1]
  [mk_team 1 (Some "A"); mk_team 2 (Some "B")]
  (imap (fun n '(hm, aw, sc) =>
           mk_fixture (Z.of_nat n + 1) (Some (Z.of_nat n + 1)) scenario_kickoff sc 1 hm aw)
        scores)
  2 2 3 (Z.of_nat (length scores) + 1).

Definition spec_scenario_db : db := scenario_db [(1, 2, Some "3:1"); (2, 1, Some "2:2")].

(** The table the spec expects for that scenario. *)
Definition spec_scenario_expected : StandingsTable :=
mk_table (Some "Champions League") 2 (Some "A")
  [mk_result_row 1 (Some "A") 2 4 5 3 2 1 0 1;
   mk_result_row 2 (Some "B") 2 1 3 5 (-2) 0 1 1].

(** A single away win, 0:1, and the dict it is parsed into. *)
Definition away_win_db : db := scenario_db [(1, 2, Some "0:1")].

Definition away_win_fixture : FixtureResult :=
mk_fixture 1 (Some 1) scenario_kickoff (Some "0:1") 1 1 2.

Definition zeroed_dict : pydict StandingsRow :=
mk_pydict [1; 2] (<[2 := new_row (Some "B")]> (<[1 := new_row (Some "A")]> ∅)).

Definition away_win_dict_after : pydict StandingsRow :=
match parse_result zeroed_dict away_win_fixture with Ok x => x | Raise _ => pd_empty end.

(** ** Lemmas *)

Create HintDb standings discriminated.

Lemma stats_add_mk a1 a2 a3 a4 a5 a6 a7 a8 b1 b2 b3 b4 b5 b6 b7 b8 :
stats_add (mk_stats a1 a2 a3 a4 a5 a6 a7 a8) (mk_stats b1 b2 b3 b4 b5 b6 b7 b8) =
mk_stats (a1 + b1) (a2 + b2) (a3 + b3) (a4 + b4) (a5 + b5) (a6 + b6) (a7 + b7) (a8 + b8).
Proof. reflexivity. Qed.

Lemma stats_add_zero_r s : stats_add s stats_zero = s.
Proof. destruct s; unfold stats_add; simpl; f_equal; lia. Qed.

Lemma stats_add_zero_l s : stats_add stats_zero s = s.
Proof. destruct s; unfold stats_add; simpl; f_equal; lia. Qed.

(** Close an equation between sums of concrete statistics. *)
Ltac stats_eq :=
cbn [side_stats unit_stats];
rewrite ?stats_add_zero_r, ?stats_add_zero_l, ?stats_add_mk;
f_equal; lia.

Lemma row_add_zero r : row_add r stats_zero = r.
Proof. destruct r; unfold row_add; simpl; f_equal; lia. Qed.

Lemma row_add_add r s1 s2 : row_add (row_add r s1) s2 = row_add r (stats_add s1 s2).
Proof. destruct r, s1, s2; unfold row_add, stats_add; simpl; f_equal; lia. Qed.

Lemma bump_row_add fld n r : bump fld n r = row_add r (unit_stats fld n).
Proof. destruct r, fld; unfold row_add; simpl; f_equal; lia. Qed.

Lemma balanced_add s1 s2 : balanced s1 -> balanced s2 -> balanced (stats_add s1 s2).
Proof. unfold balanced, stats_add; simpl; lia. Qed.

Lemma balanced_zero : balanced stats_zero.
Proof. unfold balanced; simpl; lia. Qed.

Lemma balanced_side_stats own opp o : balanced (side_stats own opp o).
Proof. destruct o; unfold balanced; simpl; lia. Qed.

Lemma row_ok_add r s : row_ok r -> balanced s -> row_ok (row_add r s).
Proof. destruct r; unfold row_ok, balanced, row_add; simpl; lia. Qed.

Lemma row_ok_new_row t : row_ok (new_row t).
Proof. unfold row_ok; simpl; lia. Qed.

#[export] Hint Resolve balanced_add balanced_zero balanced_side_stats row_ok_add
row_ok_new_row : standings.

Section Theory.
Context `{EntityLookup D} `{PySetOrder}.

(** What a list of statements adds to the row of team [i]. *)
Definition stmts_stats (f : FixtureResult) (i : Z) (ss : list stmt) : stats :=
foldr (fun '(sde, fld, n) acc =>
       if side_key f sde =? i then stats_add (unit_stats fld n) acc
       else acc) stats_zero ss.

Lemma exec_stmts_lookup f ss sd i :
pd_map (foldl (exec_stmt f) sd ss) !! i =
(fun r => row_add r (stmts_stats f i ss)) <$> pd_map sd !! i.
Proof.
revert sd. induction ss as [|[[sde fld] n] ss IH]; intros sd; simpl.
- destruct (pd_map sd !! i); simpl; by rewrite ?row_add_zero.
- rewrite IH. simpl. rewrite lookup_alter.
destruct (Z.eqb_spec (side_key f sde) i) as [Hk|Hk]; case_decide as Hk'; try congruence.
rewrite Hk. destruct (pd_map sd !! i); simpl; [|done].
by rewrite bump_row_add, row_add_add.
Qed.

(** The net effect of [__parse_result]: the home team is credited a win
when it scored more and a draw otherwise; the away team a loss when
the home team scored more and a draw otherwise. *)
Lemma stmts_stats_parse_result f i hs as_ :
stmts_stats f i (parse_result_stmts hs as_) =
stats_add
(if fr_home_team_id f =? i
 then side_stats hs as_ (if hs >? as_ then Won else Drawn) else stats_zero)
(if fr_away_team_id f =? i
 then side_stats as_ hs (if hs >? as_ then Lost else Drawn) else stats_zero).
Proof.
unfold parse_result_stmts, stmts_stats.
destruct (Z.gtb_spec hs as_); try (destruct (Z.ltb_spec as_ hs); [lia|]);
cbn; destruct (fr_home_team_id f =? i), (fr_away_team_id f =? i);
stats_eq.
Qed.

(** Where the code and the spec agree: the away team did not win. *)
Lemma stmts_stats_spec f i hs as_ :
as_ <= hs ->
stmts_stats f i (parse_result_stmts hs as_) = spec_fixture_stats i f hs as_.
Proof.
intros Hle. rewrite stmts_stats_parse_result. unfold spec_fixture_stats, spec_outcome.
destruct (Z.gtb_spec hs as_), (Z.ltb_spec as_ hs), (Z.ltb_spec hs as_),
(Z.eqb_spec hs as_), (Z.eqb_spec as_ hs); try lia; done.
Qed.

Lemma exec_stmts_keys f ss sd : pd_keys (foldl (exec_stmt f) sd ss) = pd_keys sd.
Proof.
revert sd. induction ss as [|[[sde fld] n] ss IH]; intros sd; simpl; [done|].
by rewrite IH.
Qed.

Lemma parse_result_Ok sd f sd' :
parse_result sd f = Ok sd' ->
exists hs as_, fixture_score f = Ok (hs, as_) /\
is_Some (pd_map sd !! fr_home_team_id f) /\
is_Some (pd_map sd !! fr_away_team_id f) /\
sd' = foldl (exec_stmt f) sd (parse_result_stmts hs as_).
Proof.
unfold parse_result, fixture_score, pd_get. intros Hp. py_inv.
destruct a2 as [hs as_]. py_inv. exists hs, as_.
rewrite Ha1. simpl. repeat split; eauto.
Qed.

Lemma populate_step_Ok m sd f m' sd' :
populate_step (m, sd) f = Ok (m', sd') ->
exists md hs as_, fr_matchday f = Some md /\ m' = Z.max md m /\
fixture_score f = Ok (hs, as_) /\
is_Some (pd_map sd !! fr_home_team_id f) /\
is_Some (pd_map sd !! fr_away_team_id f) /\
sd' = foldl (exec_stmt f) sd (parse_result_stmts hs as_).
Proof.
unfold populate_step. intros Hp. py_inv.
apply parse_result_Ok in Ha0 as (hs & as_ & Hs & Hh & Haw & ->).
exists a, hs, as_. repeat split; auto. destruct (Z.gtb_spec a m); lia.
Qed.

(** The loop of [__gen_standing_table], fixture by fixture. *)
Lemma populate_cons m sd f fs r :
py_foldl populate_step (m, sd) (f :: fs) = Ok r ->
exists md hs as_ sd1, fr_matchday f = Some md /\ fixture_score f = Ok (hs, as_) /\
sd1 = foldl (exec_stmt f) sd (parse_result_stmts hs as_) /\
py_foldl populate_step (Z.max md m, sd1) fs = Ok r.
Proof.
simpl. intros Hr. apply bind_py_Ok in Hr as ([m' sd'] & Hs & Hr).
apply populate_step_Ok in Hs as (md & hs & as_ & Hmd & -> & Hsc & _ & _ & ->).
eauto 10.
Qed.

Lemma populate_keys fs m sd r :
py_foldl populate_step (m, sd) fs = Ok r -> pd_keys r.2 = pd_keys sd.
Proof.
revert m sd. induction fs as [|f fs IH]; intros m sd Hr.
- by injection Hr as <-.
- apply populate_cons in Hr as (? & ? & ? & ? & _ & _ & -> & Hr).
rewrite (IH _ _ Hr). apply exec_stmts_keys.
Qed.

(** The largest matchday, starting from [m]. *)
Lemma populate_matchday fs m sd r :
py_foldl populate_step (m, sd) fs = Ok r ->
Forall (fun f => is_Some (fr_matchday f)) fs /\
r.1 = foldl Z.max m (omap fr_matchday fs).
Proof.
revert m sd. induction fs as [|f fs IH]; intros m sd Hr.
- by injection Hr as <-.
- apply populate_cons in Hr as (md & ? & ? & ? & Hmd & _ & _ & Hr).
apply IH in Hr as [Hall Hm]. simpl. rewrite Hmd. simpl.
split; [constructor; eauto|]. by rewrite Hm, Z.max_comm.
Qed.

(** Every row that satisfies the invariants still does after the loop. *)
Lemma populate_row_ok fs m sd r :
py_foldl populate_step (m, sd) fs = Ok r ->
(forall i x, pd_map sd !! i = Some x -> row_ok x) ->
forall i x, pd_map r.2 !! i = Some x -> row_ok x.
Proof.
revert m sd. induction fs as [|f fs IH]; intros m sd Hr Hok.
- by injection Hr as <-.
- apply populate_cons in Hr as (? & hs & as_ & ? & _ & _ & -> & Hr).
eapply IH; [exact Hr|]. intros i z. rewrite exec_stmts_lookup.
destruct (pd_map sd !! i) as [y|] eqn:Hy; simpl; [|done].
intros [= <-]. apply row_ok_add; [eauto|].
rewrite stmts_stats_parse_result.
apply balanced_add; case_match; auto with standings.
Qed.

Lemma populate_scores fs m sd r :
py_foldl populate_step (m, sd) fs = Ok r ->
forall f, f ∈ fs -> is_Some (fr_matchday f) /\ exists hs as_, fixture_score f = Ok (hs, as_).
Proof.
revert m sd. induction fs as [|g fs IH]; intros m sd Hr f Hf; [set_solver|].
apply populate_cons in Hr as (md & hs & as_ & ? & Hmd & Hsc & _ & Hr).
apply elem_of_cons in Hf as [->|Hf]; [rewrite Hmd; eauto|]. eauto.
Qed.

(** With no away win, each row ends as its start plus the spec's sums. *)
Lemma populate_refines fs m sd r :
py_foldl populate_step (m, sd) fs = Ok r ->
(forall f hs as_, f ∈ fs -> fixture_score f = Ok (hs, as_) -> as_ <= hs) ->
forall i, pd_map r.2 !! i = (fun x => row_add x (spec_team_stats i fs)) <$> pd_map sd !! i.
Proof.
revert m sd. induction fs as [|f fs IH]; intros m sd Hr Hno i.
- injection Hr as <-. simpl. destruct (pd_map sd !! i); simpl; by rewrite ?row_add_zero.
- apply populate_cons in Hr as (? & hs & as_ & ? & _ & Hsc & -> & Hr).
rewrite (IH _ _ Hr) by (intros; eapply Hno; eauto; set_solver).
rewrite exec_stmts_lookup, stmts_stats_spec by (eapply Hno; eauto; set_solver).
simpl. rewrite Hsc. destruct (pd_map sd !! i); simpl; [|done].
by rewrite row_add_add.
Qed.

Lemma team_ids_acc_elem fs acc i :
i ∈ foldl (fun acc f => acc ++ [fr_home_team_id f; fr_away_team_id f]) acc fs <->
i ∈ acc \/ exists f, f ∈ fs /\ (i = fr_home_team_id f \/ i = fr_away_team_id f).
Proof.
revert acc. induction fs as [|f fs IH]; intros acc; simpl; [set_solver|].
rewrite IH. set_solver.
Qed.

Lemma team_ids_elem fs i :
i ∈ team_ids fs <-> exists f, f ∈ fs /\ (i = fr_home_team_id f \/ i = fr_away_team_id f).
Proof. unfold team_ids. rewrite team_ids_acc_elem. set_solver. Qed.

(** The loop of [__create_standings_dict] over ids not yet in the dict. *)
Lemma create_loop_Ok d l acc sd :
NoDup l -> (forall i, i ∈ l -> pd_map acc !! i = None) ->
py_foldl (fun sd item =>
          let! t := py_of_option AttributeError (query_team d item) in
          Ok (pd_set item (new_row (team_name t)) sd)) acc l = Ok sd ->
pd_keys sd = pd_keys acc ++ l /\
forall i, (i ∈ l -> exists t, query_team d i = Some t /\
                  pd_map sd !! i = Some (new_row (team_name t))) /\
        (i ∉ l -> pd_map sd !! i = pd_map acc !! i).
Proof.
revert acc. induction l as [|x l IH]; intros acc Hnd Hfresh Hr.
- injection Hr as <-. rewrite app_nil_r. split; [done|]. set_solver.
- simpl in Hr. py_inv. apply NoDup_cons in Hnd as [Hx Hnd].
unfold pd_set in Hr. rewrite (Hfresh x) in Hr by set_solver.
apply IH in Hr as [Hk Hm]; [|done|].
2: { intros i Hi. simpl. rewrite lookup_insert_ne by set_solver. apply Hfresh. set_solver. }
split; [rewrite Hk; simpl; by rewrite <- app_assoc|].
intros i. destruct (Hm i) as [Hin Hout]. split.
+ intros Hi. apply elem_of_cons in Hi as [->|Hi]; [|auto].
  exists a0. rewrite Hout by done. simpl. by rewrite lookup_insert_eq.
+ intros Hi. rewrite Hout by set_solver. simpl. rewrite lookup_insert_ne by set_solver. done.
Qed.

(** [__create_standings_dict] makes one zeroed row per team id, named
after the team, with the ids in set order. *)
Lemma create_standings_dict_Ok d fs sd :
create_standings_dict d fs = Ok sd ->
pd_keys sd = set_iter (team_ids fs) /\
forall i, (i ∈ team_ids fs -> exists t, query_team d i = Some t /\
                           pd_map sd !! i = Some (new_row (team_name t))) /\
        (i ∉ team_ids fs -> pd_map sd !! i = None).
Proof.
intros Hc. apply create_loop_Ok in Hc as [Hk Hm];
[|apply set_iter_nodup | intros; apply lookup_empty].
split; [done|]. intros i. destruct (Hm i) as [Hin Hout].
rewrite !set_iter_elem in Hin, Hout. split; [done|].
intros Hi. rewrite Hout by done. apply lookup_empty.
Qed.

Lemma gen_standing_table_Ok d g t :
gen_standing_table d g = Ok t ->
exists sd m sd' grp lg,
create_standings_dict d (query_group_fixtures d g) = Ok sd /\
py_foldl populate_step (0, sd) (query_group_fixtures d g) = Ok (m, sd') /\
query_group d g = Some grp /\ query_league d (lgroup_league_id grp) = Some lg /\
t = mk_table (league_title lg) m (lgroup_title grp)
      (map to_result_dict (get_sorted_standings_as_list sd')).
Proof.
unfold gen_standing_table, populate. intros Ht. py_inv.
destruct a0 as [m sd']. py_inv. eauto 10.
Qed.

Lemma pd_values_elem (sd : pydict StandingsRow) x :
x ∈ pd_values sd <-> exists k, k ∈ pd_keys sd /\ pd_map sd !! k = Some x.
Proof. unfold pd_values. rewrite list_elem_of_omap. naive_solver. Qed.

(** After the loop, the row of each team of the group is its zeroed row
plus what the code credits it; each such row keeps the invariants. *)
Lemma table_values_ok d fs sd m sd' :
create_standings_dict d fs = Ok sd ->
py_foldl populate_step (0, sd) fs = Ok (m, sd') ->
Forall row_ok (pd_values sd').
Proof.
intros Hc Hp. apply Forall_forall. intros x Hx.
apply pd_values_elem in Hx as (k & _ & Hk).
apply create_standings_dict_Ok in Hc as [_ Hm].
eapply (populate_row_ok _ _ _ _ Hp); [|exact Hk].
intros i y Hy. destruct (Hm i) as [Hin Hout].
destruct (decide (i ∈ team_ids fs)) as [Hi|Hi].
- destruct (Hin Hi) as (t & _ & Ht). rewrite Ht in Hy. injection Hy as <-.
apply row_ok_new_row.
- by rewrite Hout in Hy.
Qed.
End Theory.

Lemma key_lt_irrefl k : key_lt k k = false.
Proof. destruct k; unfold key_lt; simpl. destruct (Z.ltb_spec z z), (Z.ltb_spec z0 z0); lia. Qed.

Lemma key_lt_trans a b c : key_lt a b = true -> key_lt b c = true -> key_lt a c = true.
Proof.
  destruct a, b, c; unfold key_lt; simpl.
  rewrite !orb_true_iff, !andb_true_iff, !Z.ltb_lt, !Z.eqb_eq. lia.
Qed.

Lemma key_lt_total a b : a <> b -> key_lt a b = true \/ key_lt b a = true.
Proof.
  destruct a as [p g], b as [p' g']; unfold key_lt; simpl. intros Hne.
  rewrite !orb_true_iff, !andb_true_iff, !Z.ltb_lt, !Z.eqb_eq.
  destruct (Z.lt_total p p') as [|[->|]]; [auto| |auto].
  destruct (Z.lt_total g g') as [|[->|]]; [auto|done|auto].
Qed.

(** [__lt__] compares the ranking keys lexicographically. *)
Lemma row_lt_key a b : row_lt a b = key_lt (row_key a) (row_key b).
Proof.
  unfold row_lt, key_lt, row_key; simpl.
  destruct (Z.ltb_spec (points a) (points b)), (Z.ltb_spec (points b) (points a)),
(Z.eqb_spec (points a) (points b)); simpl; try lia; done.
Qed.

Lemma assign_ranks_lookup k l j :
  assign_ranks k l !! j = set_rank (k + Z.of_nat j) <$> l !! j.
Proof.
  revert k j. induction l as [|r l IH]; intros k j; [done|].
  destruct j as [|j]; simpl; [by rewrite Z.add_0_r|].
  rewrite IH. do 2 f_equal. lia.
Qed.

Lemma assign_ranks_map {B} (g : StandingsRow -> B) k l :
  (forall i r, g (set_rank i r) = g r) -> map g (assign_ranks k l) = map g l.
Proof.
  intros Hg. revert k. induction l as [|r l IH]; intros k; simpl; [done|].
  by rewrite Hg, IH.
Qed.

Lemma forget_rank_set_rank i r :
  forget_rank (to_result_dict (set_rank i r)) = forget_rank (to_result_dict r).
Proof. by destruct r. Qed.

Lemma rr_key_set_rank i r : rr_key (to_result_dict (set_rank i r)) = row_key r.
Proof. by destruct r. Qed.

Lemma row_ok_set_rank i r : row_ok (set_rank i r) <-> row_ok r.
Proof. by destruct r. Qed.

Lemma result_row_ok_to_result_dict r : result_row_ok (to_result_dict r) <-> row_ok r.
Proof. by destruct r. Qed.

Lemma assign_ranks_Forall (P : StandingsRow -> Prop) k l :
  (forall i r, P (set_rank i r) <-> P r) -> Forall P l -> Forall P (assign_ranks k l).
Proof.
  intros HP Hl. revert k. induction Hl as [|r l Hr Hl IH]; intros k; simpl; constructor; auto.
  by apply HP.
Qed.

Lemma sorted_rows_perm l : py_sort_reverse row_lt l ≡ₚ l.
Proof. apply (py_sort_reverse_perm row_key key_lt row_lt row_lt_key). Qed.

Section Properties.
Context `{EntityLookup D} `{PySetOrder}.

(** C1: every row of a computed table satisfies the invariants of the
spec: goal difference is goals minus goals against, played games are
wins plus losses plus draws, and points are three per win plus one
per draw. *)
Theorem gen_standing_table_rows_ok d g t :
  gen_standing_table d g = Ok t -> Forall result_row_ok (tbl_standing t).
Proof.
  intros Ht. apply gen_standing_table_Ok in Ht as (sd & m & sd' & grp & lg & Hc & Hp & _ & _ & ->).
  simpl. apply Forall_map. unfold get_sorted_standings_as_list.
  apply assign_ranks_Forall.
  { intros i r. by rewrite result_row_ok_to_result_dict, row_ok_set_rank. }
  rewrite sorted_rows_perm. eapply Forall_impl; [eapply table_values_ok; eauto|].
  intros r. by rewrite result_row_ok_to_result_dict.
Qed.

(** C2: when no fixture of the group is an away win, the table holds,
up to the order of the rows and their ranks, exactly the rows the
spec defines: one per team of the group, its statistics summed over
the group's fixtures. *)
Theorem gen_standing_table_refines_spec d g t :
  gen_standing_table d g = Ok t ->
  no_away_win (query_group_fixtures d g) = true ->
  map forget_rank (tbl_standing t) ≡ₚ
map (fun r => forget_rank (to_result_dict r)) (spec_rows d (query_group_fixtures d g)).
Proof.
  intros Ht Hno. apply gen_standing_table_Ok in Ht as (sd & m & sd' & grp & lg & Hc & Hp & _ & _ & ->).
  simpl. unfold get_sorted_standings_as_list. rewrite map_map.
  rewrite (assign_ranks_map (fun r => forget_rank (to_result_dict r)))
by apply forget_rank_set_rank.
  rewrite sorted_rows_perm. f_equiv.
  pose proof (populate_keys _ _ _ _ Hp) as Hk. simpl in Hk.
  pose proof (populate_refines _ _ _ _ Hp) as Hr. simpl in Hr.
  apply create_standings_dict_Ok in Hc as [Hkeys Hm].
  unfold pd_values, spec_rows. rewrite Hk, Hkeys.
  apply reflexive_eq. apply list_omap_ext, Forall_Forall2_diag, Forall_forall. intros i Hi.
  rewrite set_iter_elem in Hi. destruct (Hm i) as [Hin _].
  destruct (Hin Hi) as (tm & Htm & Hsd). rewrite Hr, Hsd, Htm; [done|].
  intros f hs as_ Hf Hs. unfold no_away_win in Hno. rewrite forallb_forall in Hno.
  apply list_elem_of_In, Hno in Hf. rewrite Hs in Hf. lia.
Qed.

(** C3: the away-win branch of [__parse_result] is unreachable: its
guard [away_score < home_score] repeats the home-win test.  An away
win therefore credits each team one point and one draw, while the
spec credits the away team a win and three points. *)
Theorem away_win_counted_as_draw sd f sd' hs as_ :
  parse_result sd f = Ok sd' -> fixture_score f = Ok (hs, as_) -> hs < as_ ->
  fr_home_team_id f <> fr_away_team_id f ->
  spec_outcome as_ hs = Won /\ spec_outcome hs as_ = Lost /\
  pd_map sd' !! fr_away_team_id f =
(fun r => row_add r (side_stats as_ hs Drawn)) <$> pd_map sd !! fr_away_team_id f /\
  pd_map sd' !! fr_home_team_id f =
(fun r => row_add r (side_stats hs as_ Drawn)) <$> pd_map sd !! fr_home_team_id f.
Proof.
  intros Hp Hs Hlt Hne.
  apply parse_result_Ok in Hp as (hs' & as' & Hs' & _ & _ & ->).
  rewrite Hs in Hs'. injection Hs' as <- <-.
  unfold spec_outcome. rewrite !exec_stmts_lookup, !stmts_stats_parse_result.
  rewrite !Z.eqb_refl. apply Z.eqb_neq in Hne. rewrite Hne, (Z.eqb_sym (fr_away_team_id f)), Hne.
  destruct (Z.gtb_spec hs as_), (Z.ltb_spec hs as_), (Z.ltb_spec as_ hs),
(Z.eqb_spec hs as_); try lia.
  by rewrite stats_add_zero_l, stats_add_zero_r.
Qed.

(** C4: the rows of a computed table are in descending order of points,
then goal difference, and the row at position [j] has rank [j + 1]. *)
Theorem gen_standing_table_ranked d g t :
  gen_standing_table d g = Ok t ->
  Sorted (fun a b => key_lt a b = false) (map rr_key (tbl_standing t)) /\
  forall j r, tbl_standing t !! j = Some r -> rr_rank r = Z.of_nat j + 1.
Proof.
  intros Ht. apply gen_standing_table_Ok in Ht as (sd & m & sd' & grp & lg & _ & _ & _ & _ & ->).
  simpl. unfold get_sorted_standings_as_list. split.
  - rewrite map_map, (assign_ranks_map (fun r => rr_key (to_result_dict r)))
by apply rr_key_set_rank.
apply (Sorted_map (fun a b => key_lt a b = false) (fun r => rr_key (to_result_dict r))).
apply (py_sort_reverse_sorted row_key key_lt key_lt_irrefl key_lt_trans key_lt_total
       row_lt row_lt_key).
  - intros j r. rewrite list_lookup_fmap, assign_ranks_lookup.
destruct (py_sort_reverse row_lt (pd_values sd') !! j) as [x|]; simpl; [|done].
intros [= <-]. destruct x; simpl; lia.
Qed.

(** C5: a fixture of the group whose matchday is null, or whose score is
null or does not parse as two integers around a colon, aborts the
whole computation: no table is returned. *)
Theorem gen_standing_table_aborts d g f :
  f ∈ query_group_fixtures d g ->
  fr_matchday f = None \/ (exists e, fixture_score f = Raise e) ->
  forall t, gen_standing_table d g <> Ok t.
Proof.
  intros Hf Hbad t Ht.
  apply gen_standing_table_Ok in Ht as (sd & m & sd' & _ & _ & _ & Hp & _ & _ & _).
  destruct (populate_scores _ _ _ _ Hp f Hf) as [[md Hmd] (hs & as_ & Hs)].
  destruct Hbad as [Hn | [e He]]; congruence.
Qed.

(** C7: the matchday of a computed table is the largest matchday of the
group's fixtures, or 0 when the group has none. *)
Theorem gen_standing_table_matchday d g t :
  gen_standing_table d g = Ok t ->
  tbl_matchday t = foldl Z.max 0 (omap fr_matchday (query_group_fixtures d g)).
Proof.
  intros Ht. apply gen_standing_table_Ok in Ht as (sd & m & sd' & grp & lg & _ & Hp & _ & _ & ->).
  destruct (populate_matchday _ _ _ _ Hp) as [_ Hm]. exact Hm.
Qed.
End Properties.

(** C8: [__get_sorted_stangings_as_list] ranks the rows by points, then
    goal difference, both descending, and breaks the remaining ties by
    the dict order: every list of rows in that order whose rows of each
    (points, goal difference) pair are those of the dict, in the dict's
    order, is, once ranked 1, 2, ..., the list the method returns.  No
    other criterion, goals scored or a name, orders teams level on both. *)
Theorem get_sorted_is_desc_stable_sort sd l :
  Sorted (fun a b => points b < points a \/
                     (points b = points a /\ goal_difference b <= goal_difference a)) l ->
  (forall k, filter (fun r => row_key r = k) l = filter (fun r => row_key r = k) (pd_values sd)) ->
  get_sorted_standings_as_list sd = assign_ranks 1 l.
Proof.
  intros Hs Hk. unfold get_sorted_standings_as_list. f_equal.
  apply (py_sort_reverse_unique row_key key_lt key_lt_irrefl key_lt_trans key_lt_total row_lt row_lt_key).
  - eapply Sorted_weaken; [|exact Hs]. intros a b Hab. cbv beta in Hab. unfold key_lt, row_key. simpl.
    apply not_true_iff_false. rewrite orb_true_iff, andb_true_iff, Z.ltb_lt, Z.eqb_eq, Z.ltb_lt. lia.
  - intros k. unfold key_class. by rewrite Hk.
Qed.

(** C9: a score written as [str(h) + ':' + str(a)] is read back by
    [__parse_result] as the home score [h] and the away score [a].  The
    score grammar is not enforced, though: a text without a colon raises
    [IndexError] once its one piece reads as an integer ([ValueError]
    before that otherwise), and everything from a second colon on is
    ignored. *)
Theorem split_score_format h a :
  split_score (format_score h a) = Ok (h, a) /\
  (forall s, ":"%char ∉ list_ascii_of_string s ->
     split_score s = (let! _ := py_int s in Raise IndexError)) /\
  (forall p q rest, ":"%char ∉ list_ascii_of_string p -> ":"%char ∉ list_ascii_of_string q ->
     split_score (String.append p (String ":" (String.append q (String ":" rest)))) =
     split_score (String.append p (String ":" q))).
Proof.
  split; [|split].
  - unfold split_score, format_score.
    change (String.append (py_str h) (String ":" (py_str a))) with (py_join ":" [py_str h; py_str a]).
    rewrite split_join; [| done | repeat constructor; apply py_str_no_colon].
    simpl. by rewrite !py_int_str.
  - intros s Hs. unfold split_score. rewrite py_split_no_sep by done. simpl.
    by destruct (py_int s).
  - intros p q rest Hp Hq. unfold split_score.
    rewrite !py_split_app_sep, (py_split_no_sep _ q) by done. reflexivity.
Qed.

(** ** Witnesses *)

Lemma gen_standing_table_rows_ok_witness :
  gen_standing_table spec_scenario_db 1 = Ok spec_scenario_expected /\
  Forall result_row_ok (tbl_standing spec_scenario_expected).
Proof.
  split; [vm_compute; reflexivity|].
  apply (gen_standing_table_rows_ok spec_scenario_db 1). vm_compute. reflexivity.
Defined.

Lemma gen_standing_table_refines_spec_witness :
  no_away_win (query_group_fixtures spec_scenario_db 1) = true /\
  map forget_rank (tbl_standing spec_scenario_expected) ≡ₚ
    map (fun r => forget_rank (to_result_dict r))
(spec_rows spec_scenario_db (query_group_fixtures spec_scenario_db 1)).
Proof.
  split; [vm_compute; reflexivity|].
  apply (gen_standing_table_refines_spec spec_scenario_db 1); vm_compute; reflexivity.
Defined.

Lemma away_win_counted_as_draw_witness :
  parse_result zeroed_dict away_win_fixture = Ok away_win_dict_after /\
  spec_outcome 1 0 = Won /\ spec_outcome 0 1 = Lost /\
  pd_map away_win_dict_after !! 2 =
    (fun r => row_add r (side_stats 1 0 Drawn)) <$> pd_map zeroed_dict !! 2 /\
  pd_map away_win_dict_after !! 1 =
    (fun r => row_add r (side_stats 0 1 Drawn)) <$> pd_map zeroed_dict !! 1.
Proof.
  split; [vm_compute; reflexivity|].
  apply (away_win_counted_as_draw zeroed_dict away_win_fixture away_win_dict_after 0 1);
    [vm_compute; reflexivity | vm_compute; reflexivity | lia | discriminate].
Defined.

Lemma gen_standing_table_ranked_witness :
  gen_standing_table spec_scenario_db 1 = Ok spec_scenario_expected /\
  Sorted (fun a b => key_lt a b = false) (map rr_key (tbl_standing spec_scenario_expected)) /\
  forall j r, tbl_standing spec_scenario_expected !! j = Some r -> rr_rank r = Z.of_nat j + 1.
Proof.
  split; [vm_compute; reflexivity|].
  apply (gen_standing_table_ranked spec_scenario_db 1). vm_compute. reflexivity.
Defined.

(** A score written with a dash, ["3-1"], aborts the table. *)
Lemma gen_standing_table_aborts_witness :
  fixture_score (mk_fixture 1 (Some 1) scenario_kickoff (Some "3-1") 1 1 2) = Raise ValueError /\
  forall t, gen_standing_table (scenario_db [(1, 2, Some "3-1")]) 1 <> Ok t.
Proof.
  split; [vm_compute; reflexivity|].
  apply (gen_standing_table_aborts (scenario_db [(1, 2, Some "3-1")]) 1
     (mk_fixture 1 (Some 1) scenario_kickoff (Some "3-1") 1 1 2)).
  - vm_compute. constructor.
  - right. exists ValueError. vm_compute. reflexivity.
Defined.

Lemma gen_standing_table_matchday_witness :
  gen_standing_table spec_scenario_db 1 = Ok spec_scenario_expected /\
  tbl_matchday spec_scenario_expected =
    foldl Z.max 0 (omap fr_matchday (query_group_fixtures spec_scenario_db 1)).
Proof.
  split; [vm_compute; reflexivity|].
  apply (gen_standing_table_matchday spec_scenario_db 1). vm_compute. reflexivity.
Defined.

(** Three rows in dict order: [X] with 1 point, [Y] with 3, [Z] level
    with [X]. *)
Definition row_X : StandingsRow := mk_row (-1) (Some "X") 1 1 1 1 0 0 0 1 1.
Definition row_Y : StandingsRow := mk_row (-1) (Some "Y") 1 3 2 1 1 1 0 0 1.
Definition row_Z : StandingsRow := mk_row (-1) (Some "Z") 1 1 0 0 0 0 0 1 1.
Definition three_rows : pydict StandingsRow :=
  pd_set 3 row_Z (pd_set 2 row_Y (pd_set 1 row_X pd_empty)).

Lemma get_sorted_is_desc_stable_sort_witness :
  Sorted (fun a b => points b < points a \/
                     (points b = points a /\ goal_difference b <= goal_difference a)) [row_Y; row_X; row_Z] /\
  (forall k, filter (fun r => row_key r = k) [row_Y; row_X; row_Z] =
             filter (fun r => row_key r = k) (pd_values three_rows)) /\
  get_sorted_standings_as_list three_rows = assign_ranks 1 [row_Y; row_X; row_Z].
Proof.
  assert (Hs : Sorted (fun a b => points b < points a \/
                     (points b = points a /\ goal_difference b <= goal_difference a)) [row_Y; row_X; row_Z])
    by (repeat constructor; simpl; lia).
  assert (Hk : forall k, filter (fun r => row_key r = k) [row_Y; row_X; row_Z] =
                         filter (fun r => row_key r = k) (pd_values three_rows)).
  { intros k. change (pd_values three_rows) with [row_X; row_Y; row_Z].
    rewrite !filter_cons, filter_nil.
    destruct (decide (row_key row_X = k)), (decide (row_key row_Y = k)), (decide (row_key row_Z = k));
      try done; exfalso; subst k; vm_compute in *; congruence. }
  split; [exact Hs|]. split; [exact Hk|]. exact (get_sorted_is_desc_stable_sort three_rows _ Hs Hk).
Defined.

Lemma split_score_format_witness :
  split_score (format_score 3 1) = Ok (3, 1) /\
  split_score "3" = Raise IndexError /\ split_score "3:1:junk" = split_score "3:1".
Proof.
  assert (H3 : ":"%char ∉ list_ascii_of_string "3") by (simpl; set_solver).
  assert (H1 : ":"%char ∉ list_ascii_of_string "1") by (simpl; set_solver).
  pose proof (split_score_format 3 1) as (Hf & Hn & Hr).
  split; [exact Hf|]. split; [by rewrite (Hn "3" H3)|].
  exact (Hr "3" "1" "junk" H3 H1).
Defined.

End Standings.
