(* ===== verification/Store.v ===== *)
(** * Store: the entity catalog of utils.py

    [get_add_league], [get_add_group] and [get_add_team] look a row up by
    its natural key with [Model.query.filter_by(...).first()].  When there
    is none, they insert a new row, commit, and return it with the id the
    table's sequence gave it.  [get_league] and [get_group] only look up.
    The three upserts are one generic operation, [upsert], over a table of
    rows with a key and an id.  Its lemmas are proved once, in the section
    [Upsert].

    The [except: return None] paths of these methods are reached only when
    the database fails; database failures are not modelled, so the methods
    always return a row.  A missing title ([d.get(k)] is [None]) is the key
    [None], matched by SQL [IS NULL], as SQLAlchemy renders [filter_by] with
    [None]. *)

From S2P Require Import Prelude Timestamp Entities.
Import Entities.

Module Store.

(** [filter_by(<key> = k).first()] over rows in scan order. *)
Definition first_by {R K} `{EqDecision K} (key : R -> K) (k : K) (rows : list R) : option R :=
  List.find (fun r => bool_decide (key r = k)) rows.

(** Look the key up; when it is absent, insert [mk next] and advance the
    sequence.  Returns the row and the new table with its sequence. *)
Definition upsert {R K} `{EqDecision K} (key : R -> K) (mk : Z -> R) (k : K)
    (rows : list R) (next : Z) : R * (list R * Z) :=
  match first_by key k rows with
  | Some r => (r, (rows, next))
  | None => let r := mk next in (r, (rows ++ [r], next + 1))
  end.

(** [get_add_league(league_name)]. *)
Definition get_add_league (league_name : option string) (d : db) : League * db :=
  let '(l, (rows, next)) :=
    upsert league_title (fun i => mk_league i league_name) league_name
      (db_leagues d) (db_next_league d) in
  (l, mk_db rows (db_groups d) (db_teams d) (db_fixtures d)
        next (db_next_group d) (db_next_team d) (db_next_fixture d)).

(** [get_league(league_name)]. *)
Definition get_league (league_name : option string) (d : db) : option League :=
  first_by league_title league_name (db_leagues d).

Definition group_key (g : LeagueGroup) : option string * Z :=
  (lgroup_title g, lgroup_league_id g).

(** [get_add_group(group_name, league_id)]. *)
Definition get_add_group (group_name : option string) (league_id : Z) (d : db)
    : LeagueGroup * db :=
  let '(g, (rows, next)) :=
    upsert group_key (fun i => mk_group i group_name league_id) (group_name, league_id)
      (db_groups d) (db_next_group d) in
  (g, mk_db (db_leagues d) rows (db_teams d) (db_fixtures d)
        (db_next_league d) next (db_next_team d) (db_next_fixture d)).

(** [get_group(group_name, league_id)]. *)
Definition get_group (group_name : option string) (league_id : Z) (d : db)
    : option LeagueGroup :=
  first_by group_key (group_name, league_id) (db_groups d).

(** [get_add_team(team_name)]. *)
Definition get_add_team (team_name : option string) (d : db) : FootballTeam * db :=
  let '(t, (rows, next)) :=
    upsert Entities.team_name (fun i => mk_team i team_name) team_name
      (db_teams d) (db_next_team d) in
  (t, mk_db (db_leagues d) (db_groups d) rows (db_fixtures d)
        (db_next_league d) (db_next_group d) next (db_next_fixture d)).

(** A table is well formed when its keys are distinct and its ids are
    distinct, positive and below the next value of its sequence. *)
Definition table_wf {R K} (key : R -> K) (rid : R -> Z) (rows : list R) (next : Z) : Prop :=
  NoDup (map key rows) /\ NoDup (map rid rows) /\
  Forall (fun r => 1 <= rid r < next) rows /\ 1 <= next.

(** The catalog invariant: the natural keys are unique, as the spec
    requires, and the ids follow the sequences. *)
Definition db_wf (d : db) : Prop :=
  table_wf league_title league_id (db_leagues d) (db_next_league d) /\
  table_wf group_key lgroup_id (db_groups d) (db_next_group d) /\
  table_wf Entities.team_name team_id (db_teams d) (db_next_team d).

(** ** Lemmas on one table *)

Lemma find_app {A} (f : A -> bool) l1 l2 :
  List.find f (l1 ++ l2) = match List.find f l1 with Some x => Some x | None => List.find f l2 end.
Proof. induction l1 as [|x l1 IH]; simpl; [done|]. by destruct (f x). Qed.

Lemma filter_key_unique {R K} `{EqDecision K} (key : R -> K) k l :
  NoDup (map key l) -> k ∈ map key l -> length (filter (fun r => key r = k) l) = 1%nat.
Proof.
  induction l as [|r l IH]; simpl; intros Hnd Hk; [set_solver|].
  apply NoDup_cons in Hnd as [Hr Hnd]. rewrite filter_cons.
  destruct (decide (key r = k)) as [<-|Hne]; simpl.
  - enough (filter (fun r0 => key r0 = key r) l = []) as -> by done.
    clear -Hr. induction l as [|y l IH]; simpl; [done|].
    rewrite filter_cons. simpl in Hr. destruct (decide (key y = key r)); set_solver.
  - apply IH; [done|]. set_solver.
Qed.

(** Appending a row with a fresh key and the next id keeps a table well
    formed. *)
Lemma table_wf_snoc {R K} (key : R -> K) (rid : R -> Z) rows next r :
  table_wf key rid rows next -> key r ∉ map key rows -> rid r = next ->
  table_wf key rid (rows ++ [r]) (next + 1).
Proof.
  intros (Hk & Hi & Hb & Hn) Hr Hid. unfold table_wf. rewrite !map_app. simpl.
  repeat split.
  - apply NoDup_app. repeat split; [done| |by apply NoDup_singleton].
    intros x Hx Hx'. apply list_elem_of_singleton in Hx'. set_solver.
  - apply NoDup_app. repeat split; [done| |by apply NoDup_singleton].
    intros x Hx Hx'. apply list_elem_of_singleton in Hx'. subst x.
    apply list_elem_of_fmap in Hx as (y & Ey & Hy). rewrite Forall_forall in Hb.
    specialize (Hb y Hy). lia.
  - apply Forall_app. split; [eapply Forall_impl; [exact Hb|]; simpl; intros; lia|].
    constructor; [lia|done].
  - lia.
Qed.

(** A fresh id: every id of a well-formed table is below the sequence. *)
Lemma table_wf_next_fresh {R K} (key : R -> K) (rid : R -> Z) rows next :
  table_wf key rid rows next -> next ∉ map rid rows.
Proof.
  intros (_ & _ & Hb & _) Hin. apply list_elem_of_fmap in Hin as (y & Ey & Hy).
  rewrite Forall_forall in Hb. specialize (Hb y Hy). lia.
Qed.

Section Upsert.
Context {R K : Type} `{EqDecision K} (key : R -> K) (rid : R -> Z) (mk : Z -> R) (k : K).
Hypothesis mk_key : forall i, key (mk i) = k.
Hypothesis mk_id : forall i, rid (mk i) = i.

Lemma first_by_Some rows r : first_by key k rows = Some r -> r ∈ rows /\ key r = k.
Proof.
  unfold first_by. intros H. apply find_some in H as [Hin Hk].
  split; [by apply list_elem_of_In | by apply bool_decide_eq_true in Hk].
Qed.

Lemma first_by_None rows : first_by key k rows = None -> k ∉ map key rows.
Proof.
  unfold first_by. intros H Hk. apply list_elem_of_fmap in Hk as (r & -> & Hr).
  apply list_elem_of_In in Hr. apply (find_none _ _ H) in Hr.
  by apply bool_decide_eq_false in Hr.
Qed.

Lemma upsert_key rows next : key (upsert key mk k rows next).1 = k.
Proof.
  unfold upsert. destruct (first_by key k rows) eqn:E; simpl; [|done].
  by apply first_by_Some in E as [_ ->].
Qed.

(** An upsert only appends, and afterwards the key finds the row it
    returned. *)
Lemma upsert_spec rows next r rows' next' :
  upsert key mk k rows next = (r, (rows', next')) ->
  first_by key k rows' = Some r /\ (rows `prefix_of` rows').
Proof.
  unfold upsert. destruct (first_by key k rows) eqn:E; intros [= <- <- <-].
  - split; [done | by exists []; rewrite app_nil_r].
  - split; [|by eexists]. unfold first_by in *. rewrite find_app, E. simpl.
    by rewrite bool_decide_eq_true_2 by done.
Qed.

(** A second upsert with the same key finds the row the first returned
    and changes nothing. *)
Lemma upsert_idem rows next r rows' next' :
  upsert key mk k rows next = (r, (rows', next')) ->
  upsert key mk k rows' next' = (r, (rows', next')).
Proof.
  intros Hu. apply upsert_spec in Hu as [Hf _]. unfold upsert. by rewrite Hf.
Qed.

Lemma upsert_wf rows next r rows' next' :
  table_wf key rid rows next -> upsert key mk k rows next = (r, (rows', next')) ->
  table_wf key rid rows' next' /\ r ∈ rows' /\ key r = k.
Proof.
  intros Hwf. unfold upsert.
  destruct (first_by key k rows) eqn:E; intros [= <- <- <-].
  - apply first_by_Some in E as [Hin Hrk]. done.
  - apply first_by_None in E. split; [|split; [set_solver | done]].
    apply table_wf_snoc; [done | by rewrite mk_key | by rewrite mk_id].
Qed.

(** After an upsert in a well-formed table, one row has the key. *)
Lemma upsert_one_row rows next r rows' next' :
  table_wf key rid rows next -> upsert key mk k rows next = (r, (rows', next')) ->
  length (filter (fun x => key x = k) rows') = 1%nat.
Proof.
  intros Hwf Hu. destruct (upsert_wf rows next r rows' next' Hwf Hu) as ((Hk & _) & Hr & Hrk).
  apply filter_key_unique; [done|]. rewrite <- Hrk. by apply list_elem_of_fmap_2.
Qed.

Lemma upsert_first_by_other rows next k' :
  k' <> k -> first_by key k' (upsert key mk k rows next).2.1 = first_by key k' rows.
Proof.
  intros Hne. unfold upsert. destruct (first_by key k rows); simpl; [done|].
  unfold first_by. rewrite find_app. destruct (List.find _ rows); [done|].
  simpl. rewrite bool_decide_eq_false_2; [done|]. by rewrite mk_key.
Qed.
End Upsert.

Ltac upsert_case E :=
  match goal with
  | |- context [upsert ?key ?mk ?k ?rows ?next] =>
      destruct (upsert key mk k rows next) as [?r [?rows' ?next']] eqn:E
  end.

(** A row found by key stays the first one found when rows are appended. *)
Lemma first_by_prefix {R K} `{EqDecision K} (key : R -> K) k rows rows' r :
  rows `prefix_of` rows' -> first_by key k rows = Some r -> first_by key k rows' = Some r.
Proof. intros [extra ->] Hf. unfold first_by in *. by rewrite find_app, Hf. Qed.

(** The catalog tables only grow, by appending rows. *)
Definition db_extends (d d' : db) : Prop :=
  (db_leagues d `prefix_of` db_leagues d') /\ (db_groups d `prefix_of` db_groups d') /\
  (db_teams d `prefix_of` db_teams d') /\ (db_fixtures d `prefix_of` db_fixtures d').

(** The catalog operations leave the fixtures and their sequence alone. *)
Definition fixtures_frame (d d' : db) : Prop :=
  db_fixtures d' = db_fixtures d /\ db_next_fixture d' = db_next_fixture d.

#[export] Instance db_extends_preorder : PreOrder db_extends.
Proof.
  split.
  - intros d. unfold db_extends. repeat split; reflexivity.
  - intros d1 d2 d3 (? & ? & ? & ?) (? & ? & ? & ?). repeat split; by etrans.
Qed.

Lemma get_league_extends n d d' l :
  db_extends d d' -> get_league n d = Some l -> get_league n d' = Some l.
Proof. intros (H & _). by apply first_by_prefix. Qed.

Lemma get_group_extends n lid d d' g :
  db_extends d d' -> get_group n lid d = Some g -> get_group n lid d' = Some g.
Proof. intros (_ & H & _). by apply first_by_prefix. Qed.

Section Catalog.
Context (n : option string) (lid : Z) (d : db).

(** What [get_add_league] returns: a league with the title, found by
    [get_league] afterwards, in a database that extends the old one. *)
Lemma get_add_league_spec l d' :
  get_add_league n d = (l, d') ->
  league_title l = n /\ get_league n d' = Some l /\ db_extends d d' /\
  fixtures_frame d d' /\ (db_wf d -> db_wf d').
Proof.
  unfold get_add_league. upsert_case E. intros [= <- <-].
  pose proof (upsert_key league_title (fun i => mk_league i n) n
      (fun _ => eq_refl) (db_leagues d) (db_next_league d)) as Hk. rewrite E in Hk.
  apply upsert_spec in E as Hs; [|done]. destruct Hs as [Hf Hp].
  do 2 (split; [done|]). split; [by repeat split; try reflexivity|]. split; [done|].
  intros (Hl & Hg & Ht). split; [|done].
  by apply (upsert_wf league_title league_id (fun i => mk_league i n) n
              (fun _ => eq_refl) (fun _ => eq_refl) _ _ _ _ _ Hl E).
Qed.

(** What [get_add_group] returns, likewise. *)
Lemma get_add_group_spec g d' :
  get_add_group n lid d = (g, d') ->
  lgroup_title g = n /\ lgroup_league_id g = lid /\ get_group n lid d' = Some g /\
  db_extends d d' /\ fixtures_frame d d' /\ (db_wf d -> db_wf d').
Proof.
  unfold get_add_group. upsert_case E. intros [= <- <-].
  pose proof (upsert_key group_key (fun i => mk_group i n lid) (n, lid)
      (fun _ => eq_refl) (db_groups d) (db_next_group d)) as Hk. rewrite E in Hk.
  injection Hk as Hn Hlid.
  apply upsert_spec in E as Hs; [|done]. destruct Hs as [Hf Hp].
  do 3 (split; [done|]). split; [by repeat split; try reflexivity|]. split; [done|].
  intros (Hl & Hg & Ht). split; [done|]. split; [|done].
  by apply (upsert_wf group_key lgroup_id (fun i => mk_group i n lid) (n, lid)
              (fun _ => eq_refl) (fun _ => eq_refl) _ _ _ _ _ Hg E).
Qed.

(** What [get_add_team] returns, likewise. *)
Lemma get_add_team_spec t d' :
  get_add_team n d = (t, d') ->
  team_name t = n /\ first_by Entities.team_name n (db_teams d') = Some t /\
  db_extends d d' /\ fixtures_frame d d' /\ (db_wf d -> db_wf d').
Proof.
  unfold get_add_team. upsert_case E. intros [= <- <-].
  pose proof (upsert_key Entities.team_name (fun i => mk_team i n) n
      (fun _ => eq_refl) (db_teams d) (db_next_team d)) as Hk. rewrite E in Hk.
  apply upsert_spec in E as Hs; [|done]. destruct Hs as [Hf Hp].
  do 2 (split; [done|]). split; [by repeat split; try reflexivity|]. split; [done|].
  intros (Hl & Hg & Ht). do 2 (split; [done|]).
  by apply (upsert_wf Entities.team_name team_id (fun i => mk_team i n) n
              (fun _ => eq_refl) (fun _ => eq_refl) _ _ _ _ _ Ht E).
Qed.

(** C13: resolve-or-create is idempotent by natural key: the entity
    [get_add_league], [get_add_group] or [get_add_team] returns carries the
    key it was asked for, and a second call with the same key returns the
    same entity and leaves the database as the first call left it. *)
Theorem catalog_idempotent :
  (let '(l, d1) := get_add_league n d in
   league_title l = n /\ get_add_league n d1 = (l, d1)) /\
  (let '(g, d1) := get_add_group n lid d in
   lgroup_title g = n /\ lgroup_league_id g = lid /\ get_add_group n lid d1 = (g, d1)) /\
  (let '(t, d1) := get_add_team n d in
   team_name t = n /\ get_add_team n d1 = (t, d1)).
Proof.
  unfold get_add_league, get_add_group, get_add_team. repeat split.
  - upsert_case E. simpl. pose proof (upsert_key league_title (fun i => mk_league i n) n
      (fun _ => eq_refl) (db_leagues d) (db_next_league d)) as Hk.
    rewrite E in Hk. split; [done|].
    by rewrite (upsert_idem league_title (fun i => mk_league i n) n (fun _ => eq_refl) _ _ _ _ _ E).
  - upsert_case E. simpl. pose proof (upsert_key group_key (fun i => mk_group i n lid) (n, lid)
      (fun _ => eq_refl) (db_groups d) (db_next_group d)) as Hk.
    rewrite E in Hk. injection Hk as -> ->. do 2 (split; [done|]).
    by rewrite (upsert_idem group_key (fun i => mk_group i n lid) (n, lid) (fun _ => eq_refl)
                  _ _ _ _ _ E).
  - upsert_case E. simpl. pose proof (upsert_key Entities.team_name (fun i => mk_team i n) n
      (fun _ => eq_refl) (db_teams d) (db_next_team d)) as Hk.
    rewrite E in Hk. split; [done|].
    by rewrite (upsert_idem Entities.team_name (fun i => mk_team i n) n (fun _ => eq_refl)
                  _ _ _ _ _ E).
Qed.

(** After resolving a team name in a well-formed catalog there is
    exactly one team of that name, and the same for a league title and for
    a group title within its league. *)
Lemma catalog_one_row_per_key :
  db_wf d ->
  length (filter (fun l => league_title l = n) (db_leagues (get_add_league n d).2)) = 1%nat /\
  length (filter (fun g => group_key g = (n, lid)) (db_groups (get_add_group n lid d).2)) = 1%nat /\
  length (filter (fun t => Entities.team_name t = n) (db_teams (get_add_team n d).2)) = 1%nat.
Proof.
  intros (Hl & Hg & Ht). split; [|split].
  - unfold get_add_league. upsert_case E. simpl.
    exact (upsert_one_row league_title league_id (fun i => mk_league i n) n
             (fun _ => eq_refl) (fun _ => eq_refl) _ _ _ _ _ Hl E).
  - unfold get_add_group. upsert_case E. simpl.
    exact (upsert_one_row group_key lgroup_id (fun i => mk_group i n lid) (n, lid)
             (fun _ => eq_refl) (fun _ => eq_refl) _ _ _ _ _ Hg E).
  - unfold get_add_team. upsert_case E. simpl.
    exact (upsert_one_row Entities.team_name team_id (fun i => mk_team i n) n
             (fun _ => eq_refl) (fun _ => eq_refl) _ _ _ _ _ Ht E).
Qed.

(** C14: the three upserts keep the catalog invariant: natural keys stay
    unique and ids stay distinct and below their sequences; and after
    resolving a league title, a group title within its league or a team
    name there is exactly one row with that key. *)
Theorem catalog_preserves_db_wf :
  db_wf d ->
  (db_wf (get_add_league n d).2 /\ db_wf (get_add_group n lid d).2 /\
   db_wf (get_add_team n d).2) /\
  length (filter (fun l => league_title l = n) (db_leagues (get_add_league n d).2)) = 1%nat /\
  length (filter (fun g => group_key g = (n, lid)) (db_groups (get_add_group n lid d).2)) = 1%nat /\
  length (filter (fun t => Entities.team_name t = n) (db_teams (get_add_team n d).2)) = 1%nat.
Proof.
  intros Hwf. split; [|exact (catalog_one_row_per_key Hwf)]. split; [|split].
  - destruct (get_add_league n d) eqn:E. apply get_add_league_spec in E. naive_solver.
  - destruct (get_add_group n lid d) eqn:E. apply get_add_group_spec in E. naive_solver.
  - destruct (get_add_team n d) eqn:E. apply get_add_team_spec in E. naive_solver.
Qed.

End Catalog.

Lemma db_wf_empty : db_wf empty_db.
Proof. unfold db_wf, table_wf. simpl. repeat split; try constructor; lia. Qed.

(** ** Witnesses *)

Lemma catalog_preserves_db_wf_witness :
  db_wf empty_db /\
  db_wf (get_add_league (Some "A") empty_db).2 /\
  length (filter (fun t => Entities.team_name t = Some "A"%string)
            (db_teams (get_add_team (Some "A") empty_db).2)) = 1%nat.
Proof.
  split; [exact db_wf_empty|].
  destruct (catalog_preserves_db_wf (Some "A") 1 empty_db db_wf_empty) as ((W & _) & _ & _ & T).
  split; [exact W|exact T].
Defined.

End Store.
