(* ===== verification/Workflows.v ===== *)
(** * Workflows: publishing, updating and reading results (utils.py)

    - [add_fixture_result] resolves the two teams, the league and the group
      (committing each new row at once), reads [matchday], [kickoffAt] and
      [score], parses the kickoff time in the [FixtureResult] constructor
      and inserts the fixture.  Any exception in these steps is caught and
      the method returns [None]; the rows committed before it stay.
    - [handle_fixture_results] runs, for each submitted result,
      [get_add_league] and [get_add_group], records the group id in a set
      and calls [add_fixture_result].  It then computes the table of every
      group of the set.  Its final [if len(standing) == 1] reads the last
      table instead of the list.
    - [update_fixture_result] overwrites the score of a stored fixture;
      [update_fixture_results] does so for each item of a batch.
    - [get_tabels_for_groups] computes the tables of the requested groups,
      or of all groups.

    The database is threaded through each operation.  An operation that
    may raise returns [pyres] beside the database, because the rows
    committed before the exception stay in the database.  [grows] (the
    tables only get longer, and the invariant is kept) and [adds_at_most]
    (how many rows each table gains) bound what every operation does to
    the database. *)

From Stdlib Require Import Ascii String.
From S2P Require Import Prelude PyStr PySort Timestamp Entities Standings Store.
Import Timestamp Entities Standings Store.

Create HintDb workflows discriminated.

Module Workflows.

(** A JSON argument that may be one object or a list of objects:
    [if not isinstance(data, list): data = [data]]. *)
Inductive json_arg (A : Type) :=
| JOne (a : A)
| JList (l : list A).
Arguments JOne {A} a.
Arguments JList {A} l.

Definition as_list {A} (x : json_arg A) : list A :=
  match x with JOne a => [a] | JList l => l end.

(** A submitted result: the JSON keys the code reads. *)
Record submission := mk_submission {
  sub_homeTeam : field string;
  sub_awayTeam : field string;
  sub_leagueTitle : field string;
  sub_group : field string;
  sub_matchday : field Z;
  sub_kickoffAt : field string;
  sub_score : field string
}.

(** [FixtureResult(...)]: [kickoff_at] goes through [strptime], which
    raises [TypeError] on [None]. *)
Definition parse_kickoff (k : option string) : pyres datetime :=
  match k with
  | Some s => strptime s
  | None => Raise TypeError
  end.

(** [DB.session.add(fixture_result); DB.session.commit()]: the new row
    gets the next id of the sequence. *)
Definition insert_fixture (md : option Z) (ko : datetime) (sc : option string)
    (group_id home_id away_id : Z) (d : db) : FixtureResult * db :=
  let f := mk_fixture (db_next_fixture d) md ko sc group_id home_id away_id in
  (f, mk_db (db_leagues d) (db_groups d) (db_teams d) (db_fixtures d ++ [f])
        (db_next_league d) (db_next_group d) (db_next_team d) (db_next_fixture d + 1)).

(** [add_fixture_result(data_dict)]. *)
Definition add_fixture_result (data : submission) (d : db) : option FixtureResult * db :=
  let '(home, d) := get_add_team (field_get (sub_homeTeam data)) d in
  let '(away, d) := get_add_team (field_get (sub_awayTeam data)) d in
  let '(league, d) := get_add_league (field_get (sub_leagueTitle data)) d in
  let '(group, d) := get_add_group (field_get (sub_group data)) (league_id league) d in
  let fields :=
    let! matchday := field_index (sub_matchday data) in
    let! kickoff_at := field_index (sub_kickoffAt data) in
    let! score := field_index (sub_score data) in
    let! ko := parse_kickoff kickoff_at in
    Ok (matchday, ko, score) in
  match fields with
  | Ok (md, ko, sc) =>
      let '(f, d) := insert_fixture md ko sc (lgroup_id group) (team_id home) (team_id away) d in
      (Some f, d)
  | Raise _ => (None, d)
  end.

(** What the publish and table endpoints return: one table, or a list. *)
Inductive tables_out :=
| OneTable (t : StandingsTable)
| TableList (ts : list StandingsTable).

(** The table dict [{'leagueTitle', 'matchday', 'group', 'standing'}] has
    four keys: [len(standing)] for a table. *)
Definition table_dict_len (t : StandingsTable) : nat := 4.

Section Publish.
Context `{PySetOrder}.

(** The tables of a list of group ids, in order; the first exception
    stops the loop. *)
Definition gen_tables (d : db) (gids : list Z) : pyres (list StandingsTable) :=
  py_foldl (fun acc g => let! t := gen_standing_table d g in Ok (acc ++ [t])) [] gids.

(** The loop of [handle_fixture_results] over the submissions: the group
    ids in the order they were added to [unique_group_ids], and the
    database. *)
Definition ingest_step (acc : list Z * db) (fixture : submission) : list Z * db :=
  let '(gids, d) := acc in
  let '(league, d) := get_add_league (field_get (sub_leagueTitle fixture)) d in
  let '(group, d) := get_add_group (field_get (sub_group fixture)) (league_id league) d in
  let '(_, d) := add_fixture_result fixture d in
  (gids ++ [lgroup_id group], d).

Definition ingest_loop (data : list submission) (d : db) : list Z * db :=
  foldl ingest_step ([], d) data.

(** [handle_fixture_results(data)]. *)
Definition handle_fixture_results (data : json_arg submission) (d : db)
    : pyres tables_out * db :=
  let '(gids, d) := ingest_loop (as_list data) d in
  let unique_group_ids := set_iter gids in
  (let! standings := gen_tables d unique_group_ids in
   match last standings with
   | None => Raise UnboundLocalError
   | Some standing =>
       if Nat.eqb (table_dict_len standing) 1 then
         let! t := py_index standings 0 in Ok (OneTable t)
       else Ok (TableList standings)
   end, d).

(** A requested group: [{'leagueName': ..., 'group': ...}]. *)
Record target_group := mk_target { tg_leagueName : field string; tg_group : field string }.

(** [get_tabels_for_groups(target_groups)]: the requested groups that
    exist, or every group; one table is returned bare. *)
Definition get_tabels_for_groups (target_groups : option (list target_group)) (d : db)
    : pyres tables_out :=
  let! groups :=
    match target_groups with
    | None => Ok (db_groups d)
    | Some ts =>
        py_foldl (fun groups target =>
                    let! league_name := field_index (tg_leagueName target) in
                    let! group_name := field_index (tg_group target) in
                    match Store.get_league league_name d with
                    | None => Ok groups
                    | Some league =>
                        match Store.get_group group_name (league_id league) d with
                        | None => Ok groups
                        | Some group => Ok (groups ++ [group])
                        end
                    end) [] ts
    end in
  let! tabels := gen_tables d (map lgroup_id groups) in
  match tabels with
  | [t] => Ok (OneTable t)
  | _ => Ok (TableList tabels)
  end.
End Publish.

(** An update request: [{'id': ..., 'score': ...}]. *)
Record update_req := mk_update { upd_id : field Z; upd_score : field string }.

(** [fixture.score = new_score]. *)
Definition with_score (sc : option string) (f : FixtureResult) : FixtureResult :=
  mk_fixture (fr_id f) (fr_matchday f) (fr_kickoff_at f) sc
    (fr_group_id f) (fr_home_team_id f) (fr_away_team_id f).

(** The commit of the new score: the stored row with id [i] changes. *)
Definition set_score (i : Z) (sc : option string) (d : db) : db :=
  mk_db (db_leagues d) (db_groups d) (db_teams d)
    (map (fun f => if bool_decide (fr_id f = i) then with_score sc f else f) (db_fixtures d))
    (db_next_league d) (db_next_group d) (db_next_team d) (db_next_fixture d).

(** [update_fixture_result(result_id, data_dict)]: the status and message
    it returns, and the database. *)
Definition update_fixture_result (result_id : option Z) (data : update_req) (d : db)
    : (bool * string) * db :=
  match result_id with
  | None => ((false, "Fixture not found."), d)
  | Some i =>
      match db_get_fixture d i with
      | None => ((false, "Fixture not found."), d)
      | Some _ =>
          match field_index (upd_score data) with
          | Raise _ => ((false, "Exception occured."), d)
          | Ok sc => ((true, "Success"), set_score i sc d)
          end
      end
  end.

(** [update_fixture_results(results)]: each item in turn, results ignored. *)
Definition update_fixture_results (results : json_arg update_req) (d : db) : db :=
  foldl (fun d result => (update_fixture_result (field_get (upd_id result)) result d).2)
    d (as_list results).

(** ** Updating scores *)

Lemma find_set_score i sc l j :
  List.find (fun r => bool_decide (fr_id r = j))
    (map (fun f => if bool_decide (fr_id f = i) then with_score sc f else f) l) =
  if bool_decide (j = i)
  then with_score sc <$> List.find (fun r => bool_decide (fr_id r = i)) l
  else List.find (fun r => bool_decide (fr_id r = j)) l.
Proof.
  induction l as [|f l IH]; simpl; [by case_bool_decide|].
  rewrite IH. unfold with_score.
  repeat case_bool_decide; simplify_eq; simpl in *; done.
Qed.

(** [FixtureResult.query.get] after the commit of a new score. *)
Lemma db_get_fixture_set_score i sc d j :
  db_get_fixture (set_score i sc d) j =
  if bool_decide (j = i) then with_score sc <$> db_get_fixture d i else db_get_fixture d j.
Proof. apply find_set_score. Qed.


(** ** Ingestion keeps the database well formed *)

(** Fixture ids are distinct and below their sequence. *)
Definition fixtures_wf (d : db) : Prop :=
  table_wf fr_id fr_id (db_fixtures d) (db_next_fixture d).

(** The invariant of the stored data: the catalog invariant and
    [fixtures_wf]. *)
Definition db_inv (d : db) : Prop := db_wf d /\ fixtures_wf d.

(** A write that appends rows and keeps the invariant. *)
Definition grows (d d' : db) : Prop := db_extends d d' /\ (db_inv d -> db_inv d').

#[export] Instance grows_preorder : PreOrder grows.
Proof.
  split.
  - intros d. split; [reflexivity | done].
  - intros d1 d2 d3 [X1 W1] [X2 W2]. split; [by etrans | auto].
Qed.

Lemma db_inv_frame d d' :
  fixtures_frame d d' -> (db_wf d -> db_wf d') -> db_inv d -> db_inv d'.
Proof. intros [Hf Hn] Hw [H1 H2]. split; [auto|]. unfold fixtures_wf. by rewrite Hf, Hn. Qed.

Lemma get_add_league_grows n d l d' : get_add_league n d = (l, d') -> grows d d'.
Proof.
  intros E. apply get_add_league_spec in E as (_ & _ & X & F & W).
  split; [done|]. by apply db_inv_frame.
Qed.

Lemma get_add_group_grows n lid d g d' : get_add_group n lid d = (g, d') -> grows d d'.
Proof.
  intros E. apply get_add_group_spec in E as (_ & _ & _ & X & F & W).
  split; [done|]. by apply db_inv_frame.
Qed.

Lemma get_add_team_grows n d t d' : get_add_team n d = (t, d') -> grows d d'.
Proof.
  intros E. apply get_add_team_spec in E as (_ & _ & X & F & W).
  split; [done|]. by apply db_inv_frame.
Qed.

Lemma insert_fixture_grows md ko sc g h a d f d' :
  insert_fixture md ko sc g h a d = (f, d') -> grows d d'.
Proof.
  unfold insert_fixture. intros [= <- <-]. split.
  - repeat split; simpl; try reflexivity. by eexists.
  - intros [Hw Hf]. split; [exact Hw|]. unfold fixtures_wf. simpl.
    apply table_wf_snoc; [done | | done]. simpl. by apply table_wf_next_fresh in Hf.
Qed.

#[export] Hint Resolve get_add_league_grows get_add_group_grows get_add_team_grows
  insert_fixture_grows : workflows.

(** Whether it stores the fixture or not, [add_fixture_result] grows the
    database. *)
Lemma add_fixture_result_grows s d r d' : add_fixture_result s d = (r, d') -> grows d d'.
Proof.
  unfold add_fixture_result.
  destruct (get_add_team _ d) as [home d1] eqn:E1.
  destruct (get_add_team _ d1) as [away d2] eqn:E2.
  destruct (get_add_league _ d2) as [l d3] eqn:E3.
  destruct (get_add_group _ _ d3) as [g d4] eqn:E4.
  assert (grows d d4) as G4 by (do 3 (etrans; [eauto with workflows|]); eauto with workflows).
  match goal with |- context [match ?m with Ok _ => _ | Raise _ => _ end] =>
    destruct m as [[[md ko] sc]|e] end.
  - destruct (insert_fixture _ _ _ _ _ _ d4) as [f d5] eqn:E5. intros [= <- <-].
    etrans; eauto with workflows.
  - by intros [= <- <-].
Qed.

(** The league and group of a submission, as [get_league] and
    [get_group] resolve them in [d]. *)
Definition resolves_to (d : db) (s : submission) (gid : Z) : Prop :=
  exists l g, Store.get_league (field_get (sub_leagueTitle s)) d = Some l /\
    Store.get_group (field_get (sub_group s)) (league_id l) d = Some g /\ lgroup_id g = gid.

Lemma resolves_to_extends d d' s gid :
  db_extends d d' -> resolves_to d s gid -> resolves_to d' s gid.
Proof.
  intros X (l & g & Hl & Hg & Hid). exists l, g.
  split; [by eapply get_league_extends|]. split; [by eapply get_group_extends|done].
Qed.

Section Ingest.
Context `{PySetOrder}.

(** One iteration: the group of the submission is recorded, and it
    resolves in the database the iteration leaves. *)
Lemma ingest_step_spec gids d s gids' d' :
  ingest_step (gids, d) s = (gids', d') ->
  grows d d' /\ exists gid, gids' = gids ++ [gid] /\ resolves_to d' s gid.
Proof.
  simpl. destruct (get_add_league _ d) as [l d1] eqn:E1.
  destruct (get_add_group _ _ d1) as [g d2] eqn:E2.
  destruct (add_fixture_result s d2) as [r d3] eqn:E3. intros [= <- <-].
  apply add_fixture_result_grows in E3 as G3.
  pose proof (get_add_league_grows _ _ _ _ E1) as G1.
  pose proof (get_add_group_grows _ _ _ _ _ E2) as G2.
  split; [by do 2 (etrans; [eassumption|])|].
  exists (lgroup_id g). split; [done|].
  apply get_add_league_spec in E1 as (_ & Hl & X1 & _).
  apply get_add_group_spec in E2 as (_ & _ & Hg & X2 & _).
  apply (resolves_to_extends d2); [apply G3|].
  exists l, g. split; [by eapply get_league_extends|done].
Qed.

(** The whole loop: every submission's group resolves at the end and its
    id was recorded, and every id recorded is the group of a submission. *)
Lemma ingest_foldl_spec data gids d gids' d' :
  foldl ingest_step (gids, d) data = (gids', d') ->
  grows d d' /\ gids `prefix_of` gids' /\
  (forall s, s ∈ data -> exists gid, gid ∈ gids' /\ resolves_to d' s gid) /\
  (forall gid, gid ∈ gids' -> gid ∈ gids \/ exists s, s ∈ data /\ resolves_to d' s gid).
Proof.
  revert gids d. induction data as [|s data IH]; cbn [foldl]; intros gids d.
  - intros [= <- <-]. split; [reflexivity|]. split; [reflexivity|set_solver].
  - destruct (ingest_step (gids, d) s) as [gids1 d1] eqn:E. intros Hf.
    apply ingest_step_spec in E as (G1 & gid & -> & Hr).
    apply IH in Hf as (G & Hp & Hs & Hb). split; [by etrans|].
    assert (Hr' : resolves_to d' s gid) by (eapply resolves_to_extends; [apply G|done]).
    split; [by eapply prefix_app_l|]. split.
    + intros s' [->|Hin]%elem_of_cons; [|by apply Hs].
      exists gid. split; [|done]. eapply elem_of_prefix; [|exact Hp]. set_solver.
    + intros g' Hg'. destruct (Hb g' Hg') as [Hin|(s' & Hs' & Hr2)]; [|set_solver].
      apply elem_of_app in Hin as [Hin|Hin]; [by left|right].
      apply list_elem_of_singleton in Hin as ->. exists s. set_solver.
Qed.

Lemma gen_tables_Ok d gids ts :
  gen_tables d gids = Ok ts -> Forall2 (fun g t => gen_standing_table d g = Ok t) gids ts.
Proof. intros Hg. by apply py_foldl_map_Ok in Hg as (ys & -> & Hys). Qed.
End Ingest.

(** ** Growth bounds *)

(** Each table of [d'] has at most the given number of rows more than
    the same table of [d]. *)
Definition adds_at_most (nl ng nt nf : nat) (d d' : db) : Prop :=
  (length (db_leagues d') <= length (db_leagues d) + nl)%nat /\
  (length (db_groups d') <= length (db_groups d) + ng)%nat /\
  (length (db_teams d') <= length (db_teams d) + nt)%nat /\
  (length (db_fixtures d') <= length (db_fixtures d) + nf)%nat.

Lemma adds_at_most_trans a b c e a' b' c' e' d1 d2 d3 :
  adds_at_most a b c e d1 d2 -> adds_at_most a' b' c' e' d2 d3 ->
  adds_at_most (a + a') (b + b') (c + c') (e + e') d1 d3.
Proof. unfold adds_at_most. lia. Qed.

Lemma upsert_length {R K} `{EqDecision K} (key : R -> K) mk k rows next r rows' next' :
  upsert key mk k rows next = (r, (rows', next')) -> (length rows' <= length rows + 1)%nat.
Proof.
  unfold upsert. destruct (first_by key k rows); intros [= <- <- <-]; [lia|].
  rewrite length_app. simpl. lia.
Qed.

Ltac adds_upsert :=
  intros E; apply upsert_length in E; unfold adds_at_most; simpl; lia.

Lemma get_add_league_adds n d l d' : get_add_league n d = (l, d') -> adds_at_most 1 0 0 0 d d'.
Proof. unfold get_add_league. upsert_case E. intros [= <- <-]. revert E. adds_upsert. Qed.

Lemma get_add_group_adds n lid d g d' : get_add_group n lid d = (g, d') -> adds_at_most 0 1 0 0 d d'.
Proof. unfold get_add_group. upsert_case E. intros [= <- <-]. revert E. adds_upsert. Qed.

Lemma get_add_team_adds n d t d' : get_add_team n d = (t, d') -> adds_at_most 0 0 1 0 d d'.
Proof. unfold get_add_team. upsert_case E. intros [= <- <-]. revert E. adds_upsert. Qed.

Lemma insert_fixture_adds md ko sc g h a d f d' :
  insert_fixture md ko sc g h a d = (f, d') -> adds_at_most 0 0 0 1 d d'.
Proof. unfold insert_fixture. intros [= <- <-]. unfold adds_at_most; simpl. rewrite length_app. simpl. lia. Qed.

(** A resolve-or-create call that finds its row changes nothing. *)
Lemma get_add_league_found n d l : Store.get_league n d = Some l -> get_add_league n d = (l, d).
Proof. unfold get_add_league, Store.get_league, upsert. intros ->. by destruct d. Qed.

Lemma get_add_group_found n lid d g : Store.get_group n lid d = Some g -> get_add_group n lid d = (g, d).
Proof. unfold get_add_group, Store.get_group, upsert. intros ->. by destruct d. Qed.

(** [add_fixture_result] after its league and group exist adds at most
    the two teams and the fixture. *)
Lemma add_fixture_result_adds s l g d r d' :
  Store.get_league (field_get (sub_leagueTitle s)) d = Some l ->
  Store.get_group (field_get (sub_group s)) (league_id l) d = Some g ->
  add_fixture_result s d = (r, d') -> adds_at_most 0 0 2 1 d d'.
Proof.
  intros Hl Hg. unfold add_fixture_result.
  destruct (get_add_team _ d) as [home d1] eqn:E1.
  destruct (get_add_team _ d1) as [away d2] eqn:E2.
  assert (X : db_extends d d2).
  { apply get_add_team_spec in E1 as (_ & _ & X1 & _). apply get_add_team_spec in E2 as (_ & _ & X2 & _).
    by etrans. }
  rewrite (get_add_league_found _ d2 l) by by eapply get_league_extends.
  rewrite (get_add_group_found _ _ d2 g) by by eapply get_group_extends.
  pose proof (adds_at_most_trans _ _ _ _ _ _ _ _ _ _ _ (get_add_team_adds _ _ _ _ E1)
                (get_add_team_adds _ _ _ _ E2)) as A2.
  match goal with |- context [match ?m with Ok _ => _ | Raise _ => _ end] =>
    destruct m as [[[md ko] sc]|e] end.
  - destruct (insert_fixture _ _ _ _ _ _ d2) as [f d3] eqn:E3. intros [= <- <-].
    exact (adds_at_most_trans _ _ _ _ _ _ _ _ _ _ _ A2 (insert_fixture_adds _ _ _ _ _ _ _ _ _ E3)).
  - intros [= <- <-]. revert A2. unfold adds_at_most. lia.
Qed.

(** One submission of the publish loop adds at most one league, one
    group, two teams and one fixture: [add_fixture_result] finds the
    league and group the loop created. *)
Lemma ingest_step_adds gids d s gids' d' :
  ingest_step (gids, d) s = (gids', d') -> adds_at_most 1 1 2 1 d d'.
Proof.
  simpl. destruct (get_add_league _ d) as [l d1] eqn:E1.
  destruct (get_add_group _ _ d1) as [g d2] eqn:E2.
  destruct (add_fixture_result s d2) as [r d3] eqn:E3. intros [= <- <-].
  pose proof (get_add_league_adds _ _ _ _ E1) as A1. pose proof (get_add_group_adds _ _ _ _ _ E2) as A2.
  apply get_add_league_spec in E1 as (_ & Hl & _).
  apply get_add_group_spec in E2 as (_ & _ & Hg & X2 & _).
  apply (add_fixture_result_adds _ l g) in E3; [|by eapply get_league_extends|done].
  exact (adds_at_most_trans _ _ _ _ _ _ _ _ _ _ _ (adds_at_most_trans _ _ _ _ _ _ _ _ _ _ _ A1 A2) E3).
Qed.

Lemma ingest_foldl_adds data gids d gids' d' :
  foldl ingest_step (gids, d) data = (gids', d') ->
  let n := length data in adds_at_most n n (2 * n) n d d'.
Proof.
  revert gids d. induction data as [|s data IH]; cbn [foldl length]; intros gids d.
  - intros [= <- <-]. unfold adds_at_most. lia.
  - destruct (ingest_step (gids, d) s) as [gids1 d1] eqn:E. intros Hf.
    pose proof (adds_at_most_trans _ _ _ _ _ _ _ _ _ _ _ (ingest_step_adds _ _ _ _ _ E) (IH _ _ Hf)) as A.
    revert A. unfold adds_at_most. lia.
Qed.

(** ** Batch updates *)

(** One item of [update_fixture_results]. *)
Definition update_step (d : db) (result : update_req) : db :=
  (update_fixture_result (field_get (upd_id result)) result d).2.

(** An item fails when its id finds no row or it has no [score] key. *)
Definition update_fails (d : db) (result : update_req) : Prop :=
  (forall i, field_get (upd_id result) = Some i -> db_get_fixture d i = None) \/
  upd_score result = Missing.

Lemma update_step_fails d r : update_fails d r -> update_step d r = d.
Proof.
  unfold update_step, update_fixture_result. intros [H|H].
  - destruct (field_get (upd_id r)) as [i|]; [by rewrite H|done].
  - rewrite H. destruct (field_get (upd_id r)); [|done].
    by destruct (db_get_fixture d _).
Qed.

(** Updates neither add nor remove fixtures. *)
Lemma update_step_absent d r j :
  db_get_fixture (update_step d r) j = None <-> db_get_fixture d j = None.
Proof.
  unfold update_step, update_fixture_result.
  destruct (field_get (upd_id r)) as [i|]; [|done].
  destruct (db_get_fixture d i) eqn:Ei; [|done].
  destruct (field_index (upd_score r)); simpl; [|done].
  rewrite db_get_fixture_set_score. case_bool_decide; [subst; by rewrite Ei|done].
Qed.

Lemma update_steps_fails rs d r :
  update_fails d r -> update_fails (foldl update_step d rs) r.
Proof.
  revert d. induction rs as [|r' rs IH]; intros d Hf; simpl; [done|]. apply IH.
  destruct Hf as [Hf|Hf]; [left|by right]. intros i Hi. apply update_step_absent. auto.
Qed.

(** The tables of an endpoint's answer. *)
Definition out_tables (out : tables_out) : list StandingsTable :=
  match out with OneTable t => [t] | TableList ts => ts end.

(** ** Properties *)

(** C16: updating a fixture id that is absent, or that finds no stored
    row, answers [(False, 'Fixture not found.')] and leaves the database
    unmodified (spec section 8). *)
Theorem update_not_found rid data d :
  (forall i, rid = Some i -> db_get_fixture d i = None) ->
  update_fixture_result rid data d = ((false, "Fixture not found."), d).
Proof. intros H. destruct rid as [i|]; simpl; [by rewrite H|done]. Qed.

(** C17: updating a stored fixture with a [score] key answers
    [(True, 'Success')] and overwrites only its score: the row read back
    by id is the old row with the new score, every other id reads back
    as before, and the catalog tables and sequences are untouched. *)
Theorem update_overwrites_score i data d f sc :
  db_get_fixture d i = Some f -> field_index (upd_score data) = Ok sc ->
  exists d', update_fixture_result (Some i) data d = ((true, "Success"), d') /\
    db_get_fixture d' i = Some (with_score sc f) /\
    (forall j, j <> i -> db_get_fixture d' j = db_get_fixture d j) /\
    db_leagues d' = db_leagues d /\ db_groups d' = db_groups d /\
    db_teams d' = db_teams d /\ db_next_fixture d' = db_next_fixture d.
Proof.
  intros Hf Hs. exists (set_score i sc d). simpl. rewrite Hf, Hs.
  split; [done|]. rewrite !db_get_fixture_set_score, Hf.
  split; [by rewrite bool_decide_eq_true_2|].
  split; [intros j Hj; rewrite db_get_fixture_set_score; by rewrite bool_decide_eq_false_2|done].
Qed.

(** C18: the batch update is per item: an item whose id finds no row, or
    that has no [score] key, changes nothing, so the batch without it ends
    in the same database (spec section 4.5). *)
Theorem update_batch_skips_failing rs1 r rs2 d :
  update_fails d r ->
  update_fixture_results (JList (rs1 ++ r :: rs2)) d =
  update_fixture_results (JList (rs1 ++ rs2)) d.
Proof.
  intros Hf. unfold update_fixture_results. simpl. rewrite !foldl_app. simpl.
  f_equal. apply (update_step_fails _ r). by apply update_steps_fails.
Qed.

Section PublishProperties.
Context `{PySetOrder}.

(** C19: the final test [len(standing) == 1] of
    [handle_fixture_results] reads the loop variable [standing], not the
    list of tables.  The last table dict has four keys, so the answer is
    never a single table, even for one group.  For an empty batch the
    loop never runs, [standing] is unbound, and the call raises
    [UnboundLocalError] with the database unchanged. *)
Theorem handle_never_unwraps data d t :
  (handle_fixture_results data d).1 <> Ok (OneTable t) /\
  handle_fixture_results (JList []) d = (Raise UnboundLocalError, d).
Proof.
  split.
  - unfold handle_fixture_results. destruct (ingest_loop _ d) as [gids d']. simpl.
    destruct (gen_tables d' (set_iter gids)) as [ts|e]; simpl; [|done].
    by destruct (last ts).
  - unfold handle_fixture_results. simpl. unfold gen_tables.
    destruct (set_iter []) as [|x l] eqn:E; [done|].
    exfalso. apply (elem_of_nil x), (set_iter_elem [] x). rewrite E. set_solver.
Qed.

(** C20: publishing a batch of [n] results, whatever its outcome, adds
    at most [n] leagues, [n] groups, [2 n] teams and [n] fixtures: the
    loop's own [get_add_league] and [get_add_group] create the league
    and group that [add_fixture_result] then finds, and a submission
    stores at most one fixture. *)
Theorem handle_adds_at_most data d :
  let n := length (as_list data) in
  adds_at_most n n (2 * n) n d (handle_fixture_results data d).2.
Proof.
  unfold handle_fixture_results, ingest_loop.
  destruct (foldl ingest_step ([], d) (as_list data)) as [gids d'] eqn:F.
  exact (ingest_foldl_adds _ _ _ _ _ F).
Qed.

(** C21: publishing a batch returns, when it succeeds, one table per
    distinct group the batch touched: the group ids have no duplicates,
    each table is the aggregator's table of its group in the database the
    batch left, every submission's league and group resolve to one of
    these ids, and every id is the group of a submission (spec section
    4.4). *)
Theorem handle_tables_cover data d ts d' :
  handle_fixture_results data d = (Ok (TableList ts), d') ->
  exists gids, NoDup gids /\
    Forall2 (fun g t => gen_standing_table d' g = Ok t) gids ts /\
    (forall s, s ∈ as_list data -> exists gid, gid ∈ gids /\ resolves_to d' s gid) /\
    (forall gid, gid ∈ gids -> exists s, s ∈ as_list data /\ resolves_to d' s gid).
Proof.
  unfold handle_fixture_results, ingest_loop.
  destruct (foldl ingest_step ([], d) (as_list data)) as [gids d1] eqn:E.
  destruct (gen_tables d1 (set_iter gids)) as [ts1|e] eqn:Et; simpl; [|congruence].
  destruct (last ts1) as [t0|]; [|congruence]. simpl. intros [= -> <-].
  apply ingest_foldl_spec in E as (_ & _ & Hs & Hb).
  exists (set_iter gids). split; [apply set_iter_nodup|].
  split; [by apply gen_tables_Ok|]. split.
  - intros s Hin. destruct (Hs s Hin) as (gid & Hg & Hr). exists gid.
    by rewrite set_iter_elem.
  - intros gid Hg. apply set_iter_elem, Hb in Hg as [Hg|]; [set_solver|done].
Qed.

(** C22: publishing keeps the stored data well formed: natural keys stay
    unique, and league, group, team and fixture ids stay distinct and
    below their sequences, whatever the batch holds. *)
Theorem handle_preserves_inv data d :
  db_inv d -> db_inv (handle_fixture_results data d).2.
Proof.
  unfold handle_fixture_results, ingest_loop.
  destruct (foldl ingest_step ([], d) (as_list data)) as [gids d1] eqn:E.
  apply ingest_foldl_spec in E as ([_ W] & _). done.
Qed.
End PublishProperties.

(** C23: a submission without a [score] key is not stored, and no
    exception reaches the caller, but its two teams, its league and its
    group have been created and committed (the spec asks for failures to
    abort the workflow, not to be swallowed). *)
Theorem add_fixture_result_swallows_missing_score s d :
  sub_score s = Missing ->
  exists d' gid, add_fixture_result s d = (None, d') /\ db_fixtures d' = db_fixtures d /\
    resolves_to d' s gid /\
    (exists t, first_by Entities.team_name (field_get (sub_homeTeam s)) (db_teams d') = Some t) /\
    (exists t, first_by Entities.team_name (field_get (sub_awayTeam s)) (db_teams d') = Some t).
Proof.
  intros Hs. unfold add_fixture_result.
  destruct (get_add_team _ d) as [home d1] eqn:E1.
  destruct (get_add_team _ d1) as [away d2] eqn:E2.
  destruct (get_add_league _ d2) as [l d3] eqn:E3.
  destruct (get_add_group _ _ d3) as [g d4] eqn:E4.
  apply get_add_team_spec in E1 as (_ & T1 & X1 & [F1 _] & _).
  apply get_add_team_spec in E2 as (_ & T2 & X2 & [F2 _] & _).
  apply get_add_league_spec in E3 as (_ & L3 & X3 & [F3 _] & _).
  apply get_add_group_spec in E4 as (_ & _ & G4 & X4 & [F4 _] & _).
  exists d4, (lgroup_id g). rewrite Hs.
  destruct (field_index (sub_matchday s)), (field_index (sub_kickoffAt s)); simpl;
    (split; [done|]); (split; [congruence|]).
  all: split; [exists l, g; split; [by eapply get_league_extends|done]|].
  all: split; [exists home; eapply first_by_prefix; [|exact T1]|
               exists away; eapply first_by_prefix; [|exact T2]].
  all: repeat match goal with X : db_extends _ _ |- _ => destruct X as (_ & _ & ? & _) end.
  all: repeat (etrans; [eassumption|]); reflexivity.
Qed.

Section TableProperties.
Context `{PySetOrder}.

(** C24: without targets, [get_tabels_for_groups] computes the table of
    every stored group, in scan order, and returns it bare exactly when
    there is one group (spec section 9 asks for a list in every case). *)
Theorem get_tabels_all_groups d out :
  get_tabels_for_groups None d = Ok out ->
  exists ts, Forall2 (fun g t => gen_standing_table d (lgroup_id g) = Ok t) (db_groups d) ts /\
    out_tables out = ts /\ (length ts = 1%nat <-> exists t, out = OneTable t).
Proof.
  unfold get_tabels_for_groups. simpl.
  destruct (gen_tables d (map lgroup_id (db_groups d))) as [ts|e] eqn:Et; simpl; [|done].
  intros Hout. exists ts. apply gen_tables_Ok, Forall2_fmap_l in Et. split; [done|].
  destruct ts as [|t [|t' ts]]; injection Hout as <-; simpl; naive_solver.
Qed.
End TableProperties.

(** ** Concrete inputs and witnesses *)

(** The first result of the spec's scenario, as a client posts it. *)
Definition sample_submission : submission :=
  mk_submission (Val "A") (Val "B") (Val "Champions League") (Val "A") (Val 1)
    (Val "2017-09-13T20:45:00") (Val "3:1").

(** The same result without its [score] key. *)
Definition sample_no_score : submission :=
  mk_submission (Val "A") (Val "B") (Val "Champions League") (Val "A") (Val 1)
    (Val "2017-09-13T20:45:00") Missing.

Lemma db_inv_empty : db_inv empty_db.
Proof.
  split; [exact db_wf_empty|]. unfold fixtures_wf, table_wf. simpl.
  repeat split; try constructor; lia.
Qed.

Lemma update_not_found_witness :
  (forall i, Some 5 = Some i -> db_get_fixture spec_scenario_db i = None) /\
  update_fixture_result (Some 5) (mk_update (Val 5) (Val "1:0")) spec_scenario_db =
    ((false, "Fixture not found."), spec_scenario_db).
Proof.
  assert (H : forall i, Some 5 = Some i -> db_get_fixture spec_scenario_db i = None)
    by (intros i [= <-]; reflexivity).
  split; [exact H|]. apply update_not_found. exact H.
Defined.

Lemma update_overwrites_score_witness :
  exists f, db_get_fixture spec_scenario_db 1 = Some f /\
  exists d', update_fixture_result (Some 1) (mk_update (Val 1) (Val "1:0")) spec_scenario_db =
      ((true, "Success"), d') /\
    db_get_fixture d' 1 = Some (with_score (Some "1:0"%string) f) /\
    (forall j, j <> 1 -> db_get_fixture d' j = db_get_fixture spec_scenario_db j) /\
    db_leagues d' = db_leagues spec_scenario_db /\ db_groups d' = db_groups spec_scenario_db /\
    db_teams d' = db_teams spec_scenario_db /\
    db_next_fixture d' = db_next_fixture spec_scenario_db.
Proof.
  eexists. split; [reflexivity|].
  apply (update_overwrites_score 1 (mk_update (Val 1) (Val "1:0")) spec_scenario_db); reflexivity.
Defined.

Lemma update_batch_skips_failing_witness :
  update_fails spec_scenario_db (mk_update (Val 9) (Val "1:0")) /\
  update_fixture_results (JList ([] ++ mk_update (Val 9) (Val "1:0") ::
                                 [mk_update (Val 1) (Val "0:0")])) spec_scenario_db =
  update_fixture_results (JList ([] ++ [mk_update (Val 1) (Val "0:0")])) spec_scenario_db.
Proof.
  assert (H : update_fails spec_scenario_db (mk_update (Val 9) (Val "1:0")))
    by (left; intros i [= <-]; reflexivity).
  split; [exact H|]. apply update_batch_skips_failing. exact H.
Defined.

Lemma handle_tables_cover_witness :
  exists ts d', handle_fixture_results (JOne sample_submission) empty_db = (Ok (TableList ts), d') /\
  exists gids, NoDup gids /\
    Forall2 (fun g t => gen_standing_table d' g = Ok t) gids ts /\
    (forall s, s ∈ as_list (JOne sample_submission) -> exists gid, gid ∈ gids /\ resolves_to d' s gid) /\
    (forall gid, gid ∈ gids -> exists s, s ∈ as_list (JOne sample_submission) /\ resolves_to d' s gid).
Proof.
  destruct (handle_fixture_results (JOne sample_submission) empty_db) as [r d'] eqn:E.
  pose proof E as E'. vm_compute in E'. injection E' as <- <-.
  eexists _, _. split; [reflexivity|]. exact (handle_tables_cover _ _ _ _ E).
Defined.

Lemma handle_preserves_inv_witness :
  db_inv empty_db /\ db_inv (handle_fixture_results (JOne sample_submission) empty_db).2.
Proof. split; [exact db_inv_empty|]. apply handle_preserves_inv. exact db_inv_empty. Defined.

Lemma add_fixture_result_swallows_missing_score_witness :
  sub_score sample_no_score = Missing /\
  exists d' gid, add_fixture_result sample_no_score empty_db = (None, d') /\
    db_fixtures d' = db_fixtures empty_db /\ resolves_to d' sample_no_score gid /\
    (exists t, first_by Entities.team_name (field_get (sub_homeTeam sample_no_score)) (db_teams d') = Some t) /\
    (exists t, first_by Entities.team_name (field_get (sub_awayTeam sample_no_score)) (db_teams d') = Some t).
Proof.
  split; [reflexivity|]. apply add_fixture_result_swallows_missing_score. reflexivity.
Defined.

Lemma get_tabels_all_groups_witness :
  exists out, get_tabels_for_groups None spec_scenario_db = Ok out /\
  exists ts, Forall2 (fun g t => gen_standing_table spec_scenario_db (lgroup_id g) = Ok t)
      (db_groups spec_scenario_db) ts /\
    out_tables out = ts /\ (length ts = 1%nat <-> exists t, out = OneTable t).
Proof.
  destruct (get_tabels_for_groups None spec_scenario_db) as [out|e] eqn:E;
    pose proof E as E'; vm_compute in E'; [|discriminate E'].
  exists out. split; [reflexivity|]. exact (get_tabels_all_groups _ _ E).
Defined.

End Workflows.
