(* ===== verification/TableFacts.v ===== *)
(** * TableFacts: what every computed table satisfies

    Every row of the dict after the loop of [__gen_standing_table] is its
    zeroed row plus a sum, over the group's fixtures, of what
    [__parse_result] credits its team ([code_team_stats],
    [populate_code_stats]).  Three families of facts follow.

    - Determinism (spec section 8): the table does not depend on the order
      in which the database returns the fixtures, when the iteration order
      of a Python set of team ids depends only on its elements (the
      hypothesis [set_iter_canonical]; [ascending_set_order] has it).
      Sums and maxima do not depend on the order of their terms.
    - Bounds: ranks run from 1 to the number of rows, counts are
      non-negative, points lie between 0 and three per game played, and a
      team plays at most two games per fixture ([credit_ok]).
    - The points total (spec section 8): summed over the rows, the points
      are 3 per home win and 2 per other result ([fixture_points]),
      whether the two teams of a fixture differ or not. *)

From stdpp Require Import sorting.
From S2P Require Import Prelude PyStr PySort Timestamp Entities Standings.
Import PySort Entities Standings.

Module TableFacts.

(** What [__parse_result] credits team [i], summed over the fixtures. *)
Definition code_team_stats (i : Z) (fs : list FixtureResult) : stats :=
  foldr (fun f acc =>
           match fixture_score f with
           | Ok (hs, as_) => stats_add (stmts_stats f i (parse_result_stmts hs as_)) acc
           | Raise _ => acc
           end) stats_zero fs.

(** A set order that depends only on the elements of the set. *)
Definition set_iter_canonical `{PySetOrder} : Prop :=
  forall l1 l2, (forall x, x ∈ l1 <-> x ∈ l2) -> set_iter l1 = set_iter l2.

Lemma stats_add_comm a b : stats_add a b = stats_add b a.
Proof. destruct a, b. stats_eq. Qed.

Lemma stats_add_assoc a b c : stats_add a (stats_add b c) = stats_add (stats_add a b) c.
Proof. destruct a, b, c. stats_eq. Qed.

Lemma code_team_stats_perm i fs1 fs2 :
  fs1 ≡ₚ fs2 -> code_team_stats i fs1 = code_team_stats i fs2.
Proof.
  induction 1 as [|f l1 l2 _ IH|f g l|l1 l2 l3 _ IH1 _ IH2]; simpl; try congruence.
  - by rewrite IH.
  - destruct (fixture_score f) as [[hf af]|], (fixture_score g) as [[hg ag]|]; try done.
    by rewrite !stats_add_assoc, (stats_add_comm (stmts_stats g _ _)).
Qed.

Lemma foldl_max_perm m l1 l2 : l1 ≡ₚ l2 -> foldl Z.max m l1 = foldl Z.max m l2.
Proof.
  intros Hp. revert m. induction Hp as [|x l1 l2 _ IH|x y l|l1 l2 l3 _ IH1 _ IH2];
    intros m; simpl; try congruence.
  f_equal. lia.
Qed.

Lemma team_ids_perm fs1 fs2 x : fs1 ≡ₚ fs2 -> x ∈ team_ids fs1 <-> x ∈ team_ids fs2.
Proof. intros Hp. rewrite !team_ids_elem. by setoid_rewrite Hp. Qed.

Section Order.
Context `{EntityLookup D} `{PySetOrder}.

(** Every row after the loop is its start plus the code's credits. *)
Lemma populate_code_stats fs m sd r :
  py_foldl populate_step (m, sd) fs = Ok r ->
  forall i, pd_map r.2 !! i = (fun x => row_add x (code_team_stats i fs)) <$> pd_map sd !! i.
Proof.
  revert m sd. induction fs as [|f fs IH]; intros m sd Hr i.
  - injection Hr as <-. simpl. destruct (pd_map sd !! i); simpl; by rewrite ?row_add_zero.
  - apply populate_cons in Hr as (? & hs & as_ & ? & _ & Hsc & -> & Hr).
    rewrite (IH _ _ Hr), exec_stmts_lookup. simpl. rewrite Hsc.
    destruct (pd_map sd !! i); simpl; [|done]. by rewrite row_add_add.
Qed.

(** The standings dict after the loop, from the fixtures alone. *)
Lemma populate_dict_perm fs1 fs2 sd m1 m2 sd1 sd2 :
  fs1 ≡ₚ fs2 ->
  py_foldl populate_step (0, sd) fs1 = Ok (m1, sd1) ->
  py_foldl populate_step (0, sd) fs2 = Ok (m2, sd2) ->
  m1 = m2 /\ sd1 = sd2.
Proof.
  intros Hp H1 H2. split.
  - apply populate_matchday in H1 as [_ E1], H2 as [_ E2]. simpl in E1, E2.
    rewrite E1, E2. apply foldl_max_perm. by rewrite Hp.
  - destruct sd1 as [k1 map1], sd2 as [k2 map2]. f_equal.
    + apply populate_keys in H1, H2. simpl in *. congruence.
    + apply map_eq. intros i.
      pose proof (populate_code_stats _ _ _ _ H1 i) as E1.
      pose proof (populate_code_stats _ _ _ _ H2 i) as E2. simpl in E1, E2.
      by rewrite E1, E2, (code_team_stats_perm i _ _ Hp).
Qed.
End Order.
Lemma assign_ranks_length k l : length (assign_ranks k l) = length l.
Proof. revert k. induction l; intros k; simpl; [done|]. by rewrite IHl. Qed.

(** ** What one team is credited *)

(** Credits that keep the row invariants, with non-negative counts of
    wins, losses and draws and at most [p] games played. *)
Definition credit_ok (p : Z) (s : stats) : Prop :=
  balanced s /\ 0 <= s_win s /\ 0 <= s_lose s /\ 0 <= s_draw s /\ s_played s <= p.

Lemma credit_ok_add p q a b : credit_ok p a -> credit_ok q b -> credit_ok (p + q) (stats_add a b).
Proof.
  intros [Ba Ha] [Bb Hb]. split; [by apply balanced_add|]. destruct a, b; simpl in *; lia.
Qed.

Lemma credit_ok_side own opp o : credit_ok 1 (side_stats own opp o).
Proof. split; [apply balanced_side_stats|]. destruct o; simpl; lia. Qed.

Lemma credit_ok_zero : credit_ok 0 stats_zero.
Proof. split; [apply balanced_zero|]. simpl; lia. Qed.

Lemma credit_ok_side_if (b : bool) own opp o : credit_ok 1 (if b then side_stats own opp o else stats_zero).
Proof.
  destruct b; [apply credit_ok_side|]. destruct credit_ok_zero as [B H]. split; [done|lia].
Qed.

(** Over [n] fixtures a team plays at most [2 n] games: two when it is
    both home and away team. *)
Lemma code_team_stats_ok i fs : credit_ok (2 * Z.of_nat (length fs)) (code_team_stats i fs).
Proof.
  induction fs as [|f fs IH]; simpl; [apply credit_ok_zero|].
  replace (2 * Z.of_nat (S (length fs))) with (1 + 1 + 2 * Z.of_nat (length fs)) by lia.
  destruct (fixture_score f) as [[hs as_]|].
  - apply credit_ok_add; [|done]. rewrite stmts_stats_parse_result.
    apply credit_ok_add; apply credit_ok_side_if.
  - destruct IH as [B H]. split; [done|lia].
Qed.

(** Every row of the dict after the loop is a zeroed row plus the
    credits of its team. *)
Lemma table_rows_credits `{EntityLookup D} `{PySetOrder} (d : D) fs sd m sd' (x : StandingsRow) :
  create_standings_dict d fs = Ok sd ->
  py_foldl populate_step (0, sd) fs = Ok (m, sd') ->
  x ∈ pd_values sd' -> exists i nm, x = row_add (new_row nm) (code_team_stats i fs).
Proof.
  intros Hc Hp Hx. apply pd_values_elem in Hx as (k & _ & Hk).
  rewrite (populate_code_stats _ _ _ _ Hp) in Hk.
  apply create_standings_dict_Ok in Hc as [_ Hm]. destruct (Hm k) as [Hin Hout].
  destruct (decide (k ∈ team_ids fs)) as [Hi|Hi].
  - destruct (Hin Hi) as (t & _ & Ht). rewrite Ht in Hk. injection Hk as <-. eauto.
  - by rewrite Hout in Hk.
Qed.

(** ** Points over a table *)

(** What a fixture adds to the points of the two rows together. *)
Definition fixture_points (f : FixtureResult) : Z :=
  match fixture_score f with Ok (hs, as_) => if hs >? as_ then 3 else 2 | Raise _ => 0 end.

Lemma code_team_points i fs :
  s_points (code_team_stats i fs) =
  zsum (fun f => match fixture_score f with
                 | Ok (hs, as_) => s_points (stmts_stats f i (parse_result_stmts hs as_))
                 | Raise _ => 0 end) fs.
Proof. induction fs as [|f fs IH]; simpl; [done|]. destruct (fixture_score f) as [[]|]; simpl; lia. Qed.

(** Summed over distinct ids holding both of its teams, a fixture's
    credits give [fixture_points]. *)
Lemma fixture_points_sum f ids hs as_ :
  NoDup ids -> fr_home_team_id f ∈ ids -> fr_away_team_id f ∈ ids ->
  fixture_score f = Ok (hs, as_) ->
  zsum (fun i => s_points (stmts_stats f i (parse_result_stmts hs as_))) ids = fixture_points f.
Proof.
  intros Hnd Hh Ha Hs. unfold fixture_points. rewrite Hs.
  rewrite (zsum_ext _ (fun i => (if fr_home_team_id f =? i then (if hs >? as_ then 3 else 1) else 0) +
                                (if fr_away_team_id f =? i then (if hs >? as_ then 0 else 1) else 0)))
    by (intros i _; rewrite stmts_stats_parse_result;
        destruct (fr_home_team_id f =? i), (fr_away_team_id f =? i), (hs >? as_); reflexivity).
  rewrite zsum_plus, !zsum_indicator by done. rewrite !bool_decide_eq_true_2 by done.
  destruct (hs >? as_); lia.
Qed.

Lemma zsum_assign_ranks k l : zsum (fun r => points r) (assign_ranks k l) = zsum (fun r => points r) l.
Proof.
  revert k. induction l as [|r l IH]; intros k; [done|].
  change (points (set_rank k r) + zsum (fun r => points r) (assign_ranks (k + 1) l) =
          points r + zsum (fun r => points r) l).
  rewrite IH. by destruct r.
Qed.

(** The ascending order of [ascending_set_order] depends only on the
    elements. *)
Lemma ascending_set_order_canonical : @set_iter_canonical ascending_set_order.
Proof.
  intros l1 l2 Hl. simpl. apply (Sorted_unique Z.le); [apply Sorted_merge_sort; intros x y; lia..|].
  rewrite !merge_sort_Permutation. apply NoDup_Permutation; [apply NoDup_remove_dups..|].
  intros x. rewrite !elem_of_remove_dups. apply Hl.
Qed.

Section Properties.
Context `{PySetOrder}.

(** C33: the table of a group does not depend on the order in which the
    database returns the fixtures: two databases with the same leagues,
    groups and teams and the same fixtures in any order give the same
    table, when both computations succeed and the set order depends only
    on the elements (spec section 8, determinism of the ranking). *)
Theorem gen_standing_table_order_independent d1 d2 g t1 t2 :
  set_iter_canonical ->
  db_leagues d1 = db_leagues d2 -> db_groups d1 = db_groups d2 -> db_teams d1 = db_teams d2 ->
  db_fixtures d1 ≡ₚ db_fixtures d2 ->
  gen_standing_table d1 g = Ok t1 -> gen_standing_table d2 g = Ok t2 -> t1 = t2.
Proof.
  intros Hc Hl Hg Ht Hf H1 H2.
  apply gen_standing_table_Ok in H1 as (sd1 & m1 & sd1' & grp1 & lg1 & C1 & P1 & G1 & L1 & ->).
  apply gen_standing_table_Ok in H2 as (sd2 & m2 & sd2' & grp2 & lg2 & C2 & P2 & G2 & L2 & ->).
  assert (Hp : query_group_fixtures d1 g ≡ₚ query_group_fixtures d2 g)
    by (simpl; unfold db_group_fixtures; by rewrite Hf).
  assert (sd1 = sd2) as <-.
  { revert C1 C2. unfold create_standings_dict.
    rewrite (Hc (team_ids (query_group_fixtures d1 g)) (team_ids (query_group_fixtures d2 g)))
      by (intros x; by apply team_ids_perm).
    simpl. unfold db_get_team. rewrite Ht. congruence. }
  destruct (populate_dict_perm _ _ _ _ _ _ _ Hp P1 P2) as [<- <-].
  simpl in G1, G2, L1, L2. unfold db_get_group, db_get_league in *.
  rewrite Hg in G1. rewrite G1 in G2. injection G2 as <-.
  rewrite Hl in L1. rewrite L1 in L2. by injection L2 as <-.
Qed.
(** C34: bounds of every row of a computed table: ranks run from 1 to the
    number of rows; wins, losses and draws are non-negative; points lie
    between 0 and three per game played; and a team played at most two
    games per fixture of the group (two only when it meets itself). *)
Theorem gen_standing_table_bounds d g t :
  gen_standing_table d g = Ok t ->
  forall j r, tbl_standing t !! j = Some r ->
  1 <= rr_rank r <= Z.of_nat (length (tbl_standing t)) /\
  0 <= rr_win r /\ 0 <= rr_lose r /\ 0 <= rr_draw r /\
  0 <= rr_points r <= 3 * rr_playedGames r /\
  rr_playedGames r <= 2 * Z.of_nat (length (query_group_fixtures d g)).
Proof.
  intros Ht. apply gen_standing_table_Ok in Ht as (sd & m & sd' & grp & lg & Hc & Hp & _ & _ & ->).
  simpl. unfold get_sorted_standings_as_list. intros j r Hj.
  rewrite length_map, assign_ranks_length.
  rewrite list_lookup_fmap, assign_ranks_lookup in Hj.
  destruct (py_sort_reverse row_lt (pd_values sd') !! j) as [x|] eqn:Ex; [|done].
  injection Hj as <-. pose proof (lookup_lt_Some _ _ _ Ex) as Hlt.
  apply list_elem_of_lookup_2 in Ex. rewrite sorted_rows_perm in Ex.
  destruct (table_rows_credits _ _ _ _ _ _ Hc Hp Ex) as (i & nm & ->).
  pose proof (code_team_stats_ok i (query_group_fixtures d g)) as ((Hgd & Hpl & Hpt) & Hw & Hl & Hd & Hb).
  destruct (code_team_stats i _); simpl in *. lia.
Qed.
(** C35: the points of a computed table add up, over the fixtures of the
    group, to 3 for each home win and 2 for every other result: the spec
    (section 8) counts 3 for every decisive match, but the code credits an
    away win as a draw.  This holds even for a fixture whose home and away
    team are the same, whose one row takes both sides. *)
Theorem gen_standing_table_points_total d g t :
  gen_standing_table d g = Ok t ->
  zsum rr_points (tbl_standing t) = zsum fixture_points (query_group_fixtures d g).
Proof.
  intros Ht. pose proof Ht as Ht'.
  apply gen_standing_table_Ok in Ht as (sd & m & sd' & grp & lg & Hc & Hp & _ & _ & ->).
  set (fs := query_group_fixtures d g) in *. simpl. unfold get_sorted_standings_as_list.
  rewrite zsum_map. rewrite (zsum_ext _ (fun r => points r)) by (intros r _; by destruct r).
  rewrite zsum_assign_ranks, (zsum_perm _ _ _ (sorted_rows_perm _)).
  pose proof (populate_keys _ _ _ _ Hp) as Hk. simpl in Hk.
  pose proof (populate_code_stats _ _ _ _ Hp) as Hr. simpl in Hr.
  pose proof (populate_scores _ _ _ _ Hp) as Hsc.
  apply create_standings_dict_Ok in Hc as [Hkeys Hm].
  unfold pd_values. rewrite Hk, Hkeys.
  rewrite (zsum_omap _ (fun k => s_points (code_team_stats k fs))).
  2: { intros k Hk'. rewrite set_iter_elem in Hk'. destruct (Hm k) as [Hin _].
       destruct (Hin Hk') as (tm & _ & Hsd). rewrite Hr, Hsd. eexists; split; [done|]. simpl. lia. }
  rewrite (zsum_ext _ _ _ (fun k _ => code_team_points k fs)), zsum_swap.
  apply zsum_ext. intros f Hf. destruct (Hsc f Hf) as (_ & hs & as_ & Hs). rewrite Hs.
  apply fixture_points_sum; [apply set_iter_nodup| | |done]; apply set_iter_elem, team_ids_elem; eauto.
Qed.
End Properties.

(** The spec's scenario with its two fixtures stored in the other order. *)
Definition spec_scenario_db_reversed : db :=
  mk_db (db_leagues spec_scenario_db) (db_groups spec_scenario_db) (db_teams spec_scenario_db)
    (rev (db_fixtures spec_scenario_db)) (db_next_league spec_scenario_db)
    (db_next_group spec_scenario_db) (db_next_team spec_scenario_db)
    (db_next_fixture spec_scenario_db).

Lemma gen_standing_table_order_independent_witness :
  exists t1 t2, gen_standing_table spec_scenario_db 1 = Ok t1 /\
    gen_standing_table spec_scenario_db_reversed 1 = Ok t2 /\ t1 = t2.
Proof.
  destruct (gen_standing_table spec_scenario_db 1) as [t1|e] eqn:E1;
    pose proof E1 as E1'; vm_compute in E1'; [|discriminate E1'].
  destruct (gen_standing_table spec_scenario_db_reversed 1) as [t2|e] eqn:E2;
    pose proof E2 as E2'; vm_compute in E2'; [|discriminate E2'].
  exists t1, t2. split; [reflexivity|]. split; [reflexivity|].
  apply (gen_standing_table_order_independent spec_scenario_db spec_scenario_db_reversed 1 t1 t2
           ascending_set_order_canonical eq_refl eq_refl eq_refl); [|exact E1|exact E2].
  simpl. apply Permutation_rev.
Defined.

Lemma gen_standing_table_bounds_witness :
  exists t, gen_standing_table spec_scenario_db 1 = Ok t /\
  forall j r, tbl_standing t !! j = Some r ->
  1 <= rr_rank r <= Z.of_nat (length (tbl_standing t)) /\
  0 <= rr_win r /\ 0 <= rr_lose r /\ 0 <= rr_draw r /\
  0 <= rr_points r <= 3 * rr_playedGames r /\
  rr_playedGames r <= 2 * Z.of_nat (length (query_group_fixtures spec_scenario_db 1)).
Proof.
  destruct (gen_standing_table spec_scenario_db 1) as [t|e] eqn:E;
    pose proof E as E'; vm_compute in E'; [|discriminate E'].
  exists t. split; [reflexivity|]. exact (gen_standing_table_bounds _ _ _ E).
Defined.

(** One away win, 0:1: the two rows hold 2 points, not 3. *)
Lemma gen_standing_table_points_total_witness :
  exists t, gen_standing_table away_win_db 1 = Ok t /\
  zsum rr_points (tbl_standing t) = zsum fixture_points (query_group_fixtures away_win_db 1) /\
  zsum fixture_points (query_group_fixtures away_win_db 1) = 2.
Proof.
  destruct (gen_standing_table away_win_db 1) as [t|e] eqn:E;
    pose proof E as E'; vm_compute in E'; [|discriminate E'].
  exists t. split; [reflexivity|]. split; [exact (gen_standing_table_points_total _ _ _ E)|].
  vm_compute. reflexivity.
Defined.

End TableFacts.
