(* ===== verification/Filter.v ===== *)
(** * Filter: the result filter of utils.py

    [filter_results(filters_dict)] builds an SQL query as a string from
    four optional criteria ([group], [team], [date_from], [date_to]),
    prints it, runs it with [DB.engine.execute] and turns every row into a
    result dict with [__parse_query_row], that is [FixtureResult(...)]
    followed by [to_result_dict] (models.py).  Every exception is caught
    and the answer is then [[]].

    [build_query] is the string the code builds, append by append.  The
    database engine is outside the repository: it is the section variable
    [exec], any function from the database and the query text to rows or
    an exception, and the database it leaves: the text is the client's
    values spliced into SQL, and may hold more statements than one.
    [sql_scan] reads a text as SQL does to find its statements (a quote
    opens or closes a literal, a semicolon outside one ends a statement),
    and [select_statement] says that a text is one [select].  The one
    assumption on the engine, a section hypothesis where it is used, is
    that such a text leaves the database as it is.  A
    row is [query_row]: its seven columns, the [kickoff_at] column being
    what the driver decoded, a [datetime] or a text.  [parse_query_row]
    rebuilds the fixture with [FixtureResult_init], the constructor of
    models.py with its [isinstance(kickoff_at, datetime)] test, and asks
    it for its result dict. *)

From Stdlib Require Import Ascii String.
From S2P Require Import Prelude PyStr Timestamp Entities Standings Store Workflows.
Import PyStr Timestamp Entities Standings Workflows.

Module Filter.

(** The criteria, read with [filters_dict.get(k)]. *)
Record filters := mk_filters {
  fl_group : field string; fl_team : field string;
  fl_date_from : field string; fl_date_to : field string
}.

(** [filters_dict = {}] when the body is [null]. *)
Definition no_filters : filters := mk_filters Missing Missing Missing Missing.

(** Python truthiness of [d.get(k)] for a string value. *)
Definition truthy (o : option string) : bool :=
  match o with Some s => negb (String.eqb s "") | None => false end.

(** ['%04d' % n] for [0 <= n]. *)
Definition pad4 (n : Z) : string :=
  let s := py_str n in
  String.append (string_of_list_ascii (repeat "0"%char (4 - String.length s))) s.

(** [str(d)] for a [datetime] without microseconds: [isoformat(' ')]. *)
Definition str_datetime (d : datetime) : string :=
  String.append (pad4 (dt_year d)) (String "-"
  (String.append (pad2 (dt_month d)) (String "-"
  (String.append (pad2 (dt_day d)) (String " "
  (String.append (pad2 (dt_hour d)) (String ":"
  (String.append (pad2 (dt_minute d)) (String ":" (pad2 (dt_second d))))))))))).

Local Notation "a +++ b" := (String.append a b) (at level 60, right associativity).

(** The query text before any condition when a criterion is given. *)
Definition select_where : string :=
  "select " +++ "fixture_results.id, matchday, kickoff_at, score, " +++
  "group_id, home_team_id, away_team_id " +++
  "from fixture_results, football_teams, league_groups" +++ " where ".

(** The [team] condition; the value is spliced in as it is. *)
Definition team_clause (t : string) : string :=
  "(fixture_results.home_team_id = football_teams.id" +++ " or " +++
  "fixture_results.away_team_id = football_teams.id)" +++ " and " +++
  "football_teams.team_name = '" +++ t +++ "'".

Definition group_clause (g : string) : string :=
  " and league_groups.id = fixture_results.group_id " +++
  "and league_groups.title='" +++ g +++ "'".

(** A date condition: [strptime] of the value, printed back with [str]. *)
Definition date_clause (op : string) (s : string) : pyres string :=
  let! dt := strptime s in
  Ok (" and " +++ "fixture_results.kickoff_at " +++ op +++ " '" +++ str_datetime dt +++ "'").

(** [if team_filter: query += ...]. *)
Definition add_team (team_filter : option string) (q : string) : string :=
  match team_filter with
  | Some t => if truthy team_filter then q +++ team_clause t else q
  | None => q
  end.

(** [if group_filter: query += ...]. *)
Definition add_group (group_filter : option string) (q : string) : string :=
  match group_filter with
  | Some g => if truthy group_filter then q +++ group_clause g else q
  | None => q
  end.

(** [if date_from_filter: ...] and [if date_to_filter: ...]. *)
Definition add_date (op : string) (date_filter : option string) (q : string) : pyres string :=
  match date_filter with
  | Some s => if truthy date_filter then let! c := date_clause op s in Ok (q +++ c) else Ok q
  | None => Ok q
  end.

(** The query of [filter_results], lines 438-476. *)
Definition build_query (fd : filters) : pyres string :=
  let group_filter := field_get (fl_group fd) in
  let team_filter := field_get (fl_team fd) in
  let date_from_filter := field_get (fl_date_from fd) in
  let date_to_filter := field_get (fl_date_to fd) in
  let query := if existsb truthy [group_filter; team_filter; date_from_filter; date_to_filter]
               then select_where else "select * from fixture_results" in
  let query := add_team team_filter query in
  let query := add_group group_filter query in
  let! query := add_date ">=" date_from_filter query in
  add_date "<=" date_to_filter query.

(** What [to_result_dict] returns. *)
Record fixture_view := mk_view {
  fv_id : Z; fv_matchday : option Z; fv_kickoffAt : string; fv_score : option string;
  fv_group : option string; fv_leagueTitle : option string;
  fv_homeTeam : option string; fv_awayTeam : option string
}.

(** [FixtureResult.to_result_dict]: an attribute read on a row that
    [query.get] did not find raises [AttributeError]. *)
Definition FixtureResult_to_result_dict (d : db) (f : FixtureResult) : pyres fixture_view :=
  let! group := py_of_option AttributeError (db_get_group d (fr_group_id f)) in
  let! league := py_of_option AttributeError (db_get_league d (lgroup_league_id group)) in
  let! home_team := py_of_option AttributeError (db_get_team d (fr_home_team_id f)) in
  let! away_team := py_of_option AttributeError (db_get_team d (fr_away_team_id f)) in
  Ok (mk_view (fr_id f) (fr_matchday f) (strftime (fr_kickoff_at f)) (fr_score f)
        (lgroup_title group) (league_title league)
        (team_name home_team) (team_name away_team)).

(** The [kickoff_at] value handed to the constructor: a [datetime]
    object, or anything else ([None] or a text), which goes to
    [strptime]. *)
Inductive kickoff_value := KDatetime (dt : datetime) | KText (s : option string).

(** [FixtureResult.__init__(group_id, home_team_id, away_team_id,
    matchday, kickoff_at, score, res_id)] with a [res_id]: the id is set
    to it, and [kickoff_at] is kept when it is a [datetime] and parsed
    otherwise. *)
Definition FixtureResult_init (group_id home_team_id away_team_id : Z) (matchday : option Z)
    (kickoff_at : kickoff_value) (score : option string) (res_id : Z) : pyres FixtureResult :=
  let! ko := match kickoff_at with
             | KDatetime dt => Ok dt
             | KText k => parse_kickoff k
             end in
  Ok (mk_fixture res_id matchday ko score group_id home_team_id away_team_id).

(** A row of [DB.engine.execute(sql_query)], read by column name. *)
Record query_row := mk_query_row {
  row_id : Z; row_group_id : Z; row_matchday : option Z; row_kickoff_at : kickoff_value;
  row_score : option string; row_home_team_id : Z; row_away_team_id : Z
}.

(** [__parse_query_row(row)]. *)
Definition parse_query_row (d : db) (row : query_row) : pyres fixture_view :=
  let! temp_fixture := FixtureResult_init (row_group_id row) (row_home_team_id row)
                         (row_away_team_id row) (row_matchday row) (row_kickoff_at row)
                         (row_score row) (row_id row) in
  FixtureResult_to_result_dict d temp_fixture.

(** The row the driver returns for a stored fixture: the timestamp column
    comes back as a [datetime]. *)
Definition row_of_fixture (f : FixtureResult) : query_row :=
  mk_query_row (fr_id f) (fr_group_id f) (fr_matchday f) (KDatetime (fr_kickoff_at f)) (fr_score f)
    (fr_home_team_id f) (fr_away_team_id f).

(** ** The statements of a query text *)

(** SQL's reading of a text, on what decides how many statements it
    holds: a quote opens or closes a string literal (a doubled quote
    inside a literal closes and reopens it), and a semicolon outside a
    literal ends a statement.  [Some inq] when no semicolon stands
    outside a literal, [inq] telling whether the text ends inside one;
    [None] otherwise. *)
Fixpoint sql_scan (inq : bool) (l : list ascii) : option bool :=
  match l with
  | [] => Some inq
  | c :: l' =>
      if Ascii.eqb c "'" then sql_scan (negb inq) l'
      else if negb inq && Ascii.eqb c ";" then None else sql_scan inq l'
  end.

(** A text that is one [select] statement, its literals all closed. *)
Definition select_statement (q : string) : bool :=
  String.prefix "select " q &&
  match sql_scan false (list_ascii_of_string q) with Some false => true | _ => false end.

(** A text without a quote character. *)
Definition quote_free (s : string) : bool :=
  negb (existsb (Ascii.eqb "'") (list_ascii_of_string s)).

(** The criteria the query splices in as they are, [team] and [group],
    hold no quote.  The dates need no condition: they are printed back
    by [str]. *)
Definition criteria_quote_free (fd : filters) : bool :=
  match field_get (fl_team fd) with Some t => quote_free t | None => true end &&
  match field_get (fl_group fd) with Some g => quote_free g | None => true end.

Section Execute.
Variable exec : db -> string -> pyres (list query_row) * db.

(** [filter_results(filters_dict)]: the database after the call is the
    one the engine leaves, and the rows are parsed against it. *)
Definition filter_results (filters_dict : option filters) (d : db) : list fixture_view * db :=
  let fd := match filters_dict with Some f => f | None => no_filters end in
  match build_query fd with
  | Raise _ => ([], d)
  | Ok query =>
      let '(rows, d') := exec d query in
      match (let! rows := rows in
             py_foldl (fun res row => let! temp_res := parse_query_row d' row in
                                      Ok (res ++ [temp_res])) [] rows) with
      | Ok res => (res, d')
      | Raise _ => ([], d')
      end
  end.
End Execute.

(** ** Lemmas *)

(** [q] starts with [p]. *)
Definition has_prefix (p q : string) : Prop := exists rest, q = p +++ rest.

Lemma has_prefix_app p q c : has_prefix p q -> has_prefix p (q +++ c).
Proof. intros [rest ->]. exists (rest +++ c). apply string_append_assoc. Qed.

Lemma add_date_prefix p op o q q' :
  has_prefix p q -> add_date op o q = Ok q' -> has_prefix p q'.
Proof.
  intros Hp. unfold add_date. destruct o as [s|]; [|by intros [= <-]].
  destruct (truthy (Some s)); [|by intros [= <-]].
  intros H. py_inv. by apply has_prefix_app.
Qed.

Lemma add_date_falsy op o q : truthy o = false -> add_date op o q = Ok q.
Proof. unfold add_date. destruct o; [by intros ->|done]. Qed.

Lemma add_team_falsy o q : truthy o = false -> add_team o q = q.
Proof. unfold add_team. destruct o; [by intros ->|done]. Qed.

Lemma add_group_falsy o q : truthy o = false -> add_group o q = q.
Proof. unfold add_group. destruct o; [by intros ->|done]. Qed.

Lemma truthy_Some o : truthy o = true -> exists s, o = Some s.
Proof. destruct o; [by eexists|done]. Qed.

Lemma select_where_and c : has_prefix (select_where +++ " and ") (select_where +++ " and " +++ c).
Proof. exists c. by rewrite string_append_assoc. Qed.

Lemma has_prefix_refl p : has_prefix p p.
Proof. exists "". by rewrite string_append_nil_r. Qed.

Lemma add_group_prefix p o q : has_prefix p q -> has_prefix p (add_group o q).
Proof. unfold add_group. destruct o; [destruct (truthy _)|]; auto using has_prefix_app. Qed.

(** A date condition right after [where] starts with [and]. *)
Lemma add_date_where op o q :
  truthy o = true -> add_date op o select_where = Ok q ->
  has_prefix (select_where +++ " and ") q.
Proof.
  intros Ht. destruct (truthy_Some o Ht) as [s ->]. unfold add_date. rewrite Ht.
  intros H. py_inv. unfold date_clause in Ha. py_inv. apply select_where_and.
Qed.

Lemma existsb_truthy_select g t f u :
  existsb truthy [g; t; f; u] = true ->
  (if existsb truthy [g; t; f; u] then select_where else "select * from fixture_results") =
  select_where.
Proof. by intros ->. Qed.

(** A row decoded from a stored fixture parses back to that fixture:
    [__parse_query_row] is [to_result_dict] of the stored row. *)
Lemma parse_query_row_fixture d f :
  parse_query_row d (row_of_fixture f) = FixtureResult_to_result_dict d f.
Proof. by destruct f. Qed.

(** A text [kickoff_at] goes through [strptime]. *)
Lemma parse_query_row_text d row k e :
  row_kickoff_at row = KText (Some k) -> strptime k = Raise e -> parse_query_row d row = Raise e.
Proof. intros Hk He. unfold parse_query_row, FixtureResult_init. rewrite Hk. simpl. by rewrite He. Qed.

(** ** Properties *)

(** With every criterion absent or empty the query is
    [select * from fixture_results]. *)
Lemma build_query_no_criteria fd :
  truthy (field_get (fl_group fd)) = false -> truthy (field_get (fl_team fd)) = false ->
  truthy (field_get (fl_date_from fd)) = false -> truthy (field_get (fl_date_to fd)) = false ->
  build_query fd = Ok "select * from fixture_results".
Proof.
  intros Hg Ht Hf Hu. unfold build_query. cbn [existsb].
  rewrite Hg, Ht, Hf, Hu. simpl.
  rewrite add_team_falsy, add_group_falsy, add_date_falsy by done. simpl.
  by rewrite add_date_falsy.
Qed.

(** *** The statements of the query *)

Lemma sql_scan_app i l1 l2 :
  sql_scan i (l1 ++ l2) = match sql_scan i l1 with Some j => sql_scan j l2 | None => None end.
Proof.
  revert i. induction l1 as [|c l1 IH]; intros i; simpl; [done|].
  destruct (Ascii.eqb c "'"); [done|]. by destruct (negb i && Ascii.eqb c ";").
Qed.

Lemma quote_free_Forall s :
  quote_free s = true <-> Forall (fun c => c <> "'"%char) (list_ascii_of_string s).
Proof.
  unfold quote_free. rewrite negb_true_iff, <- not_true_iff_false, existsb_exists, Forall_forall.
  split.
  - intros H c Hc ->. apply H. exists "'"%char. split; [by apply list_elem_of_In|apply Ascii.eqb_refl].
  - intros H [c [Hc Hq]]. apply Ascii.eqb_eq in Hq as <-.
    apply (H "'"%char); [by apply list_elem_of_In|done].
Qed.

(** Inside a literal, a text without a quote is read through. *)
Lemma sql_scan_quote_free s : quote_free s = true -> sql_scan true (list_ascii_of_string s) = Some true.
Proof.
  intros Hq%quote_free_Forall. induction Hq as [|c l Hc _ IH]; simpl; [done|].
  by rewrite (proj2 (Ascii.eqb_neq c "'") Hc).
Qed.

(** The characters [str] prints a datetime with. *)
Lemma str_datetime_quote_free dt : quote_free (str_datetime dt) = true.
Proof.
  assert (Hn : forall n, Forall (fun c => c <> "'"%char) (list_ascii_of_string (py_str n))).
  { intros n. eapply Forall_impl; [apply py_str_chars|]. intros c [->|[f Hf]] E; [discriminate E|subst c; discriminate Hf]. }
  assert (H2 : forall n, Forall (fun c => c <> "'"%char) (list_ascii_of_string (pad2 n))).
  { intros n. unfold pad2. destruct (n <? 10); simpl; [constructor; [discriminate|]|]; apply Hn. }
  assert (H4 : forall n, Forall (fun c => c <> "'"%char) (list_ascii_of_string (pad4 n))).
  { intros n. unfold pad4. rewrite list_ascii_of_string_app, list_ascii_of_string_of_list_ascii.
    apply Forall_app. split; [|done]. apply Forall_forall. intros c Hc%list_elem_of_In%repeat_spec. by subst c. }
  apply quote_free_Forall. unfold str_datetime.
  repeat (rewrite list_ascii_of_string_app; cbn [list_ascii_of_string]; apply Forall_app; split;
          [auto|constructor; [discriminate|]]).
  auto.
Qed.

(** A text whose literals are all closed. *)
Definition closed_text (q : string) : Prop := sql_scan false (list_ascii_of_string q) = Some false.

(** A literal closed on a text without a quote keeps the literals closed. *)
Lemma closed_literal q pre t :
  closed_text q -> sql_scan false (list_ascii_of_string pre) = Some true -> quote_free t = true ->
  closed_text (q +++ pre +++ t +++ "'").
Proof.
  unfold closed_text. intros Hq Hp Ht.
  rewrite !list_ascii_of_string_app, sql_scan_app, Hq. cbv beta iota.
  rewrite sql_scan_app, Hp. cbv beta iota. by rewrite sql_scan_app, sql_scan_quote_free.
Qed.

Lemma prefix_app p q c : String.prefix p q = true -> String.prefix p (q +++ c) = true.
Proof.
  revert q. induction p as [|x p IH]; intros q H; [by destruct (q +++ c)|].
  destruct q as [|y q]; [done|]. change (String y q +++ c) with (String y (q +++ c)).
  simpl in *. destruct (Ascii.ascii_dec x y); auto.
Qed.

(** The query under construction: a [select], its literals closed. *)
Definition open_select (q : string) : Prop := String.prefix "select " q = true /\ closed_text q.

Lemma open_select_literal q pre t :
  open_select q -> sql_scan false (list_ascii_of_string pre) = Some true -> quote_free t = true ->
  open_select (q +++ pre +++ t +++ "'").
Proof. intros [Hp Hc] Hpre Ht. split; [by apply prefix_app|by apply closed_literal]. Qed.

Lemma add_team_select o q :
  match o with Some t => quote_free t | None => true end = true ->
  open_select q -> open_select (add_team o q).
Proof.
  intros Ho Hq. destruct o as [t|]; [|done]. simpl. destruct (negb _); [|done].
  unfold team_clause. rewrite <- !(string_append_assoc _ _ (t +++ "'")), string_append_assoc.
  by apply open_select_literal.
Qed.

Lemma add_group_select o q :
  match o with Some g => quote_free g | None => true end = true ->
  open_select q -> open_select (add_group o q).
Proof.
  intros Ho Hq. destruct o as [g|]; [|done]. simpl. destruct (negb _); [|done].
  unfold group_clause. rewrite <- !(string_append_assoc _ _ (g +++ "'")), string_append_assoc.
  by apply open_select_literal.
Qed.

Lemma add_date_select op o q q' :
  closed_text op -> open_select q -> add_date op o q = Ok q' -> open_select q'.
Proof.
  intros Hop Hq. destruct o as [s|]; [|by intros [= <-]]. simpl. destruct (negb _); [|by intros [= <-]].
  unfold date_clause. destruct (strptime s) as [dt|]; simpl; [|done]. intros [= <-].
  rewrite <- !(string_append_assoc _ _ (str_datetime dt +++ "'")), string_append_assoc.
  apply open_select_literal; [done| |apply str_datetime_quote_free].
  rewrite !list_ascii_of_string_app, !sql_scan_app. cbn. by rewrite sql_scan_app, Hop.
Qed.

(** The query built from criteria without a quote is one [select]
    statement. *)
Lemma build_query_select_statement fd q :
  criteria_quote_free fd = true -> build_query fd = Ok q -> select_statement q = true.
Proof.
  unfold criteria_quote_free, build_query. intros [Ht Hg]%andb_prop.
  set (q0 := if existsb truthy _ then select_where else _).
  assert (H0 : open_select q0) by (unfold q0; destruct (existsb _ _); split; reflexivity).
  pose proof (add_group_select _ _ Hg (add_team_select _ _ Ht H0)) as H1.
  destruct (add_date ">=" _ _) as [q1|] eqn:E1; simpl; [|done]. intros E2.
  assert (Hge : closed_text ">=") by reflexivity. assert (Hle : closed_text "<=") by reflexivity.
  apply (add_date_select _ _ _ _ Hle (add_date_select _ _ _ _ Hge H1 E1)) in E2 as [Hp Hc].
  unfold select_statement. rewrite Hp. unfold closed_text in Hc. by rewrite Hc.
Qed.

Section ReadOnly.
Variable exec : db -> string -> pyres (list query_row) * db.
(** What the development assumes of the engine: a text that is one
    [select] statement leaves the database as it is. *)
Hypothesis select_read_only : forall d q, select_statement q = true -> (exec d q).2 = d.

(** A filter whose criteria hold no quote leaves the database as it is. *)
Lemma filter_results_read_only fo d :
  criteria_quote_free (default no_filters fo) = true -> (filter_results exec fo d).2 = d.
Proof.
  intros Hq. unfold filter_results. destruct (build_query _) as [q|] eqn:Eq; [|done].
  pose proof (select_read_only d q (build_query_select_statement _ _ Hq Eq)) as Hd.
  destruct (exec d q) as [rows d']. simpl in Hd. subst d'.
  match goal with |- (match ?x with _ => _ end).2 = _ => by destruct x end.
Qed.
End ReadOnly.

(** C29: the shape of the query.  With every criterion absent or empty
    it is [select * from fixture_results], which matches every stored
    result (spec section 4.3).  A [group], [date_from] or [date_to]
    criterion without a [team] criterion gives a query whose [where] is
    followed directly by [and]: the text is not valid SQL, [execute]
    raises, and [filter_results] answers [[]]. *)
Theorem build_query_where_and fd q :
  (truthy (field_get (fl_group fd)) = false -> truthy (field_get (fl_team fd)) = false ->
   truthy (field_get (fl_date_from fd)) = false -> truthy (field_get (fl_date_to fd)) = false ->
   build_query fd = Ok "select * from fixture_results") /\
  (truthy (field_get (fl_team fd)) = false ->
   (truthy (field_get (fl_group fd)) || truthy (field_get (fl_date_from fd)) ||
    truthy (field_get (fl_date_to fd)))%bool = true ->
   build_query fd = Ok q -> has_prefix (select_where +++ " and ") q).
Proof.
  split; [apply build_query_no_criteria|].
  intros Ht Hany. unfold build_query. rewrite existsb_truthy_select
    by (cbn [existsb]; rewrite Ht; destruct (truthy (field_get (fl_group fd))); simpl in *;
        [done|]; by rewrite orb_false_r).
  rewrite add_team_falsy by done. intros H. py_inv.
  destruct (truthy (field_get (fl_group fd))) eqn:Hg.
  - destruct (truthy_Some _ Hg) as [g Eg]. unfold add_group in Ha. rewrite Eg, <- Eg, Hg in Ha.
    eapply add_date_prefix; [|exact H]. eapply add_date_prefix; [|exact Ha].
    exists ("league_groups.id = fixture_results.group_id " +++ "and league_groups.title='" +++
            g +++ "'"). by rewrite string_append_assoc.
  - rewrite add_group_falsy in Ha by done.
    destruct (truthy (field_get (fl_date_from fd))) eqn:Hf.
    + eapply add_date_prefix; [|exact H]. by eapply add_date_where.
    + rewrite add_date_falsy in Ha by done. injection Ha as <-.
      simpl in Hany. by eapply add_date_where.
Qed.

(** C30: the [team] value is spliced into the query as it is, between
    quotes, with no escaping: the query starts with [select_where]
    followed by the team condition holding the value verbatim, so a value
    with a quote changes the [where] clause (spec sections 4.3 and 9). *)
Theorem build_query_team_verbatim fd t q :
  field_get (fl_team fd) = Some t -> truthy (Some t) = true ->
  build_query fd = Ok q -> has_prefix (select_where +++ team_clause t) q.
Proof.
  intros Et Ht. unfold build_query. rewrite existsb_truthy_select
    by (cbn [existsb]; rewrite Et, Ht; apply orb_true_r).
  unfold add_team at 1. rewrite Et, Ht. intros H. py_inv.
  eapply add_date_prefix; [|exact H]. eapply add_date_prefix; [|exact Ha].
  apply add_group_prefix, has_prefix_refl.
Qed.

(** C6: the query against SQL injection.  When the [team] and [group]
    values hold no quote, the text [build_query] builds is one [select]
    statement whose literals are all closed: the engine runs one query.
    The [team] value, though, is read by SQL from inside the literal the
    query opened: after it the text is in whatever state the value leaves
    it, so a value with a quote closes the literal and the rest of the
    value is SQL, a second statement after a semicolon included. *)
Theorem build_query_select fd q :
  (criteria_quote_free fd = true -> build_query fd = Ok q -> select_statement q = true) /\
  (forall t, sql_scan false (list_ascii_of_string (select_where +++ team_clause t)) =
             negb <$> sql_scan true (list_ascii_of_string t)).
Proof.
  split; [apply build_query_select_statement|]. intros t. unfold team_clause.
  rewrite <- !(string_append_assoc _ _ (t +++ "'")), list_ascii_of_string_app, sql_scan_app.
  match goal with |- context [sql_scan false (list_ascii_of_string ?p)] =>
    replace (sql_scan false (list_ascii_of_string p)) with (Some true) by (vm_compute; reflexivity) end.
  rewrite list_ascii_of_string_app, sql_scan_app. by destruct (sql_scan true (list_ascii_of_string t)) as [[]|].
Qed.

Section ExecuteProperties.
Variable exec : db -> string -> pyres (list query_row) * db.

(** C31: a [date_from] value that [strptime] rejects makes
    [filter_results] answer [[]], for every database and engine: the
    [ValueError] is swallowed (the spec asks for a
    [MalformedTimestampError]). *)
Theorem filter_bad_date_empty fd d s e :
  field_get (fl_date_from fd) = Some s -> truthy (Some s) = true -> strptime s = Raise e ->
  filter_results exec (Some fd) d = ([], d).
Proof.
  intros Es Ht Hs. unfold filter_results, build_query.
  unfold add_date at 1. rewrite Es, Ht. unfold date_clause. by rewrite Hs.
Qed.

(** C32: when the engine answers the query with rows, [filter_results]
    is the list of their parsed result dicts, in order, if every row
    parses; if one row fails (a text [kickoff_at] that [strptime]
    rejects, a missing group, league or team), the exception is swallowed
    and the answer is [[]].  Either way the database is the one the
    engine left. *)
Theorem filter_results_rows fd d q rows d' :
  build_query fd = Ok q -> exec d q = (Ok rows, d') ->
  (forall vs, Forall2 (fun r v => parse_query_row d' r = Ok v) rows vs ->
     filter_results exec (Some fd) d = (vs, d')) /\
  (forall r e, r ∈ rows -> parse_query_row d' r = Raise e -> filter_results exec (Some fd) d = ([], d')).
Proof.
  intros Hq He. unfold filter_results. rewrite Hq, He. simpl. split.
  - intros vs Hvs. by rewrite (py_foldl_map_Forall2 _ _ _ [] Hvs).
  - intros r e Hr Hre. by destruct (py_foldl_map_Raise _ _ [] _ _ Hr Hre) as [e' ->].
Qed.
End ExecuteProperties.

(** ** Concrete inputs and witnesses *)

Definition group_only : filters := mk_filters (Val "A") Missing Missing Missing.

(** A team value that closes the quote and adds a condition. *)
Definition injected_team : filters := mk_filters Missing (Val "x' or '1'='1") Missing Missing.

Definition bad_date : filters := mk_filters Missing Missing (Val "13/09/2017") Missing.

(** An engine that answers every query with every stored fixture, in
    scan order. *)
Definition select_all_engine (d : db) (q : string) : pyres (list query_row) * db :=
  (Ok (map row_of_fixture (db_fixtures d)), d).

(** The criteria the repository's test posts. *)
Definition psg_filters : filters :=
  mk_filters (Val "A") (Val "PSG") (Val "2017-09-13T20:45:00") (Val "2017-09-20T20:45:00").

(** A team value that closes the literal and adds a statement. *)
Definition stacked_team : string := "x'; delete from fixture_results; --".

Lemma build_query_select_witness :
  exists q, criteria_quote_free psg_filters = true /\ build_query psg_filters = Ok q /\
    select_statement q = true /\
    sql_scan false (list_ascii_of_string (select_where +++ team_clause stacked_team)) = None.
Proof.
  destruct (build_query psg_filters) as [q|e] eqn:E; pose proof E as E'; vm_compute in E';
    [|discriminate E'].
  assert (Hc : criteria_quote_free psg_filters = true) by reflexivity.
  exists q. split; [exact Hc|]. split; [reflexivity|].
  split; [exact (proj1 (build_query_select psg_filters q) Hc E)|].
  rewrite (proj2 (build_query_select psg_filters q)). vm_compute. reflexivity.
Defined.

Lemma build_query_where_and_witness :
  exists q, build_query group_only = Ok q /\ has_prefix (select_where +++ " and ") q.
Proof.
  destruct (build_query group_only) as [q|e] eqn:E; pose proof E as E'; vm_compute in E';
    [|discriminate E'].
  exists q. split; [reflexivity|]. exact (proj2 (build_query_where_and group_only _) eq_refl eq_refl E).
Defined.

Lemma build_query_team_verbatim_witness :
  exists q, build_query injected_team = Ok q /\
    has_prefix (select_where +++ team_clause "x' or '1'='1") q.
Proof.
  destruct (build_query injected_team) as [q|e] eqn:E; pose proof E as E'; vm_compute in E';
    [|discriminate E'].
  exists q. split; [reflexivity|]. exact (build_query_team_verbatim injected_team _ _ eq_refl eq_refl E).
Defined.

Lemma filter_bad_date_empty_witness :
  strptime "13/09/2017" = Raise ValueError /\
  filter_results select_all_engine (Some bad_date) spec_scenario_db = ([], spec_scenario_db).
Proof.
  assert (E : strptime "13/09/2017" = Raise ValueError) by (vm_compute; reflexivity).
  split; [exact E|]. exact (filter_bad_date_empty select_all_engine bad_date _ _ _ eq_refl eq_refl E).
Defined.

Lemma filter_results_rows_witness :
  exists q, build_query injected_team = Ok q /\
  (forall vs, Forall2 (fun r v => parse_query_row spec_scenario_db r = Ok v)
                (map row_of_fixture (db_fixtures spec_scenario_db)) vs ->
     filter_results select_all_engine (Some injected_team) spec_scenario_db = (vs, spec_scenario_db)) /\
  (forall r e, r ∈ map row_of_fixture (db_fixtures spec_scenario_db) ->
     parse_query_row spec_scenario_db r = Raise e ->
     filter_results select_all_engine (Some injected_team) spec_scenario_db = ([], spec_scenario_db)).
Proof.
  destruct (build_query injected_team) as [q|e] eqn:E; pose proof E as E'; vm_compute in E';
    [|discriminate E'].
  exists q. split; [reflexivity|]. exact (filter_results_rows select_all_engine _ _ _ _ _ E eq_refl).
Defined.

End Filter.
