(* ===== verification/Routes.v ===== *)
(** * Routes: the HTTP endpoints of routes.py and the decorator of wrappers.py

    Each endpoint reads [request.json] through [get_data], calls one
    method of [ChampionshipDataUtil] and maps its outcome to a response:
    the value itself ([dumps(...)]), [{'message': 'Bad JSON.'}, 400] for a
    [TypeError], [{'message': 'Error occured.'}] (status 200) for any other
    exception ([respond]).  [get_tables] is wrapped by [verify_mode], which
    answers 404 for a mode other than [all] and [specific].

    [request.json] is [None] (no JSON body), a JSON string (the tests post
    [dumps(...)] as the JSON body, so [request.json] is a string), or another
    JSON value ([request_json]).  [get_data] tries [json.loads] on it:
    [loads(None)] and [loads] of a dict or list raise [TypeError], and
    [loads] of a text that is not JSON raises [JSONDecodeError]; both are
    caught and [request.json] itself is used.  [json.loads] is library
    code: it is the class [JsonLoads], a decoder from text to the values
    the endpoint's method works on ([pydata]); JSON values outside the
    types of the model are not modelled.

    The service is the step relation [serve] over the database, one
    request at a time ([service_step]).  A filter request runs the
    engine on a text holding the client's values and can write; it is
    safe ([safe_request]) when its team and group values hold no quote,
    and then its text is one [select] statement (Filter.v).  [safe_step]
    and [safe_reachable] follow safe requests.  Given that the engine
    writes nothing on one [select] statement, a property that every
    publish (which only appends rows) and every score write keeps holds
    along every path of safe requests ([safe_rtc_ind]): the invariant
    [db_inv], and [poisoned], a group holding a fixture whose matchday is
    null, whose table is then never computed again. *)

From Stdlib Require Import String.
From S2P Require Import Prelude PyStr Timestamp Entities Standings Store Workflows Filter.
Import Timestamp Entities Standings Store Workflows Filter.

Module Routes.

(** [request.json]. *)
Inductive request_json (A : Type) :=
| ReqNone
| ReqText (s : string)
| ReqValue (a : A).
Arguments ReqNone {A}.
Arguments ReqText {A} s.
Arguments ReqValue {A} a.

(** The Python value [get_data] returns: [None], a string, or a value of
    the type the endpoint's method reads. *)
Inductive pydata (A : Type) :=
| DNone
| DText (s : string)
| DValue (a : A).
Arguments DNone {A}.
Arguments DText {A} s.
Arguments DValue {A} a.

(** [json.loads] on a text: [None] when it raises [JSONDecodeError]. *)
Class JsonLoads (A : Type) := json_loads : string -> option (pydata A).

(** [get_data()]. *)
Definition get_data {A} `{JsonLoads A} (r : request_json A) : pydata A :=
  match r with
  | ReqNone => DNone
  | ReqText s => match json_loads s with Some v => v | None => DText s end
  | ReqValue a => DValue a
  end.

(** What an endpoint answers. *)
Inductive response (A : Type) :=
| Aborted (code : Z)                  (** [abort(code)] *)
| Body (a : A)                        (** [dumps(a)], status 200 *)
| Message (msg : string) (code : Z)   (** [{'message': msg}, code] *)
| ServerError.                        (** an uncaught exception: status 500 *)
Arguments Aborted {A} code.
Arguments Body {A} a.
Arguments Message {A} msg code.
Arguments ServerError {A}.

(** [try: ... except TypeError: ... except: ...] of every endpoint. *)
Definition respond {A} (r : pyres A) : response A :=
  match r with
  | Ok a => Body a
  | Raise TypeError => Message "Bad JSON." 400
  | Raise _ => Message "Error occured." 200
  end.

(** ** [verify_mode] *)

(** [**kwargs]: an insertion-ordered dict of string values. *)
Definition kwargs := list (string * string).

Definition kw_get (k : string) (kw : kwargs) : option string :=
  snd <$> List.find (fun p => String.eqb p.1 k) kw.

(** [kwargs[k] = v]. *)
Definition kw_set (k v : string) (kw : kwargs) : kwargs :=
  if existsb (fun p => String.eqb p.1 k) kw
  then map (fun p => if String.eqb p.1 k then (k, v) else p) kw
  else kw ++ [(k, v)].

(** [kwargs.pop(k, None)]. *)
Definition kw_pop (k : string) (kw : kwargs) : kwargs :=
  filter (fun p => negb (String.eqb p.1 k)) kw.

(** [extract_param_from_kwargs(kwargs)]: the loop reads
    [kwargs['param_name']] at each key, and the error message reads it
    again, so a missing [param_name] raises [KeyError]. *)
Definition extract_param_from_kwargs (kw : option kwargs) : pyres string :=
  match kw with
  | None => Raise ValueError
  | Some kw =>
      let! val := py_foldl (fun val key =>
                              let! pn := py_of_option KeyError (kw_get "param_name" kw) in
                              Ok (if String.eqb key pn then kw_get key kw else val))
                           None (map fst kw) in
      match val with
      | Some v => Ok v
      | None => let! _ := py_of_option KeyError (kw_get "param_name" kw) in Raise ValueError
      end
  end.

(** [verify_mode(funct)] applied to the keyword arguments of the URL. *)
Definition verify_mode {A} (funct : kwargs -> response A) (kw : kwargs) : response A :=
  let kw := kw_set "param_name" "mode" kw in
  match extract_param_from_kwargs (Some kw) with
  | Raise _ => ServerError
  | Ok mode =>
      let kw := kw_pop "param_name" kw in
      if (String.eqb mode "all" || String.eqb mode "specific")%bool then funct kw
      else Aborted 404
  end.

(** ** The endpoints *)

Section Endpoints.
Context `{PySetOrder}.
Context `{JsonLoads (json_arg submission)} `{JsonLoads (list target_group)}
        `{JsonLoads filters} `{JsonLoads (json_arg update_req)}.
Variable exec : db -> string -> pyres (list query_row) * db.

(** [handle_fixture_results(data)]: [None] or a string is wrapped in a
    list, and its [.get] raises [AttributeError]. *)
Definition publish_data (data : pydata (json_arg submission)) (d : db) : pyres tables_out * db :=
  match data with
  | DValue a => handle_fixture_results a d
  | DNone | DText _ => (Raise AttributeError, d)
  end.

(** [publish_fixture_result()]. *)
Definition publish_fixture_result (r : request_json (json_arg submission)) (d : db)
    : response tables_out * db :=
  match r with
  | ReqNone => (Aborted 400, d)
  | _ => let '(res, d') := publish_data (get_data r) d in (respond res, d')
  end.

(** [get_tabels_for_groups(data)]: [None] means every group; iterating
    a string gives its characters, and [c['leagueName']] raises
    [TypeError]. *)
Definition tables_data (data : pydata (list target_group)) (d : db) : pyres tables_out :=
  match data with
  | DNone => get_tabels_for_groups None d
  | DValue ts => get_tabels_for_groups (Some ts) d
  | DText EmptyString => get_tabels_for_groups (Some []) d
  | DText (String _ _) => Raise TypeError
  end.

(** [get_tables(mode)]. *)
Definition get_tables (mode : string) (r : request_json (list target_group)) (d : db)
    : response tables_out :=
  let data := if String.eqb mode "specific" then get_data r else DNone in
  respond (tables_data data d).

(** The route [/api/table/<mode>]: Flask passes [mode=...] to the
    decorated function. *)
Definition get_tables_route (mode : string) (r : request_json (list target_group)) (d : db)
    : response tables_out :=
  verify_mode (fun kw => match kw_get "mode" kw with
                         | Some m => get_tables m r d
                         | None => ServerError
                         end) [("mode", mode)].

(** [filter_results()]: a string has no [.get], and the
    [AttributeError] is caught inside [filter_results] before any query
    runs.  The database is the one the engine leaves. *)
Definition filter_route (r : request_json filters) (d : db) : response (list fixture_view) * db :=
  match get_data r with
  | DNone => let '(res, d') := filter_results exec None d in (respond (Ok res), d')
  | DValue f => let '(res, d') := filter_results exec (Some f) d in (respond (Ok res), d')
  | DText _ => (respond (Ok []), d)
  end.

(** [update_fixture_results(data)]: [None] or a string is wrapped in a
    list, and its [.get('id')] raises [AttributeError]. *)
Definition update_data (data : pydata (json_arg update_req)) (d : db) : pyres unit * db :=
  match data with
  | DValue a => (Ok tt, update_fixture_results a d)
  | DNone | DText _ => (Raise AttributeError, d)
  end.

(** [update_result()]. *)
Definition update_result (r : request_json (json_arg update_req)) (d : db) : response unit * db :=
  let '(res, d') := update_data (get_data r) d in
  (match res with Ok _ => Message "Success." 200 | Raise e => respond (Raise e) end, d').

(** ** The service *)

(** A request to one of the four endpoints. *)
Inductive request :=
| RPublish (r : request_json (json_arg submission))
| RTables (mode : string) (r : request_json (list target_group))
| RFilter (r : request_json filters)
| RUpdate (r : request_json (json_arg update_req)).

(** The database after serving one request. *)
Definition serve (q : request) (d : db) : db :=
  match q with
  | RPublish r => (publish_fixture_result r d).2
  | RTables _ _ => d
  | RFilter r => (filter_route r d).2
  | RUpdate r => (update_result r d).2
  end.

(** A filter request whose criteria, once decoded, splice no quote into
    the query; the other requests run no text of the client's. *)
Definition safe_request (q : request) : bool :=
  match q with
  | RFilter r => match get_data r with DValue f => criteria_quote_free f | _ => true end
  | _ => true
  end.

(** One request served: the step relation of the service. *)
Definition service_step (d d' : db) : Prop := exists q, d' = serve q d.

(** One safe request served. *)
Definition safe_step (d d' : db) : Prop := exists q, safe_request q = true /\ d' = serve q d.

(** The databases a sequence of safe requests reaches from the empty
    one. *)
Inductive safe_reachable : db -> Prop :=
| reach_empty : safe_reachable empty_db
| reach_serve q d : safe_request q = true -> safe_reachable d -> safe_reachable (serve q d).
End Endpoints.

(** Group [g] exists and holds a fixture whose matchday is null. *)
Definition poisoned (g : Z) (d : db) : Prop :=
  (exists f, f ∈ db_fixtures d /\ fr_group_id f = g /\ fr_matchday f = None) /\
  (exists grp, grp ∈ db_groups d /\ lgroup_id grp = g).

(** ** Lemmas *)

Lemma table_wf_map {R K} (key : R -> K) (rid : R -> Z) (h : R -> R) rows next :
  (forall r, key (h r) = key r) -> (forall r, rid (h r) = rid r) ->
  table_wf key rid rows next -> table_wf key rid (map h rows) next.
Proof.
  intros Hk Hi (Hnk & Hni & Hb & Hn). unfold table_wf. rewrite !map_map.
  rewrite (map_ext _ _ Hk), (map_ext _ _ Hi).
  repeat split; [done|done| |done].
  apply Forall_map. eapply Forall_impl; [exact Hb|]. intros r. by rewrite Hi.
Qed.

(** Writing a score keeps the invariant: ids do not change. *)
Lemma set_score_inv i sc d : db_inv d -> db_inv (set_score i sc d).
Proof.
  intros [Hw Hf]. split; [exact Hw|]. unfold fixtures_wf. simpl.
  apply table_wf_map; [| |exact Hf]; intros f; by case_bool_decide.
Qed.

(** A property that every score write keeps holds after any update
    batch. *)
Lemma update_fixture_results_ind (P : db -> Prop) a d :
  (forall i sc d, P d -> P (set_score i sc d)) -> P d -> P (update_fixture_results a d).
Proof.
  intros Hs. unfold update_fixture_results. generalize (as_list a). intros l. revert d.
  induction l as [|u l IH]; intros d Hd; simpl; [done|]. apply IH.
  unfold update_fixture_result. repeat case_match; simpl; auto.
Qed.

(** A batch whose every item fails leaves the database as it was. *)
Lemma update_all_fail d l :
  (forall u, u ∈ l -> update_fails d u) -> foldl update_step d l = d.
Proof.
  induction l as [|u l IH]; intros Hf; simpl; [done|].
  rewrite update_step_fails by (apply Hf; set_solver). apply IH. set_solver.
Qed.

Lemma handle_fixture_results_db `{PySetOrder} a d :
  (handle_fixture_results a d).2 = (ingest_loop (as_list a) d).2.
Proof.
  unfold handle_fixture_results. destruct (ingest_loop (as_list a) d). reflexivity.
Qed.

(** A publish only appends rows, and keeps the invariant. *)
Lemma publish_data_grows `{PySetOrder} data d : grows d (publish_data data d).2.
Proof.
  destruct data as [| |a]; [done|done|]. simpl.
  rewrite handle_fixture_results_db. unfold ingest_loop.
  destruct (foldl ingest_step ([], d) _) as [gids d1] eqn:F.
  by apply ingest_foldl_spec in F as [G _].
Qed.

Lemma publish_grows `{PySetOrder} `{JsonLoads (json_arg submission)} r d :
  grows d (publish_fixture_result r d).2.
Proof.
  unfold publish_fixture_result. pose proof (publish_data_grows (get_data r) d) as Hp.
  destruct r; [done| |]; destruct (publish_data _ d); exact Hp.
Qed.

Lemma publish_inv `{PySetOrder} `{JsonLoads (json_arg submission)} r d :
  db_inv d -> db_inv (publish_fixture_result r d).2.
Proof. apply publish_grows. Qed.

Lemma update_result_ind `{JsonLoads (json_arg update_req)} (P : db -> Prop) r d :
  (forall i sc d, P d -> P (set_score i sc d)) -> P d -> P (update_result r d).2.
Proof.
  intros Hs Hd. unfold update_result.
  destruct (update_data (get_data r) d) as [res d'] eqn:E. simpl.
  unfold update_data in E. destruct (get_data r); injection E as _ <-;
    [done|done|by apply update_fixture_results_ind].
Qed.

Lemma update_inv `{JsonLoads (json_arg update_req)} r d :
  db_inv d -> db_inv (update_result r d).2.
Proof. apply update_result_ind, set_score_inv. Qed.

Section SafeService.
Context `{PySetOrder}.
Context `{JsonLoads (json_arg submission)} `{JsonLoads (list target_group)}
        `{JsonLoads filters} `{JsonLoads (json_arg update_req)}.
Variable exec : db -> string -> pyres (list query_row) * db.
Hypothesis select_read_only : forall d q, select_statement q = true -> (exec d q).2 = d.

(** A filter request whose criteria hold no quote leaves the database as
    it is. *)
Lemma serve_safe_filter r d : safe_request (RFilter r) = true -> serve exec (RFilter r) d = d.
Proof.
  unfold safe_request, serve, filter_route. intros Hs.
  pose proof (filter_results_read_only exec select_read_only None d eq_refl) as HN.
  destruct (get_data r) as [| |f]; [|done|].
  - by destruct (filter_results exec None d).
  - pose proof (filter_results_read_only exec select_read_only (Some f) d Hs) as HS.
    by destruct (filter_results exec (Some f) d).
Qed.

(** A property that every publish and every score write keeps holds of
    every database a path of safe requests reaches. *)
Lemma safe_rtc_ind (P : db -> Prop) d d' :
  (forall d d', grows d d' -> P d -> P d') -> (forall i sc d, P d -> P (set_score i sc d)) ->
  rtc (safe_step exec) d d' -> P d -> P d'.
Proof.
  intros Hg Hs. induction 1 as [|d1 d2 d3 (q & Hq & ->) _ IH]; [done|]. intros Hd. apply IH.
  destruct q as [r|m r|r|r]; [unfold serve|exact Hd|by rewrite serve_safe_filter|].
  - eapply Hg; [apply publish_grows|exact Hd].
  - unfold serve. by apply update_result_ind.
Qed.

Lemma safe_reachable_rtc d : safe_reachable exec d -> rtc (safe_step exec) empty_db d.
Proof.
  induction 1 as [|q d Hq _ IH]; [done|].
  eapply rtc_r; [exact IH|]. by exists q.
Qed.
End SafeService.

Lemma poisoned_grows g d d' : grows d d' -> poisoned g d -> poisoned g d'.
Proof.
  intros [(_ & Hg & _ & Hf) _] [(f & ? & ? & ?) (grp & ? & ?)].
  split; [exists f | exists grp]; eauto using elem_of_prefix.
Qed.

(** A score write keeps the group and the matchday of every row. *)
Lemma poisoned_set_score g i sc d : poisoned g d -> poisoned g (set_score i sc d).
Proof.
  intros [(f & Hf & Hg & Hm) Hgr]. split; [|exact Hgr].
  set (h f := if bool_decide (fr_id f = i) then with_score sc f else f).
  exists (h f). split; [by apply (list_elem_of_fmap_2 h)|]. unfold h. by case_bool_decide.
Qed.

(** The table of a poisoned group is never computed: [None > 0] raises. *)
Lemma poisoned_no_table `{PySetOrder} g d : poisoned g d -> forall t, gen_standing_table d g <> Ok t.
Proof.
  intros [(f & Hf & <- & Hm) _] t Ht.
  apply gen_standing_table_Ok in Ht as (sd & m & sd' & grp & lg & _ & Hp & _).
  destruct (populate_scores _ _ _ _ Hp f) as [[md Hmd] _]; [|congruence].
  by apply list_elem_of_filter.
Qed.

(** Nor are the tables of all groups. *)
Lemma poisoned_no_tables_all `{PySetOrder} g d :
  poisoned g d -> forall ts, get_tabels_for_groups None d <> Ok ts.
Proof.
  intros Hp ts Hts. pose proof Hp as [_ (grp & Hgrp & Hg)]. unfold get_tabels_for_groups in Hts.
  simpl in Hts. destruct (gen_tables d (map lgroup_id (db_groups d))) as [tabels|e] eqn:E;
    simpl in Hts; [|discriminate Hts].
  apply gen_tables_Ok in E.
  assert (Hin : g ∈ map lgroup_id (db_groups d)) by (subst g; by apply list_elem_of_fmap_2).
  destruct (Forall2_elem_l _ _ _ _ E Hin) as (t & Ht).
  exact (poisoned_no_table g d Hp t Ht).
Qed.



(** ** Properties *)

Section RouteProperties.
Context `{PySetOrder}.
Context `{JsonLoads (json_arg submission)} `{JsonLoads (list target_group)}
        `{JsonLoads filters} `{JsonLoads (json_arg update_req)}.
Variable exec : db -> string -> pyres (list query_row) * db.
Hypothesis select_read_only : forall d q, select_statement q = true -> (exec d q).2 = d.

(** C36: the update endpoint answers [{'message': 'Success.'}] for every
    batch it can read, even when no item of it finds its fixture or has a
    score, and then nothing changes: the per-item results are dropped
    (the spec asks for a [NotFoundError] and a per-item report). *)
Theorem update_result_reports_success a d :
  (forall u, u ∈ as_list a -> update_fails d u) ->
  update_result (ReqValue a) d = (Message "Success." 200, d).
Proof.
  intros Hf. unfold update_result. simpl. unfold update_fixture_results.
  change (foldl (fun d result => (update_fixture_result (field_get (upd_id result)) result d).2))
    with (foldl update_step). by rewrite update_all_fail.
Qed.

(** C37: [verify_mode] lets [get_tables] run only for the modes [all] and
    [specific]: any other mode answers 404, and [all] answers the tables
    of every group, or the message of the exception that stopped them.
    [specific] without a JSON body answers the same as [all]: [get_data]
    returns [None], which [get_tabels_for_groups] reads as no target. *)
Theorem get_tables_route_mode m r d :
  (m <> "all" -> m <> "specific" -> get_tables_route m r d = Aborted 404) /\
  get_tables_route "all" r d = respond (get_tabels_for_groups None d) /\
  get_tables_route "specific" ReqNone d = get_tables_route "all" r d.
Proof.
  split; [|split; reflexivity]. intros Ha Hs. unfold get_tables_route, verify_mode. simpl.
  apply String.eqb_neq in Ha, Hs. by rewrite Ha, Hs.
Qed.

(** C11: a fixture with a null matchday poisons its group for good:
    from a database where the group exists and holds one, no sequence of
    requests to the four endpoints whose filter criteria splice no quote
    (a path of [safe_step]s) reaches a database where the group's table
    is computed, and [GET /api/table/all] never again answers with
    tables.  Publishing only appends rows, an update only writes scores,
    and such a filter runs one [select] statement, which the engine is
    assumed not to write with; so the row stays.  (A filter that splices
    a quote can run a second statement, C6, and is outside the claim.) *)
Theorem null_matchday_never_recovers d d' f grp :
  f ∈ db_fixtures d -> fr_matchday f = None ->
  grp ∈ db_groups d -> lgroup_id grp = fr_group_id f ->
  rtc (safe_step exec) d d' ->
  (forall t, gen_standing_table d' (fr_group_id f) <> Ok t) /\
  (forall r ts, get_tables_route "all" r d' <> Body ts).
Proof.
  intros Hf Hm Hg Hid Hr.
  assert (Hp : poisoned (fr_group_id f) d').
  { eapply safe_rtc_ind; [exact select_read_only|apply poisoned_grows|apply poisoned_set_score|exact Hr|].
    split; [by exists f|by exists grp]. }
  split; [by apply poisoned_no_table|]. intros r ts.
  change (get_tables_route "all" r d') with (respond (get_tabels_for_groups None d')).
  destruct (get_tabels_for_groups None d') as [tabels|[]] eqn:E; try discriminate.
  by eapply poisoned_no_tables_all in E.
Qed.

(** C40: every database the service reaches from the empty one, by any
    sequence of requests to the four endpoints whose filter criteria
    splice no quote, satisfies the invariant: natural keys unique, and
    league, group, team and fixture ids distinct and below their
    sequences.  The engine is assumed to leave the database as it is on
    a text that is one [select] statement. *)
Theorem reachable_db_inv d : safe_reachable exec d -> db_inv d.
Proof.
  intros Hr. eapply safe_rtc_ind; [exact select_read_only| |apply set_score_inv|
    exact (safe_reachable_rtc exec _ Hr)|exact db_inv_empty].
  intros d1 d2 [_ W]. exact W.
Qed.
End RouteProperties.

(** The first result of the spec's scenario posted with [matchday: null]. *)
Definition null_matchday_submission : submission :=
  mk_submission (Val "A") (Val "B") (Val "Champions League") (Val "A") Null
    (Val "2017-09-13T20:45:00") (Val "3:1").

(** ** Witnesses *)

(** A decoder for the concrete requests below, which carry no text. *)
#[local] Instance loads_reject {A} : JsonLoads A := fun _ => None.

Lemma update_result_reports_success_witness :
  (forall u, u ∈ as_list (JOne (mk_update (Val 9) (Val "1:0"))) -> update_fails spec_scenario_db u) /\
  update_result (ReqValue (JOne (mk_update (Val 9) (Val "1:0")))) spec_scenario_db =
    (Message "Success." 200, spec_scenario_db).
Proof.
  assert (Hf : forall u, u ∈ as_list (JOne (mk_update (Val 9) (Val "1:0"))) ->
                 update_fails spec_scenario_db u).
  { intros u Hu. apply list_elem_of_singleton in Hu as ->. left. intros i [= <-]. reflexivity. }
  split; [exact Hf|]. exact (update_result_reports_success _ _ Hf).
Defined.

Lemma get_tables_route_mode_witness :
  "none" <> "all" /\ "none" <> "specific" /\ get_tables_route "none" ReqNone empty_db = Aborted 404.
Proof.
  assert (Ha : "none" <> "all") by discriminate.
  assert (Hs : "none" <> "specific") by discriminate.
  split; [exact Ha|]. split; [exact Hs|].
  exact (proj1 (get_tables_route_mode "none" ReqNone empty_db) Ha Hs).
Defined.

(** The engine of the witnesses reads and never writes. *)
Lemma select_all_read_only d q : select_statement q = true -> (select_all_engine d q).2 = d.
Proof. reflexivity. Qed.

(** A publish, then the filter the repository's test posts. *)
Definition publish_then_filter : db :=
  serve select_all_engine (RFilter (ReqValue psg_filters))
    (serve select_all_engine (RPublish (ReqValue (JOne sample_submission))) empty_db).

Lemma reachable_db_inv_witness :
  (forall d q, select_statement q = true -> (select_all_engine d q).2 = d) /\
  safe_reachable select_all_engine publish_then_filter /\ db_inv publish_then_filter.
Proof.
  assert (R : safe_reachable select_all_engine publish_then_filter)
    by (apply reach_serve; [reflexivity|apply reach_serve; [reflexivity|apply reach_empty]]).
  split; [exact select_all_read_only|]. split; [exact R|].
  exact (reachable_db_inv select_all_engine select_all_read_only _ R).
Defined.

(** The database after the null-matchday publish. *)
Definition null_matchday_db : db :=
  (publish_fixture_result (ReqValue (JOne null_matchday_submission)) empty_db).2.

(** The fixture with the null matchday it holds, and its group. *)
Definition null_fixture : FixtureResult := mk_fixture 1 None sample_kickoff (Some "3:1") 1 1 2.
Definition group_A : LeagueGroup := mk_group 1 (Some "A") 1.


Lemma null_matchday_never_recovers_witness :
  let q := RPublish (ReqValue (JOne sample_submission)) in
  null_fixture ∈ db_fixtures null_matchday_db /\ fr_matchday null_fixture = None /\
  group_A ∈ db_groups null_matchday_db /\ lgroup_id group_A = fr_group_id null_fixture /\
  rtc (safe_step select_all_engine) null_matchday_db (serve select_all_engine q null_matchday_db) /\
  (forall t, gen_standing_table (serve select_all_engine q null_matchday_db) (fr_group_id null_fixture) <> Ok t).
Proof.
  intros q.
  assert (Hf : null_fixture ∈ db_fixtures null_matchday_db) by (vm_compute; left).
  assert (Hg : group_A ∈ db_groups null_matchday_db) by (vm_compute; left).
  assert (Hr : rtc (safe_step select_all_engine) null_matchday_db (serve select_all_engine q null_matchday_db))
    by (apply rtc_once; by exists q).
  do 5 (split; [assumption || reflexivity|]).
  exact (proj1 (null_matchday_never_recovers select_all_engine select_all_read_only
                  _ _ null_fixture group_A Hf eq_refl Hg eq_refl Hr)).
Defined.


End Routes.
