(* ===== verification/NetworkTests.v ===== *)
(** * NetworkTests: the tests of tests.py

    [TestApiMethods.generate_new_score(old_score)] draws a home and an
    away score with [random.randint(0, 5)], writes them as
    [str(h) + ':' + str(a)], and draws again while the text equals
    [old_score].  The random source is a function [draws] from the round
    number to the pair drawn in that round; the loop is [redraw], with a
    fuel bounding the number of further rounds, [None] when it runs out.
    The theorems show that the loop stops at the first round whose text
    differs from [old_score] (so it returns whenever such a round exists,
    given that many rounds of fuel), and that of the 36 pairs a round can
    draw at most one repeats [old_score]: each round leaves the loop with
    probability at least 35/36.

    [test_update_result] is the sequence of requests the test sends to
    the service of Routes.v (publish, filter, update, filter) and the
    check it makes on the last answer.  The HTTP transport and the JSON
    texts are not modelled: the requests are the decoded dicts, and the
    database engine is a section variable assumed to answer
    [select * from fixture_results] with every stored fixture, leaving
    the database as it is.  [publish()] decodes the publish answer with
    [loads], which raises on an HTML page (an [abort] or an uncaught
    exception): every test stops there with that exception.
    [test_publish], [test_get_tabels] and [test_filter_results] are
    modelled the same way, with the decoding of their answer by [loads]:
    their checks ([not res], [res == 'Error occured.']) are shown never to
    fail. *)

From Stdlib Require Import Ascii String.
From stdpp Require Import list.
From S2P Require Import Prelude PyStr Timestamp Entities Standings Store Workflows Filter Routes.
Import PyStr Entities Standings Workflows Filter Routes.

Module NetworkTests.

(** The pairs drawn by [random.randint(0, 5)], round by round. *)
Definition draw_source := nat -> Z * Z.

(** [str(new_home_score) + ':' + str(new_away_score)] of round [k]. *)
Definition draw_score (draws : draw_source) (k : nat) : string :=
  format_score (draws k).1 (draws k).2.

(** [while new_score == old_score: ...]: round [k] is the next one to
    draw; at most [fuel] further rounds. *)
Fixpoint redraw (fuel : nat) (draws : draw_source) (k : nat) (old_score : option string)
    (new_score : string) : option string :=
  if bool_decide (Some new_score = old_score) then
    match fuel with
    | O => None
    | S fuel' => redraw fuel' draws (S k) old_score (draw_score draws k)
    end
  else Some new_score.

(** [generate_new_score(old_score)]: one draw, then the loop. *)
Definition generate_new_score (fuel : nat) (draws : draw_source) (old_score : option string)
    : option string :=
  redraw fuel draws 1 old_score (draw_score draws 0).

(** Every pair [randint(0, 5)] twice can give. *)
Definition all_draws : list (Z * Z) :=
  list_prod (seqZ 0 6) (seqZ 0 6).

(** The pairs of a round that keep the loop going. *)
Definition repeating_draws (old_score : option string) : list (Z * Z) :=
  filter (fun p => Some (format_score p.1 p.2) = old_score) all_draws.

(** ** [publish()] *)

Section Publish.
Context `{PySetOrder} `{JsonLoads (json_arg submission)}.

(** [publish()]: the contents of [files/input.json], the request
    [input], posted to the publish endpoint, and [loads(res.text)] of the
    answer.  An [abort] or an uncaught exception answers an HTML page, on
    which [loads] raises: [None].  Otherwise the answer, a JSON text that
    [loads] decodes, and the database. *)
Definition publish (input : request_json (json_arg submission)) (d : db) : option (response tables_out * db) :=
  let '(r, d') := publish_fixture_result input d in
  match r with
  | Aborted _ | ServerError => None
  | Body _ | Message _ _ => Some (r, d')
  end.
End Publish.

(** ** [test_update_result] *)

Section UpdateTest.
Context `{PySetOrder} `{JsonLoads (json_arg submission)} `{JsonLoads filters}
        `{JsonLoads (json_arg update_req)}.
Variable exec : db -> string -> pyres (list query_row) * db.

(** [test_update_result] from the database [d]: [publish()] of the
    request [input], then the filter with [{}], [res[0]], [generate_new_score(res[0]['score'])],
    the update, the second filter and its loop over the results.  The
    bodies go through [dumps] and [loads], which give back the same dicts:
    the requests are the decoded values.  The answer of the update is
    compared with the text ['Error occured.'], but it is a dict, so the
    comparison is always false and the answer plays no part.  [Some true]
    when the test passes, [Some false] when it fails, [None] when it stops
    with an exception ([loads] of an HTML answer, [res[0]] of an empty
    list or of a message dict) or the loop runs out of fuel. *)
Definition test_update_result (fuel : nat) (draws : draw_source)
    (input : request_json (json_arg submission)) (d : db) : option bool :=
  match publish input d with
  | None => None
  | Some (_, d) =>
      match filter_route exec (ReqValue no_filters) d with
      | (Body (target :: _), d) =>
          match generate_new_score fuel draws (fv_score target) with
          | None => None
          | Some new_score =>
              let data := mk_update (Val (fv_id target)) (Val new_score) in
              let d' := (update_result (ReqValue (JOne data)) d).2 in
              match (filter_route exec (ReqValue no_filters) d').1 with
              | Body res =>
                  Some (existsb (fun result => bool_decide (fv_id result = fv_id target /\
                                                            fv_score result = Some new_score)) res)
              | _ => None
              end
          end
      | _ => None
      end
  end.
End UpdateTest.

(** ** The other three tests *)

(** [loads(res.text) == 'Error occured.']: every body the service
    answers is a dumped list or dict (a table, a list of tables or of
    results, or a message dict), never a string, so the comparison is
    false; an [abort] or an uncaught exception answers an HTML page, on
    which [loads] raises ([None]). *)
Definition answer_is_error_text {A} (r : response A) : option bool :=
  match r with
  | Aborted _ | ServerError => None
  | Body _ | Message _ _ => Some false
  end.

(** [not loads(res.text)] for a publish answer: an empty list is false, a
    dict (a table or a message) is true. *)
Definition answer_is_falsy (r : response tables_out) : option bool :=
  match r with
  | Aborted _ | ServerError => None
  | Body (OneTable _) | Message _ _ => Some false
  | Body (TableList ts) => Some (bool_decide (ts = []))
  end.

(** The criteria [test_filter_results] posts. *)
Definition test_filters : filters :=
  mk_filters (Val "A") (Val "PSG") (Val "2017-09-13T20:45:00") (Val "2017-09-20T20:45:00").

Section OtherTests.
Context `{PySetOrder} `{JsonLoads (json_arg submission)} `{JsonLoads (list target_group)}
        `{JsonLoads filters}.
Variable exec : db -> string -> pyres (list query_row) * db.


(** [test_publish]: [Some true] when it passes, [Some false] when
    [self.fail] runs, [None] when it stops with an exception. *)
Definition test_publish (input : request_json (json_arg submission)) (d : db) : option bool :=
  match publish input d with
  | None => None
  | Some (r, _) => negb <$> answer_is_falsy r
  end.

(** [test_get_tabels]: [publish()], then [GET /api/table/all] with no
    JSON body. *)
Definition test_get_tabels (input : request_json (json_arg submission)) (d : db) : option bool :=
  match publish input d with
  | None => None
  | Some (_, d) => negb <$> answer_is_error_text (get_tables_route "all" ReqNone d)
  end.

(** [test_filter_results]: [publish()], then the filter with
    [test_filters]. *)
Definition test_filter_results (input : request_json (json_arg submission)) (d : db) : option bool :=
  match publish input d with
  | None => None
  | Some (_, d) => negb <$> answer_is_error_text (filter_route exec (ReqValue test_filters) d).1
  end.
End OtherTests.

(** ** Lemmas *)

Lemma redraw_unfold fuel draws k old new_score :
  redraw fuel draws k old new_score =
  if bool_decide (Some new_score = old) then
    match fuel with O => None | S fuel' => redraw fuel' draws (S k) old (draw_score draws k) end
  else Some new_score.
Proof. by destruct fuel. Qed.

(** The loop from round [k] with [new_score] the text of round [k - 1]:
    it returns the text of the first round [j >= k - 1] that differs from
    [old_score], provided one exists within the fuel. *)
Lemma redraw_first draws old fuel k n :
  Some (draw_score draws (k + n)) <> old -> (n <= fuel)%nat ->
  exists j, (j <= n)%nat /\
    redraw fuel draws (S k) old (draw_score draws k) = Some (draw_score draws (k + j)) /\
    Some (draw_score draws (k + j)) <> old /\
    (forall i, (i < j)%nat -> Some (draw_score draws (k + i)) = old).
Proof.
  revert fuel k. induction n as [|n IH]; intros fuel k Hn Hf.
  - exists 0%nat. rewrite Nat.add_0_r in *. rewrite redraw_unfold, bool_decide_eq_false_2 by done.
    repeat split; [lia|done|lia].
  - rewrite redraw_unfold. case_bool_decide as Heq.
    + destruct fuel as [|fuel]; [lia|].
      destruct (IH fuel (S k)) as (j & Hj & Hr & Hne & Hbefore);
        [by rewrite Nat.add_succ_r in Hn|lia|].
      exists (S j). rewrite !Nat.add_succ_r. split; [lia|]. split; [done|]. split; [done|].
      intros [|i] Hi; [by rewrite Nat.add_0_r|]. rewrite Nat.add_succ_r. apply Hbefore. lia.
    + exists 0%nat. rewrite Nat.add_0_r. repeat split; [lia|done|lia].
Qed.

(** The score text determines the pair. *)
Lemma format_score_inj h a h' a' : format_score h a = format_score h' a' -> h = h' /\ a = a'.
Proof.
  unfold format_score. intros E.
  change (String.append (py_str h) (String ":" (py_str a))) with (py_join ":"%char [py_str h; py_str a]) in E.
  change (String.append (py_str h') (String ":" (py_str a'))) with (py_join ":"%char [py_str h'; py_str a']) in E.
  assert (Hs : py_split ":"%char (py_join ":"%char [py_str h; py_str a]) = py_split ":"%char (py_join ":"%char [py_str h'; py_str a']))
    by by rewrite E.
  assert (Hp : forall x y, Forall (fun p => ":"%char ∉ list_ascii_of_string p) [py_str x; py_str y])
    by (intros; repeat constructor; apply py_str_no_colon).
  rewrite !split_join in Hs by (done || apply Hp).
  injection Hs as Hh Ha. split.
  - pose proof (py_int_str h) as P. rewrite Hh, py_int_str in P. congruence.
  - pose proof (py_int_str a) as P. rewrite Ha, py_int_str in P. congruence.
Qed.

Lemma all_draws_NoDup : NoDup all_draws.
Proof. vm_compute. repeat constructor; set_solver. Qed.

Lemma build_query_no_filters : build_query no_filters = Ok "select * from fixture_results".
Proof. vm_compute. reflexivity. Qed.

Lemma to_result_dict_id d f w : FixtureResult_to_result_dict d f = Ok w -> fv_id w = fr_id f.
Proof. unfold FixtureResult_to_result_dict. intros E. py_inv. done. Qed.

(** A new score changes the [score] key of the result dict only. *)
Lemma to_result_dict_with_score d sc f w :
  FixtureResult_to_result_dict d f = Ok w ->
  FixtureResult_to_result_dict d (with_score sc f) =
    Ok (mk_view (fv_id w) (fv_matchday w) (fv_kickoffAt w) sc (fv_group w) (fv_leagueTitle w)
          (fv_homeTeam w) (fv_awayTeam w)).
Proof.
  unfold FixtureResult_to_result_dict. intros E. py_inv. simpl.
  rewrite Ha; simpl. rewrite Ha0; simpl. rewrite Ha1; simpl. by rewrite Ha2.
Qed.

(** The result dict reads only the catalog, which a score write keeps. *)
Lemma to_result_dict_set_score i sc d f :
  FixtureResult_to_result_dict (set_score i sc d) f = FixtureResult_to_result_dict d f.
Proof. reflexivity. Qed.

(** An update request for a stored id writes the score. *)
Lemma update_result_one `{JsonLoads (json_arg update_req)} d f i sc :
  db_get_fixture d i = Some f ->
  (update_result (ReqValue (JOne (mk_update (Val i) (Val sc)))) d).2 = set_score i (Some sc) d.
Proof. intros Hf. cbn -[db_get_fixture set_score]. by rewrite Hf. Qed.

Section UpdateTestProof.
Context `{JsonLoads filters} `{JsonLoads (json_arg update_req)}.
Variable exec : db -> string -> pyres (list query_row) * db.
(** The engine answers [select * from fixture_results] with every stored
    fixture, in scan order. *)
Hypothesis select_all :
  forall d, exec d "select * from fixture_results" = (Ok (map row_of_fixture (db_fixtures d)), d).

Lemma filter_all d :
  filter_route exec (ReqValue no_filters) d =
  (Body (match py_foldl (fun res row => let! r := parse_query_row d row in Ok (res ++ [r])) []
                 (map row_of_fixture (db_fixtures d)) with Ok res => res | Raise _ => [] end), d).
Proof.
  unfold filter_route, filter_results. cbn -[build_query]. rewrite build_query_no_filters.
  cbn -[parse_query_row py_foldl]. rewrite select_all. cbn -[parse_query_row py_foldl].
  by destruct (py_foldl _ _ _).
Qed.
End UpdateTestProof.

(** [respond] answers a body or a message, never an HTML page. *)
Lemma respond_not_html {A} (r : pyres A) : answer_is_error_text (respond r) = Some false.
Proof. by destruct r as [|[]]. Qed.

(** A publish that succeeds with a list returns at least one table: an
    empty list of tables leaves [standing] unbound. *)
Lemma handle_table_list_nonempty `{PySetOrder} a d ts :
  (handle_fixture_results a d).1 = Ok (TableList ts) -> ts <> [].
Proof.
  unfold handle_fixture_results. destruct (ingest_loop _ d) as [gids d']. simpl.
  destruct (gen_tables d' (set_iter gids)) as [standings|e]; simpl; [|done].
  destruct (last standings) as [t|] eqn:El; [|done].
  simpl. intros [= <-] ->. discriminate El.
Qed.

Lemma publish_data_list_nonempty `{PySetOrder} data d ts :
  (publish_data data d).1 = Ok (TableList ts) -> ts <> [].
Proof. destruct data; [done|done|apply handle_table_list_nonempty]. Qed.

(** The filter endpoint answers a body or a message. *)
Lemma filter_route_not_html `{JsonLoads filters} exec r d :
  answer_is_error_text (filter_route exec r d).1 = Some false.
Proof.
  unfold filter_route. destruct (get_data r) as [| |f]; [|done|];
    [destruct (filter_results exec None d)|destruct (filter_results exec (Some f) d)]; done.
Qed.

(** A publish answer that [loads] reads is true. *)
Lemma publish_answer_true `{PySetOrder} `{JsonLoads (json_arg submission)} input d r d' :
  publish input d = Some (r, d') -> negb <$> answer_is_falsy r = Some true.
Proof.
  unfold publish, publish_fixture_result.
  destruct input as [|s|a]; [done| |];
    destruct (publish_data _ d) as [[[t|ts]|[]] d1] eqn:E; simpl; intros [= <- <-]; try done;
    apply (f_equal fst), publish_data_list_nonempty in E; unfold answer_is_falsy;
    by rewrite bool_decide_eq_false_2.
Qed.

(** ** Properties *)

(** C10: [generate_new_score] terminates.  Given fuel for [n] more rounds,
    where round [n] draws a text other than [old_score], it returns the
    text of the first such round [j <= n], and every round before it
    repeated [old_score].  Of the 36 pairs a round can draw, at most one
    repeats [old_score], so every round ends the loop with probability at
    least 35/36. *)
Theorem generate_new_score_terminates draws old fuel n :
  Some (draw_score draws n) <> old -> (n <= fuel)%nat ->
  (exists j, (j <= n)%nat /\ generate_new_score fuel draws old = Some (draw_score draws j) /\
     Some (draw_score draws j) <> old /\
     (forall i, (i < j)%nat -> Some (draw_score draws i) = old)) /\
  (length (repeating_draws old) <= 1)%nat.
Proof.
  intros Hn Hf. split; [exact (redraw_first draws old fuel 0 n Hn Hf)|].
  unfold repeating_draws.
  destruct (filter _ all_draws) as [|[h a] [|[h' a'] l]] eqn:E; simpl; [lia|lia|exfalso].
  assert (Hnd : NoDup ((h, a) :: (h', a') :: l))
    by (rewrite <- E; apply NoDup_filter, all_draws_NoDup).
  assert (Hin : forall p, p ∈ (h, a) :: (h', a') :: l -> Some (format_score p.1 p.2) = old)
    by (intros p Hp; rewrite <- E in Hp; by apply list_elem_of_filter in Hp as [? _]).
  pose proof (Hin (h, a) ltac:(set_solver)) as H1. pose proof (Hin (h', a') ltac:(set_solver)) as H2.
  simpl in H1, H2. rewrite <- H2 in H1. injection H1 as H1.
  apply format_score_inj in H1 as [-> ->]. apply NoDup_cons in Hnd as [Hnd _]. set_solver.
Qed.

Section UpdateTestProperties.
Context `{PySetOrder} `{JsonLoads (json_arg submission)} `{JsonLoads filters}
        `{JsonLoads (json_arg update_req)}.
Variable exec : db -> string -> pyres (list query_row) * db.
Hypothesis select_all :
  forall d, exec d "select * from fixture_results" = (Ok (map row_of_fixture (db_fixtures d)), d).

(** C38: [test_update_result] passes whenever the first filter after the
    publish reads every stored result, given fuel for the first round that draws a score
    other than the first result's: the update finds the first stored
    fixture by its id, writes the new score, and the second filter
    returns that fixture first, with the new score.  The engine is
    assumed to answer [select * from fixture_results] with every stored
    fixture. *)
Theorem test_update_result_passes fuel draws input d0 resp d v vs n :
  publish input d0 = Some (resp, d) ->
  (filter_route exec (ReqValue no_filters) d).1 = Body (v :: vs) ->
  Some (draw_score draws n) <> fv_score v -> (n <= fuel)%nat ->
  test_update_result exec fuel draws input d0 = Some true.
Proof.
  intros Hp Hf Hn Hfuel. unfold test_update_result. rewrite Hp.
  rewrite (filter_all exec select_all) in Hf |- *. injection Hf as Hf. rewrite Hf.
  destruct (redraw_first draws (fv_score v) fuel 0 n Hn Hfuel) as (j & _ & Hg & _).
  unfold generate_new_score. rewrite Hg. set (ns := draw_score draws (0 + j)).
  destruct (py_foldl _ [] _) as [res|e] eqn:E; [subst res|discriminate].
  apply py_foldl_map_Ok in E as (ys & Hys & F). simpl in Hys. subst ys.
  destruct (db_fixtures d) as [|f0 fs] eqn:Ed; [inversion F|].
  simpl in F. apply Forall2_cons in F as [Hf0 F]. rewrite parse_query_row_fixture in Hf0.
  rewrite (to_result_dict_id _ _ _ Hf0).
  rewrite (update_result_one d f0)
    by (unfold db_get_fixture; rewrite Ed; simpl; by rewrite bool_decide_eq_true_2).
  rewrite (filter_all exec select_all). cbn [db_fixtures set_score]. rewrite Ed.
  cbn [map py_foldl]. rewrite bool_decide_eq_true_2 by done.
  rewrite parse_query_row_fixture, to_result_dict_set_score, (to_result_dict_with_score _ _ _ _ Hf0).
  simpl. match goal with |- context [py_foldl ?g [?w] ?rows] =>
    destruct (py_foldl_total g rows [w]) as [r Hr] end.
  { intros a x Hx. apply list_elem_of_fmap in Hx as (f' & -> & Hx).
    apply list_elem_of_fmap in Hx as (f & -> & Hx).
    destruct (Forall2_elem_l _ _ _ (row_of_fixture f) F) as (w & Hw);
      [by apply list_elem_of_fmap_2|].
    rewrite parse_query_row_fixture in Hw. rewrite parse_query_row_fixture, to_result_dict_set_score.
    case_bool_decide; [erewrite to_result_dict_with_score by exact Hw|rewrite Hw]; simpl; eauto. }
  rewrite Hr. apply py_foldl_map_Ok in Hr as (ys & -> & _). simpl.
  rewrite bool_decide_eq_true_2; [done|]. by rewrite (to_result_dict_id _ _ _ Hf0).
Qed.
End UpdateTestProperties.

Section OtherTestProperties.
Context `{PySetOrder} `{JsonLoads (json_arg submission)} `{JsonLoads (list target_group)}
        `{JsonLoads filters}.
Variable exec : db -> string -> pyres (list query_row) * db.

(** C12: the checks of [test_publish], [test_get_tabels] and
    [test_filter_results] never fail, whatever was published and
    whatever the database and the engine hold.  When the publish answers
    JSON, all three pass: a publish answers a non-empty list, a table or
    a message dict, all true; and the answers of the table and filter
    endpoints are decoded as lists or dicts, never equal to the string
    ['Error occured.'].  When it answers an HTML page (an [abort] or an
    uncaught exception), [loads] in [publish()] raises and all three stop
    with that exception. *)
Theorem network_test_checks_vacuous input d :
  match publish input d with
  | Some _ => test_publish input d = Some true /\ test_get_tabels input d = Some true /\
              test_filter_results exec input d = Some true
  | None => test_publish input d = None /\ test_get_tabels input d = None /\
            test_filter_results exec input d = None
  end.
Proof.
  unfold test_publish, test_get_tabels, test_filter_results.
  destruct (publish input d) as [[r d']|] eqn:E; [|done].
  split; [|split].
  - exact (publish_answer_true input d r d' E).
  - change (get_tables_route "all" ReqNone ?d') with (respond (get_tabels_for_groups None d')).
    by rewrite respond_not_html.
  - by rewrite filter_route_not_html.
Qed.
End OtherTestProperties.

(** ** Witnesses *)

(** Rounds drawing [3:1], [3:1], then [0:0]. *)
Definition sample_draws (k : nat) : Z * Z :=
  match k with O | S O => (3, 1) | _ => (0, 0) end.

Lemma generate_new_score_terminates_witness :
  Some (draw_score sample_draws 2) <> Some "3:1" /\ (2 <= 5)%nat /\
  generate_new_score 5 sample_draws (Some "3:1") = Some "0:0" /\
  (length (repeating_draws (Some "3:1")) <= 1)%nat.
Proof.
  assert (Hn : Some (draw_score sample_draws 2) <> Some "3:1") by (vm_compute; discriminate).
  assert (Hf : (2 <= 5)%nat) by lia.
  split; [exact Hn|]. split; [exact Hf|]. split; [vm_compute; reflexivity|].
  exact (proj2 (generate_new_score_terminates sample_draws (Some "3:1") 5 2 Hn Hf)).
Defined.

(** A decoder for the concrete requests below, which carry no text. *)
#[local] Instance loads_none {A} : JsonLoads A := fun _ => None.

Lemma test_update_result_passes_witness :
  let input := ReqValue (JOne sample_submission) in
  exists resp d v vs,
    (forall d, select_all_engine d "select * from fixture_results" =
               (Ok (map row_of_fixture (db_fixtures d)), d)) /\
    publish input empty_db = Some (resp, d) /\
    (filter_route select_all_engine (ReqValue no_filters) d).1 = Body (v :: vs) /\
    Some (draw_score sample_draws 2) <> fv_score v /\ (2 <= 5)%nat /\
    test_update_result select_all_engine 5 sample_draws input empty_db = Some true.
Proof.
  intros input.
  assert (Hs : forall d, select_all_engine d "select * from fixture_results" =
                         (Ok (map row_of_fixture (db_fixtures d)), d)) by reflexivity.
  destruct (publish input empty_db) as [[resp d]|] eqn:Ep; pose proof Ep as Ep'; vm_compute in Ep';
    [|discriminate Ep'].
  injection Ep' as _ Ed.
  destruct ((filter_route select_all_engine (ReqValue no_filters) d).1) as [c|[|v vs]|m c|] eqn:E;
    pose proof E as E'; rewrite <- Ed in E'; vm_compute in E'; try discriminate E'.
  injection E' as Ev Evs.
  assert (Hn : Some (draw_score sample_draws 2) <> fv_score v) by (rewrite <- Ev; vm_compute; discriminate).
  assert (Hf : (2 <= 5)%nat) by lia.
  exists resp, d, v, vs. split; [exact Hs|]. split; [reflexivity|]. split; [exact E|].
  split; [exact Hn|]. split; [exact Hf|].
  exact (test_update_result_passes select_all_engine Hs 5 sample_draws input empty_db resp d v vs 2 Ep E Hn Hf).
Defined.

End NetworkTests.
